(** * z80asm object-code output (z80aout.c): a shallow embedding

    The object-file part of [z80aout.c] is embedded as state-passing
    functions over a record holding the module's static variables and
    the streams it writes to.  [WORD] values are integers reduced modulo
    65536 wherever the C code stores them, [BYTE] values modulo 256. *)

From Stdlib Require Import ZArith String Ascii DecimalString.
From stdpp Require Import base list sorting.

Local Open Scope Z_scope.

(** ** Machine types *)

(** [WORD] is a 16-bit unsigned, [BYTE] an 8-bit unsigned integer: a
    store into a variable of the type reduces the value. *)
Definition WORD (z : Z) : Z := z mod 65536.
Definition BYTE (z : Z) : Z := z mod 256.

(** ** Global configuration (z80aglb.h) *)

Inductive format := OBJ_BIN | OBJ_MOS | OBJ_HEX.

(** The globals this module reads but never writes.  [MAXHEX], the
    capacity of [hex_buf], is a macro of z80a.h; its value is left
    open here, as one more setting. *)
Record globals := Globals {
  obj_fmt : format;
  load_flag : bool;
  load_addr : Z;
  nofill_flag : bool;
  hexlen : Z;
  start_addr : Z;
  pass : Z;
  srcfn : string;
  c_line : Z;
  MAXHEX : nat
}.

(** ** Module state *)

Record state := State {
  nseq_flag : bool;      (* flag for non-sequential ORG *)
  curr_addr : Z;         (* current logical file address *)
  bin_addr : Z;          (* current address written to file *)
  hex_addr : Z;          (* current address in hex record *)
  hex_cnt : Z;           (* number of bytes in hex buffer *)
  hex_buf : list Z;      (* buffer for one hex record *)
  objfp : list Z;        (* bytes written to the object file *)
  errfp : string;        (* text written to the error file *)
  errnum : Z;            (* pending error number for the listing *)
  errors : Z             (* error counter *)
}.

Definition set_nseq_flag (v : bool) (s : state) : state :=
  State v (curr_addr s) (bin_addr s) (hex_addr s) (hex_cnt s) (hex_buf s)
        (objfp s) (errfp s) (errnum s) (errors s).
Definition set_curr_addr (v : Z) (s : state) : state :=
  State (nseq_flag s) v (bin_addr s) (hex_addr s) (hex_cnt s) (hex_buf s)
        (objfp s) (errfp s) (errnum s) (errors s).
Definition set_bin_addr (v : Z) (s : state) : state :=
  State (nseq_flag s) (curr_addr s) v (hex_addr s) (hex_cnt s) (hex_buf s)
        (objfp s) (errfp s) (errnum s) (errors s).
Definition set_hex_addr (v : Z) (s : state) : state :=
  State (nseq_flag s) (curr_addr s) (bin_addr s) v (hex_cnt s) (hex_buf s)
        (objfp s) (errfp s) (errnum s) (errors s).
Definition set_hex_cnt (v : Z) (s : state) : state :=
  State (nseq_flag s) (curr_addr s) (bin_addr s) (hex_addr s) v (hex_buf s)
        (objfp s) (errfp s) (errnum s) (errors s).
Definition set_hex_buf (v : list Z) (s : state) : state :=
  State (nseq_flag s) (curr_addr s) (bin_addr s) (hex_addr s) (hex_cnt s) v
        (objfp s) (errfp s) (errnum s) (errors s).
Definition set_objfp (v : list Z) (s : state) : state :=
  State (nseq_flag s) (curr_addr s) (bin_addr s) (hex_addr s) (hex_cnt s)
        (hex_buf s) v (errfp s) (errnum s) (errors s).
Definition set_errfp (v : string) (s : state) : state :=
  State (nseq_flag s) (curr_addr s) (bin_addr s) (hex_addr s) (hex_cnt s)
        (hex_buf s) (objfp s) v (errnum s) (errors s).
Definition set_errnum (v : Z) (s : state) : state :=
  State (nseq_flag s) (curr_addr s) (bin_addr s) (hex_addr s) (hex_cnt s)
        (hex_buf s) (objfp s) (errfp s) v (errors s).
Definition set_errors (v : Z) (s : state) : state :=
  State (nseq_flag s) (curr_addr s) (bin_addr s) (hex_addr s) (hex_cnt s)
        (hex_buf s) (objfp s) (errfp s) (errnum s) v.

(** All statics are zero-initialised; nothing has been written yet. *)
Definition init_state (g : globals) : state :=
  State false 0 0 0 0 (replicate (MAXHEX g) 0) [] EmptyString 0 0.

(** ** Error reporting *)

Definition errmsg : list string :=
  [ "no error"; "invalid opcode"; "invalid operand"; "missing operand";
    "multiple defined symbol"; "undefined symbol"; "value out of range";
    "missing right parenthesis"; "missing string delimiter";
    "non-sequential object code"; "missing IF"; "IF nested too deep";
    "missing ENDIF"; "INCLUDE nested too deep";
    ".PHASE can not be nested"; "ORG in .PHASE block"; "missing .PHASE";
    "division by zero"; "invalid expression"; "object code before ORG";
    "illegal label"; "missing .DEPHASE"; "not in macro definition";
    "missing ENDM"; "not in macro expansion";
    "macro expansion nested too deep"; "too many local labels" ]%string.

(** The error numbers are macros of z80a.h; their values are the
    positions of the messages in [errmsg], as its comments number them. *)
Definition E_NSQWRT : Z := 9.
Definition E_BFRORG : Z := 19.

Definition nl : string := String (ascii_of_nat 10) EmptyString.

(** The two lines [asmerr] prints in pass 1: file and line, then the
    message. *)
Definition error_text (g : globals) (i : Z) : string :=
  ("Error in file: " ++ srcfn g ++ "  Line: "
   ++ NilZero.string_of_int (Z.to_int (c_line g)) ++ nl
   ++ nth (Z.to_nat i) errmsg EmptyString ++ nl)%string.

Definition asmerr (g : globals) (i : Z) (s : state) : state :=
  let s1 :=
    if pass g =? 1
    then set_errfp (errfp s ++ error_text g i)%string s
    else set_errnum i s in
  set_errors (errors s1 + 1) s1.

(** ** Object file primitives *)

(** [putc] converts its argument to [unsigned char]. *)
Definition putc (c : Z) (s : state) : state :=
  set_objfp (objfp s ++ [BYTE c]) s.

(** [fwrite(ops, 1, op_cnt, objfp)]. *)
Definition fwrite (ops : list Z) (op_cnt : Z) (s : state) : state :=
  set_objfp (objfp s ++ take (Z.to_nat op_cnt) ops) s.

(** ** The binary formats *)

(** [fill_bin]: the loop [while (bin_addr < curr_addr) { putc(0xff);
    bin_addr++; }].  Each turn closes the distance by one, so
    [curr_addr - bin_addr] turns are all the loop can take. *)
Fixpoint fill_bin_loop (fuel : nat) (s : state) : state :=
  match fuel with
  | O => s
  | S fuel' =>
      if bin_addr s <? curr_addr s then
        let s1 := putc 255 s in
        fill_bin_loop fuel' (set_bin_addr (WORD (bin_addr s1 + 1)) s1)
      else s
  end.

Definition fill_bin (s : state) : state :=
  fill_bin_loop (Z.to_nat (curr_addr s - bin_addr s)) s.

(** ** The hex format *)

Definition HEX_DATA : Z := 0.
Definition HEX_EOF : Z := 1.

(** [btoh]: two ASCII hex digits; ['0'] is 48 and ['7'] is 55, so the
    digit values 10..15 come out as ['A']..['F']. *)
Definition btoh (b : Z) : list Z :=
  let c := Z.shiftr b 4 in
  let d := Z.land b 15 in
  [c + (if c <? 10 then 48 else 55); d + (if d <? 10 then 48 else 55)].

(** [hex_buf[0]], ..., [hex_buf[n-1]], read one index at a time as the
    [for (n = 0; n < hex_cnt; n++)] loops do. *)
Fixpoint buf_upto (buf : list Z) (n : nat) : list Z :=
  match n with
  | O => []
  | S n' => buf_upto buf n' ++ [nth n' buf 0]
  end.

(** [chksum]: the accumulator is a [BYTE], reduced at every step. *)
Definition chksum (rec_type : Z) (s : state) : Z :=
  let sum := BYTE (hex_cnt s) in
  let sum := BYTE (sum + Z.shiftr (hex_addr s) 8) in
  let sum := BYTE (sum + Z.land (hex_addr s) 255) in
  let sum := BYTE (sum + rec_type) in
  let sum := fold_left (fun acc b => BYTE (acc + b))
                       (buf_upto (hex_buf s) (Z.to_nat (hex_cnt s))) sum in
  BYTE (- sum).

(** [hex_record]: the line built in [hex_out] and written with [fputs];
    [':'] is 58 and the line feed 10. *)
Definition hex_out (rec_type : Z) (s : state) : list Z :=
  [58]
  ++ btoh (BYTE (hex_cnt s))
  ++ btoh (BYTE (Z.shiftr (hex_addr s) 8))
  ++ btoh (BYTE (Z.land (hex_addr s) 255))
  ++ btoh rec_type
  ++ flat_map btoh (buf_upto (hex_buf s) (Z.to_nat (hex_cnt s)))
  ++ btoh (chksum rec_type s)
  ++ [10].

Definition hex_record (rec_type : Z) (s : state) : state :=
  set_objfp (objfp s ++ hex_out rec_type s) s.

Definition flush_hex (s : state) : state :=
  let s1 := if hex_cnt s =? 0 then s
            else set_hex_cnt 0 (hex_record HEX_DATA s) in
  set_hex_addr (curr_addr s1) s1.

Definition eof_hex (addr : Z) (s : state) : state :=
  hex_record HEX_EOF (set_hex_addr addr (set_hex_cnt 0 s)).

(** [hex_buf[hex_cnt++] = b]: the store reduces to a [BYTE]; an index
    outside the array is undefined in C and leaves the list as it is. *)
Definition hex_put (b : Z) (s : state) : state :=
  set_hex_cnt (WORD (hex_cnt s + 1))
    (set_hex_buf (<[Z.to_nat (hex_cnt s) := BYTE b]> (hex_buf s)) s).

(** The [for (i = 0; op_cnt > 0; op_cnt--)] loop of [obj_writeb]. *)
Fixpoint writeb_hex_loop (g : globals) (ops : list Z) (op_cnt : nat)
    (i : nat) (s : state) : state :=
  match op_cnt with
  | O => s
  | S op_cnt' =>
      let s1 := if hexlen g <=? hex_cnt s then flush_hex s else s in
      let s2 := hex_put (nth i ops 0) s1 in
      let s3 := set_curr_addr (WORD (curr_addr s2 + 1)) s2 in
      writeb_hex_loop g ops op_cnt' (S i) s3
  end.

(** The [while (n-- > 0)] loops of [obj_fill_value]. *)
Fixpoint fill_bin_value_loop (n : nat) (value : Z) (s : state) : state :=
  match n with
  | O => s
  | S n' => fill_bin_value_loop n' value (putc value s)
  end.

Fixpoint fill_hex_value_loop (g : globals) (n : nat) (value : Z)
    (s : state) : state :=
  match n with
  | O => s
  | S n' =>
      let s1 := if hexlen g <=? hex_cnt s then flush_hex s else s in
      let s2 := hex_put value s1 in
      let s3 := set_curr_addr (WORD (curr_addr s2 + 1)) s2 in
      fill_hex_value_loop g n' value s3
  end.

(** ** The operations *)

Definition obj_header (g : globals) (s : state) : state :=
  match obj_fmt g with
  | OBJ_BIN => s
  | OBJ_MOS =>
      putc (Z.shiftr (load_addr g) 8)
        (putc (Z.land (load_addr g) 255) (putc 255 s))
  | OBJ_HEX => s
  end.

Definition obj_end (g : globals) (s : state) : state :=
  match obj_fmt g with
  | OBJ_BIN | OBJ_MOS =>
      if negb (nofill_flag g)
         && negb (load_flag g && (bin_addr s <? load_addr g))
      then fill_bin s else s
  | OBJ_HEX => eof_hex (start_addr g) (flush_hex s)
  end.

Definition obj_org (g : globals) (addr : Z) (s : state) : state :=
  match obj_fmt g with
  | OBJ_BIN | OBJ_MOS =>
      let s1 := set_nseq_flag (addr <? curr_addr s) s in
      let s2 := if load_flag g && (bin_addr s1 <? load_addr g)
                then set_bin_addr addr s1 else s1 in
      set_curr_addr addr s2
  | OBJ_HEX => set_curr_addr addr s
  end.

(** [ops] is the assembler's opcode buffer, [op_cnt] how many of its
    bytes to write. *)
Definition obj_writeb (g : globals) (ops : list Z) (op_cnt : Z)
    (s : state) : state :=
  if op_cnt =? 0 then s else
  match obj_fmt g with
  | OBJ_BIN | OBJ_MOS =>
      if nseq_flag s then asmerr g E_NSQWRT s
      else
        let s1 :=
          if load_flag g && (bin_addr s <? load_addr g)
          then asmerr g E_BFRORG s
          else
            let s2 := fwrite ops op_cnt (fill_bin s) in
            set_bin_addr (WORD (bin_addr s2 + op_cnt)) s2 in
        set_curr_addr (WORD (curr_addr s1 + op_cnt)) s1
  | OBJ_HEX =>
      let s1 := if hex_addr s + hex_cnt s =? curr_addr s then s
                else flush_hex s in
      writeb_hex_loop g ops (Z.to_nat op_cnt) 0 s1
  end.

Definition obj_fill (g : globals) (count : Z) (s : state) : state :=
  if count =? 0 then s else
  match obj_fmt g with
  | OBJ_BIN | OBJ_MOS =>
      if nseq_flag s then s
      else set_curr_addr (WORD (curr_addr s + count)) s
  | OBJ_HEX => set_curr_addr (WORD (curr_addr s + count)) s
  end.

Definition obj_fill_value (g : globals) (count value : Z)
    (s : state) : state :=
  if count =? 0 then s else
  match obj_fmt g with
  | OBJ_BIN | OBJ_MOS =>
      if nseq_flag s then asmerr g E_NSQWRT s
      else
        let s1 :=
          if load_flag g && (bin_addr s <? load_addr g)
          then asmerr g E_BFRORG s
          else
            let s2 := fill_bin_value_loop (Z.to_nat count) value
                        (fill_bin s) in
            set_bin_addr (WORD (bin_addr s2 + count)) s2 in
        set_curr_addr (WORD (curr_addr s1 + count)) s1
  | OBJ_HEX =>
      let s1 := if hex_addr s + hex_cnt s =? curr_addr s then s
                else flush_hex s in
      fill_hex_value_loop g (Z.to_nat count) value s1
  end.

(** ** Driving the emitter *)

(** One call of the operation surface. *)
Inductive op :=
  | Org (addr : Z)
  | Write (bytes : list Z)
  | Skip (count : Z)
  | FillValue (count value : Z)
  | End.

Definition step (g : globals) (o : op) (s : state) : state :=
  match o with
  | Org addr => obj_org g addr s
  | Write bytes => obj_writeb g bytes (Z.of_nat (length bytes)) s
  | Skip count => obj_fill g count s
  | FillValue count value => obj_fill_value g count value s
  | End => obj_end g s
  end.

Definition run (g : globals) (os : list op) (s : state) : state :=
  fold_left (fun s o => step g o s) os s.

(** The state after [obj_header], where code generation starts. *)
Definition begin (g : globals) : state := obj_header g (init_state g).

Definition raw_binary : globals :=
  Globals OBJ_BIN false 0 false 32 0 2 "prog.asm" 1 32.

(** ** Vocabulary of the statements *)

Definition binary_format (g : globals) : bool :=
  match obj_fmt g with
  | OBJ_BIN | OBJ_MOS => true
  | OBJ_HEX => false
  end.

(** The load-address gate of the binary formats: closed while a load
    address is set and the file position is still below it. *)
Definition gate_closed (g : globals) (s : state) : bool :=
  load_flag g && (bin_addr s <? load_addr g).

Definition sumZ (l : list Z) : Z := foldr Z.add 0 l.

(** The binary fields of the record [hex_record] writes, in the order
    of the line: count, address high, address low, type, payload,
    checksum. *)
Definition record_head (rec_type : Z) (s : state) : list Z :=
  [BYTE (hex_cnt s); BYTE (Z.shiftr (hex_addr s) 8);
   BYTE (Z.land (hex_addr s) 255); rec_type]
  ++ buf_upto (hex_buf s) (Z.to_nat (hex_cnt s)).

Definition record_fields (rec_type : Z) (s : state) : list Z :=
  record_head rec_type s ++ [chksum rec_type s].

(** [reported g i s s']: going from [s] to [s'], error [i] was reported
    once: the counter went up by one, and the message went to the
    error file (pass 1) or its number was left for the listing. *)
Definition reported (g : globals) (i : Z) (s s' : state) : Prop :=
  errors s' = errors s + 1
  /\ (if pass g =? 1
      then errfp s' = (errfp s ++ error_text g i)%string
           /\ errnum s' = errnum s
      else errfp s' = errfp s /\ errnum s' = i).

(** The emission state proper: everything but the error bookkeeping. *)
Definition same_emission (s s' : state) : Prop :=
  nseq_flag s' = nseq_flag s /\ curr_addr s' = curr_addr s
  /\ bin_addr s' = bin_addr s /\ hex_addr s' = hex_addr s
  /\ hex_cnt s' = hex_cnt s /\ hex_buf s' = hex_buf s
  /\ objfp s' = objfp s.

Definition loader_binary : globals :=
  Globals OBJ_MOS true 256 false 32 0 2 "prog.asm" 1 32.

(** The calls that emit or skip bytes, as opposed to [Org] and [End]. *)
Definition is_emit (o : op) : bool :=
  match o with
  | Write _ | Skip _ | FillValue _ _ => true
  | Org _ | End => false
  end.

(** [forward s o]: from [s], the call [o] moves the logical address
    forward or not at all, and not past 65535: an origin is not below
    the current address, and a write, skip or fill does not wrap. *)
Definition forward (s : state) (o : op) : bool :=
  match o with
  | Org addr => (curr_addr s <=? addr) && (addr <? 65536)
  | Write bytes => curr_addr s + Z.of_nat (length bytes) <? 65536
  | Skip count | FillValue count _ =>
      (0 <=? count) && (curr_addr s + count <? 65536)
  | End => true
  end.

Fixpoint forward_run (g : globals) (os : list op) (s : state) : bool :=
  match os with
  | [] => true
  | o :: os' => forward s o && forward_run g os' (step g o s)
  end.

(** ** Reading a hex file back *)

(** One record of a hex file: starting address, type and payload. *)
Record hexrec := HexRec {
  rec_addr : Z;
  rec_type : Z;
  rec_data : list Z
}.

(** The line format [:CCAAAATTDD...DDSS\n] of the hex file, written
    from a record rather than from the module state. *)
Definition render (r : hexrec) : list Z :=
  let head := [Z.of_nat (length (rec_data r)); Z.shiftr (rec_addr r) 8;
               Z.land (rec_addr r) 255; rec_type r] ++ rec_data r in
  [58] ++ flat_map btoh (head ++ [(- sumZ head) mod 256]) ++ [10].

(** Value of one hex digit ['0'..'9'], ['A'..'F']. *)
Definition htoc (c : Z) : option Z :=
  if (48 <=? c) && (c <=? 57) then Some (c - 48)
  else if (65 <=? c) && (c <=? 70) then Some (c - 55)
  else None.

(** [read_bytes n l]: the [n] bytes written as [2n] hex digits at the
    head of [l], and what follows them. *)
Fixpoint read_bytes (n : nat) (l : list Z) : option (list Z * list Z) :=
  match n with
  | O => Some ([], l)
  | S n' =>
      match l with
      | h :: d :: l' =>
          match htoc h, htoc d, read_bytes n' l' with
          | Some x, Some y, Some (bs, rest) => Some (16 * x + y :: bs, rest)
          | _, _, _ => None
          end
      | _ => None
      end
  end.

(** One line: start marker, count, address, type, payload, a checksum
    that makes the fields sum to 0 modulo 256, line feed. *)
Definition parse_record (l : list Z) : option (hexrec * list Z) :=
  match l with
  | c :: l1 =>
      if c =? 58 then
        match read_bytes 4 l1 with
        | Some ([cnt; hi; lo; ty], l2) =>
            match read_bytes (Z.to_nat cnt) l2 with
            | Some (data, l3) =>
                match read_bytes 1 l3 with
                | Some ([ck], e :: l4) =>
                    if (e =? 10)
                       && (sumZ ([cnt; hi; lo; ty] ++ data ++ [ck]) mod 256
                           =? 0)
                    then Some (HexRec (256 * hi + lo) ty data, l4)
                    else None
                | _ => None
                end
            | None => None
            end
        | _ => None
        end
      else None
  | [] => None
  end.

Fixpoint parse_records (fuel : nat) (l : list Z) : option (list hexrec) :=
  match l with
  | [] => Some []
  | _ :: _ =>
      match fuel with
      | O => None
      | S fuel' =>
          match parse_record l with
          | Some (r, rest) =>
              match parse_records fuel' rest with
              | Some rs => Some (r :: rs)
              | None => None
              end
          | None => None
          end
      end
  end.

(** Every record takes at least one character, so the length of the
    text is fuel enough. *)
Definition parse_hex_file (l : list Z) : option (list hexrec) :=
  parse_records (length l) l.

(** ** Bytes and their addresses *)

(** [tag a bs]: the bytes [bs] with the addresses [a], [a+1], ... *)
Fixpoint tag (a : Z) (bs : list Z) : list (Z * Z) :=
  match bs with
  | [] => []
  | b :: bs' => (a, b) :: tag (a + 1) bs'
  end.

(** The address/byte pairs the records of a hex file carry, in file
    order. *)
Definition payload (recs : list hexrec) : list (Z * Z) :=
  flat_map (fun r => tag (rec_addr r) (rec_data r)) recs.

(** Address order on address/byte pairs. *)
Definition addr_lt (p q : Z * Z) : Prop := p.1 < q.1.

(** The bytes a call hands over for emission, and how far it moves
    the logical address.  A fill hands over the low eight bits of its
    value, [count] times. *)
Definition emitted (o : op) : list Z :=
  match o with
  | Write bytes => bytes
  | FillValue count value => replicate (Z.to_nat count) (value mod 256)
  | Org _ | Skip _ | End => []
  end.

Definition advance (o : op) : Z :=
  match o with
  | Write bytes => Z.of_nat (length bytes)
  | Skip count | FillValue count _ => count
  | Org _ | End => 0
  end.

(** The address/byte pairs supplied by a sequence of writes, skips and
    fills that starts at logical address [a], and the address it ends
    at (not reduced modulo 65536). *)
Fixpoint supplied (a : Z) (os : list op) : list (Z * Z) :=
  match os with
  | [] => []
  | o :: os' => tag a (emitted o) ++ supplied (a + advance o) os'
  end.

Fixpoint span (a : Z) (os : list op) : Z :=
  match os with
  | [] => a
  | o :: os' => span (a + advance o) os'
  end.

Definition is_byte (b : Z) : bool := (0 <=? b) && (b <? 256).

(** Well-formed arguments: the bytes of a write are [BYTE]s, the
    counts of skips and fills are [WORD]s. *)
Definition wf_op (o : op) : bool :=
  match o with
  | Write bytes => forallb is_byte bytes
  | Skip count | FillValue count _ => (0 <=? count) && (count <? 65536)
  | Org _ | End => false
  end.

(** The settings under which nothing the caller supplies is held
    back: in the binary formats no load address above 0 (so the gate
    is never closed), in the hex format a record length within the
    buffer, whose capacity fits the one-byte count field, and a start
    address that is a [WORD]. *)
Definition config_ok (g : globals) : bool :=
  match obj_fmt g with
  | OBJ_BIN | OBJ_MOS => negb (load_flag g) || (load_addr g <=? 0)
  | OBJ_HEX =>
      (hexlen g <=? Z.of_nat (MAXHEX g))
      && (1 <=? Z.of_nat (MAXHEX g)) && (Z.of_nat (MAXHEX g) <=? 255)
      && (0 <=? start_addr g) && (start_addr g <? 65536)
  end.

(** The bytes of the hex buffer that are in use. *)
Definition pending (s : state) : list Z :=
  take (Z.to_nat (hex_cnt s)) (hex_buf s).

(** One turn of either hex loop, storing [b]. *)
Definition hex_turn (g : globals) (b : Z) (s : state) : state :=
  let s1 := if hexlen g <=? hex_cnt s then flush_hex s else s in
  let s2 := hex_put b s1 in
  set_curr_addr (WORD (curr_addr s2 + 1)) s2.

(** What a sequence of writes, skips and fills appends to a binary
    file whose position is [p] when the logical address is [a]: before
    the bytes of a call, the gap up to the logical address as 0xFF. *)
Fixpoint bin_image (p a : Z) (os : list op) : list Z :=
  match os with
  | [] => []
  | o :: os' =>
      match emitted o with
      | [] => bin_image p (a + advance o) os'
      | bs => replicate (Z.to_nat (a - p)) 255 ++ bs
              ++ bin_image (a + advance o) (a + advance o) os'
      end
  end.

(** Records that fit the line format: a 16-bit address, one-byte
    type and count, payload of bytes. *)
Definition okrec (r : hexrec) : Prop :=
  0 <= rec_addr r < 65536 /\ 0 <= rec_type r < 256
  /\ Z.of_nat (length (rec_data r)) < 256
  /\ Forall (fun b => 0 <= b < 256) (rec_data r).

(** What the hex encoder keeps true of its state: the count is within
    the buffer, the buffer has its declared size and holds bytes, and
    the two addresses are [WORD]s. *)
Definition hinv (g : globals) (s : state) : Prop :=
  0 <= hex_cnt s <= Z.of_nat (MAXHEX g)
  /\ length (hex_buf s) = MAXHEX g
  /\ Forall (fun b => 0 <= b < 256) (hex_buf s)
  /\ 0 <= hex_addr s < 65536
  /\ 0 <= curr_addr s < 65536.

(** [hex_emits g s s' extra]: going from [s] to [s'] the hex encoder
    wrote whole data records and nothing else, kept its invariant,
    and the pairs carried by those records followed by the pairs
    still in the buffer are the pairs that were in the buffer before
    followed by [extra]. *)
Definition hex_emits (g : globals) (s s' : state) (extra : list (Z * Z))
    : Prop :=
  exists recs,
    objfp s' = objfp s ++ flat_map render recs
    /\ Forall okrec recs
    /\ Forall (fun r => rec_type r = HEX_DATA) recs
    /\ hinv g s'
    /\ payload recs ++ tag (hex_addr s') (pending s')
       = tag (hex_addr s) (pending s) ++ extra.

(** The hex half of [config_ok]. *)
Definition hex_config (g : globals) : Prop :=
  hexlen g <= Z.of_nat (MAXHEX g) /\ 1 <= Z.of_nat (MAXHEX g) <= 255.

Definition hex_limit_4 : globals :=
  Globals OBJ_HEX false 0 false 4 0 2 "prog.asm" 1 32.

(** ** Further vocabulary *)

(** [rejects g o s]: in state [s] the call [o] is a write or fill of
    at least one byte that a binary format turns down, because the
    latch is set or the load-address gate is closed. *)
Definition rejects (g : globals) (o : op) (s : state) : bool :=
  binary_format g
  && match o with
     | Write bytes => negb (Z.of_nat (length bytes) =? 0)
     | FillValue count _ => negb (count =? 0)
     | Org _ | Skip _ | End => false
     end
  && (nseq_flag s || gate_closed g s).

(** Everything the error path owns. *)
Definition same_errors (s s' : state) : Prop :=
  errors s' = errors s /\ errnum s' = errnum s /\ errfp s' = errfp s.


(** What the hex encoder never touches: the error state, the latch
    and the binary file position. *)
Definition hex_frame (s s' : state) : Prop :=
  same_errors s s' /\ nseq_flag s' = nseq_flag s /\ bin_addr s' = bin_addr s.


(** [below_gate g o]: the call, if an origin change, stays below the
    load address. *)
Definition below_gate (g : globals) (o : op) : bool :=
  match o with
  | Org addr => addr <? load_addr g
  | Write _ | Skip _ | FillValue _ _ | End => true
  end.


(** ** Hex files of arbitrary call sequences *)

(** A data record of at least one and at most [hexlen] bytes (one
    byte when [hexlen] is below 1). *)
Definition sized (g : globals) (r : hexrec) : Prop :=
  rec_type r = HEX_DATA
  /\ 1 <= Z.of_nat (length (rec_data r)) <= Z.max 1 (hexlen g).

(** The invariant of the hex encoder together with the bound the
    record length limit puts on the buffer. *)
Definition hsize (g : globals) (s : state) : Prop :=
  hinv g s /\ hex_cnt s <= Z.max 1 (hexlen g).

(** [hex_writes g s s']: going from [s] to [s'] the encoder wrote
    whole data records within the length limit, and nothing else. *)
Definition hex_writes (g : globals) (s s' : state) : Prop :=
  exists recs,
    objfp s' = objfp s ++ flat_map render recs
    /\ Forall okrec recs /\ Forall (sized g) recs /\ hsize g s'.

(** Calls with arguments of their C types, [obj_end] apart: an origin
    is a [WORD]. *)
Definition lawful (o : op) : bool :=
  match o with
  | Org addr => (0 <=? addr) && (addr <? 65536)
  | Write _ | Skip _ | FillValue _ _ => true
  | End => false
  end.

(** The address/byte pairs a sequence of origin changes, writes,
    skips and fills places, starting at logical address [a]. *)
Fixpoint placed (a : Z) (os : list op) : list (Z * Z) :=
  match os with
  | [] => []
  | Org addr :: os' => placed addr os'
  | o :: os' => tag a (emitted o) ++ placed (a + advance o) os'
  end.

(** No call of the sequence runs past address 65535. *)
Fixpoint placeable (a : Z) (os : list op) : bool :=
  match os with
  | [] => true
  | Org addr :: os' =>
      (0 <=? addr) && (addr <? 65536) && placeable addr os'
  | o :: os' =>
      wf_op o && (a + advance o <=? 65536)
      && placeable (a + advance o) os'
  end.


(** No call of the sequence runs past address 65535 and no origin
    change goes back. *)
Fixpoint forward_placeable (a : Z) (os : list op) : bool :=
  match os with
  | [] => true
  | Org addr :: os' =>
      (a <=? addr) && (addr <? 65536) && forward_placeable addr os'
  | o :: os' =>
      wf_op o && (a + advance o <=? 65536)
      && forward_placeable (a + advance o) os'
  end.

(** The same sequence with every origin change written as the skip
    that leads to it. *)
Fixpoint as_skips (a : Z) (os : list op) : list op :=
  match os with
  | [] => []
  | Org addr :: os' => Skip (addr - a) :: as_skips addr os'
  | o :: os' => o :: as_skips (a + advance o) os'
  end.


(** * The listing functions *)

(** ** Listing state and settings *)

(** [a_mode]: how the address column of a listing line is filled.
    [A_OTHER] stands for every value the switch of [lst_line] has no
    case for. *)
Inductive addr_mode := A_STD | A_EQU | A_SET | A_DS | A_NONE | A_OTHER.

(** The listing globals this module reads but never writes.  [REL] is
    the release string, a macro of z80a.h; [ULONG_MAX] is the largest
    [unsigned long] of the platform, the type of [s_line]; [symmax] is
    the width of the name column of the symbol table. *)
Record lglobals := LGlobals {
  list_flag : bool;
  ppl : Z;
  a_mode : addr_mode;
  REL : string;
  ULONG_MAX : Z;
  symmax : Z
}.

(** [unsigned long] arithmetic wraps around. *)
Definition ULONG (lg : lglobals) (z : Z) : Z := z mod (ULONG_MAX lg + 1).

(** An [unsigned long] read as a [long], which is what [%ld] prints. *)
Definition as_long (lg : lglobals) (z : Z) : Z :=
  if ULONG_MAX lg / 2 <? z then z - (ULONG_MAX lg + 1) else z.

(** What the listing functions change: the list file, the globals
    [p_line], [page], [a_addr], the statics [s_line] of [lst_line],
    [header_done] of [lst_header] and [attl_done] of [lst_attl], and
    [clock], the answers [ctime(time())] is still to give, in order. *)
Record listing := Listing {
  lstfp : list Z;
  p_line : Z;
  page : Z;
  s_line : Z;
  header_done : bool;
  attl_done : bool;
  a_addr : Z;
  clock : list string
}.

Definition set_lstfp (v : list Z) (l : listing) : listing :=
  Listing v (p_line l) (page l) (s_line l) (header_done l) (attl_done l)
          (a_addr l) (clock l).
Definition set_p_line (v : Z) (l : listing) : listing :=
  Listing (lstfp l) v (page l) (s_line l) (header_done l) (attl_done l)
          (a_addr l) (clock l).
Definition set_page (v : Z) (l : listing) : listing :=
  Listing (lstfp l) (p_line l) v (s_line l) (header_done l) (attl_done l)
          (a_addr l) (clock l).
Definition set_s_line (v : Z) (l : listing) : listing :=
  Listing (lstfp l) (p_line l) (page l) v (header_done l) (attl_done l)
          (a_addr l) (clock l).
Definition set_header_done (v : bool) (l : listing) : listing :=
  Listing (lstfp l) (p_line l) (page l) (s_line l) v (attl_done l)
          (a_addr l) (clock l).
Definition set_attl_done (v : bool) (l : listing) : listing :=
  Listing (lstfp l) (p_line l) (page l) (s_line l) (header_done l) v
          (a_addr l) (clock l).
Definition set_a_addr (v : Z) (l : listing) : listing :=
  Listing (lstfp l) (p_line l) (page l) (s_line l) (header_done l)
          (attl_done l) v (clock l).
Definition set_clock (v : list string) (l : listing) : listing :=
  Listing (lstfp l) (p_line l) (page l) (s_line l) (header_done l)
          (attl_done l) (a_addr l) v.

(** ** Text *)

(** The character codes of a string. *)
Definition chars (s : string) : list Z :=
  map (fun c => Z.of_N (N_of_ascii c)) (list_ascii_of_string s).

(** [%ld] and [%d]: the decimal digits, with a minus sign if negative. *)
Definition dec (z : Z) : list Z := chars (NilZero.string_of_int (Z.to_int z)).

(** Right-justified in a field of at least [w] characters, as [%5ld]. *)
Definition pad_left (w : nat) (l : list Z) : list Z :=
  replicate (w - length l) 32 ++ l.

Definition fputs_lst (text : list Z) (l : listing) : listing :=
  set_lstfp (lstfp l ++ text) l.

(** [lst_byte]: two hex digits into the list file; ['W'] is 87, so
    the digit values 10..15 come out as ['a']..['f']. *)
Definition lst_byte (b : Z) (l : listing) : listing :=
  let c := Z.shiftr b 4 in
  let d := Z.land b 15 in
  fputs_lst [d + (if d <? 10 then 48 else 87)]
    (fputs_lst [c + (if c <? 10 then 48 else 87)] l).

(** Value of one hex digit ['0'..'9'], ['a'..'f']. *)
Definition ltoc (c : Z) : option Z :=
  if (48 <=? c) && (c <=? 57) then Some (c - 48)
  else if (97 <=? c) && (c <=? 102) then Some (c - 87)
  else None.

(** Capital letters to small ones. *)
Definition to_lower (c : Z) : Z :=
  if (65 <=? c) && (c <=? 90) then c + 32 else c.

(** ** Page header and column titles *)

Definition lst_header (g : globals) (lg : lglobals) (title : string)
    (l : listing) : listing :=
  let now := hd EmptyString (clock l) in
  let l := set_clock (tl (clock l)) l in
  let l := if header_done l && negb (ppl lg =? 0)
           then fputs_lst [12] l else l in
  let l := if negb (header_done l) || negb (ppl lg =? 0)
           then fputs_lst (chars "Z80-Macro-Assembler  Release "
                           ++ chars (REL lg) ++ [9] ++ take 24 (chars now)) l
           else l in
  let l := if negb (ppl lg =? 0)
           then
             let l := set_page (page l + 1) l in
             let l := fputs_lst ([9] ++ chars "Page " ++ dec (page l) ++ [10])
                        l in
             let l := fputs_lst (chars "Source file: " ++ chars (srcfn g)
                                 ++ [10]) l in
             let l := fputs_lst (chars "Title:       " ++ chars title) l in
             set_p_line 3 l
           else set_p_line 0 l in
  set_header_done true (fputs_lst [10] l).

Definition lst_attl (lg : lglobals) (l : listing) : listing :=
  let l := if negb (attl_done l) || negb (ppl lg =? 0)
           then fputs_lst ([10]
                           ++ chars "LOC   OBJECT CODE   LINE   STMT SOURCE CODE"
                           ++ [10]) l
           else l in
  let l := if negb (ppl lg =? 0) then set_p_line (p_line l + 2) l else l in
  set_attl_done true l.

(** ** One listing line *)

(** [lst_header(); lst_attl(); if (ppl != 0) p_line++;], the block
    [lst_line] runs at each page break. *)
Definition page_break (g : globals) (lg : lglobals) (title : string)
    (l : listing) : listing :=
  let l := lst_attl lg (lst_header g lg title l) in
  if negb (ppl lg =? 0) then set_p_line (p_line l + 1) l else l.

(** The [for (j = 0; j < 4; j++)] loops: [n] turns are left, [mark]
    is what the first column shows when there is no byte for it. *)
Fixpoint lst_cols (ops : list Z) (mark : list Z) (n : nat) (j : Z)
    (op_cnt : Z) (i : nat) (l : listing) : Z * nat * listing :=
  match n with
  | O => (op_cnt, i, l)
  | S n' =>
      let '(i1, l1) :=
        if 0 <? op_cnt then (S i, lst_byte (nth i ops 0) l)
        else (i, fputs_lst (if j =? 0 then mark else chars "  ") l) in
      lst_cols ops mark n' (j + 1) (op_cnt - 1) i1 (fputs_lst [32] l1)
  end.

(** [%c%5ld %6ld], the line and statement numbers. *)
Definition line_numbers (g : globals) (lg : lglobals) (expn_flag : bool)
    (l : listing) : list Z :=
  [if expn_flag then 43 else 32] ++ pad_left 5 (dec (c_line g)) ++ [32]
  ++ pad_left 6 (dec (as_long lg (s_line l))).

(** The [while (op_cnt > 0)] loop: the lines for the bytes that did
    not fit the first one.  Each turn takes four off [op_cnt]. *)
Fixpoint lst_more (g : globals) (lg : lglobals) (title : string)
    (ops : list Z) (expn_flag : bool) (fuel : nat) (addr : Z) (op_cnt : Z)
    (i : nat) (l : listing) : listing :=
  match fuel with
  | O => l
  | S fuel' =>
      if 0 <? op_cnt then
        let l := if negb (ppl lg =? 0) then set_p_line (p_line l + 1) l
                 else l in
        let l := if ppl lg <? p_line l then page_break g lg title l else l in
        let l := set_s_line (ULONG lg (s_line l + 1)) l in
        let addr := WORD (addr + 4) in
        let l := lst_byte (BYTE (Z.land addr 255))
                   (lst_byte (BYTE (Z.shiftr addr 8)) l) in
        let l := fputs_lst (chars "  ") l in
        let '(op_cnt, i, l) := lst_cols ops (chars "  ") 4 0 op_cnt i l in
        let l := fputs_lst (line_numbers g lg expn_flag l ++ [10]) l in
        lst_more g lg title ops expn_flag fuel' addr op_cnt i l
      else l
  end.

Definition E_NOERR : Z := 0.

(** [lst_line]; [ops] is the opcode buffer, [title] the global title
    the header prints, [src] the source line.  [None] is the call of
    [fatal] for an [a_mode] without a case, which ends the program. *)
Definition lst_line (g : globals) (lg : lglobals) (title : string)
    (ops : list Z) (src : string) (addr : Z) (op_cnt : Z)
    (expn_flag : bool) (st : state) (l : listing)
    : option (state * listing) :=
  let l := set_s_line (ULONG lg (s_line l + 1)) l in
  if negb (list_flag lg) then Some (st, l) else
  let l := if negb (ppl lg =? 0) then set_p_line (p_line l + 1) l else l in
  let l := if (ppl lg <? p_line l) || (c_line g =? 1)
           then page_break g lg title l else l in
  match a_mode lg with
  | A_OTHER => None
  | m =>
      let l := match m with A_STD => set_a_addr addr l | _ => l end in
      let a_mark := match m with
                    | A_EQU => chars "= "
                    | A_SET => chars "# "
                    | _ => chars "  "
                    end in
      let op_cnt := match m with A_DS => 0 | _ => op_cnt end in
      let l := match m with
               | A_NONE => fputs_lst (chars "    ") l
               | _ => lst_byte (BYTE (Z.land (a_addr l) 255))
                        (lst_byte (BYTE (Z.shiftr (a_addr l) 8)) l)
               end in
      let l := fputs_lst (chars "  ") l in
      let '(op_cnt, i, l) := lst_cols ops a_mark 4 0 op_cnt 0 l in
      let l := fputs_lst (line_numbers g lg expn_flag l ++ [32] ++ chars src)
                 l in
      let '(st, l) :=
        if errnum st =? E_NOERR then (st, l)
        else
          (set_errnum E_NOERR
             (set_errfp (errfp st ++ "=> "
                         ++ nth (Z.to_nat (errnum st)) errmsg EmptyString
                         ++ nl)%string st),
           if negb (ppl lg =? 0) then set_p_line (p_line l + 1) l else l) in
      let l := lst_more g lg title ops expn_flag (Z.to_nat op_cnt) addr
                 op_cnt i l in
      let l := if p_line l <? 0 then set_p_line 1 l else l in
      Some (st, l)
  end.

(** ** The symbol table *)

(** What the listing reads of a [struct sym]; the chain link
    [sym_next] is the list a symbol stands in. *)
Record sym := Sym {
  sym_name : string;
  sym_val : Z;
  sym_refcnt : Z
}.

(** [%*s] with the width [-symmax]: the name, filled up with blanks
    to [symmax] characters on the right; a negative [symmax] makes
    the width positive, and then the blanks go to the left. *)
Definition name_field (lg : lglobals) (name : string) : list Z :=
  let n := chars name in
  if 0 <=? symmax lg
  then n ++ replicate (Z.to_nat (symmax lg) - length n) 32
  else replicate (Z.to_nat (- symmax lg) - length n) 32 ++ n.

(** The body both symbol table loops run for one symbol: a page
    header if a page starts here, the name, the value in hex, a blank
    or a star, and then a line end or three blanks.  [j] is the
    column counter. *)
Definition lst_sym_entry (g : globals) (lg : lglobals) (np : sym)
    (jl : Z * listing) : Z * listing :=
  let '(j, l) := jl in
  let l :=
    if p_line l =? 0 then
      let l := lst_header g lg "Symbol table" l in
      let l := if ppl lg =? 0
               then fputs_lst [10] (fputs_lst (chars "Symbol table") l)
               else l in
      let l := fputs_lst [10] l in
      set_p_line (p_line l + 1) l
    else l in
  let l := fputs_lst (name_field lg (sym_name np) ++ [32]) l in
  let l := lst_byte (BYTE (Z.shiftr (sym_val np) 8)) l in
  let l := lst_byte (BYTE (Z.land (sym_val np) 255)) l in
  let l := fputs_lst [if 0 <? sym_refcnt np then 32 else 42] l in
  let j := j + symmax lg + 9 in
  if 80 <=? j + symmax lg + 6 then
    let l := fputs_lst [10] l in
    let l := if negb (ppl lg =? 0)
             then
               let l := set_p_line (p_line l + 1) l in
               if ppl lg <=? p_line l then set_p_line 0 l else l
             else l in
    (0, l)
  else (j, fputs_lst (chars "   ") l).

(** The [while (i < len)] loop of [lst_sort_sym]; [None] if it reads
    past the end of [symarray]. *)
Fixpoint lst_sort_sym_loop (g : globals) (lg : lglobals) (symarray : list sym)
    (n : nat) (i : nat) (jl : Z * listing) : option (Z * listing) :=
  match n with
  | O => Some jl
  | S n' =>
      match symarray !! i with
      | None => None
      | Some np =>
          lst_sort_sym_loop g lg symarray n' (S i) (lst_sym_entry g lg np jl)
      end
  end.

(** [lst_sort_sym]; the result is the new [title] and the listing. *)
Definition lst_sort_sym (g : globals) (lg : lglobals) (symarray : list sym)
    (len : Z) (l : listing) : option (string * listing) :=
  match lst_sort_sym_loop g lg symarray (Z.to_nat len) 0 (0, set_p_line 0 l)
  with
  | None => None
  | Some (j, l) =>
      Some ("Symbol table"%string, if 0 <? j then fputs_lst [10] l else l)
  end.

(** [lst_sym]; [symtab] has [HASHSIZE] chains, an empty chain being a
    [NULL] entry. *)
Definition lst_sym (g : globals) (lg : lglobals) (symtab : list (list sym))
    (l : listing) : string * listing :=
  let '(j, l) :=
    fold_left
      (fun jl chain =>
         fold_left (fun jl np => lst_sym_entry g lg np jl) chain jl)
      symtab (0, set_p_line 0 l) in
  ("Symbol table"%string, if 0 <? j then fputs_lst [10] l else l).

Definition listing_on : lglobals :=
  LGlobals true 60 A_STD "1.10" 18446744073709551615 8.

Definition empty_listing : listing :=
  Listing [] 0 0 0 false false 0 ["Fri Oct 30 12:00:00 2026"%string].


(** ** Vocabulary of the listing statements *)

(** The lines [lst_line] adds after the first one: none for [A_DS],
    otherwise one for each started group of four bytes past the first
    four. *)
Definition continuation_lines (m : addr_mode) (op_cnt : Z) : Z :=
  match m with
  | A_DS => 0
  | _ => Z.max 0 ((op_cnt - 1) / 4)
  end.

(** What [lst_line] prints to the error file for a pending error. *)
Definition error_mark (i : Z) : string :=
  if i =? E_NOERR then EmptyString
  else ("=> " ++ nth (Z.to_nat i) errmsg EmptyString ++ nl)%string.

(** The most lines a counted page is let grow to. *)
Definition page_room (lg : lglobals) : Z := Z.max (ppl lg) 6 + 1.


(** How many symbols the table puts on a line. *)
Definition per_line (lg : lglobals) : Z := Z.max 1 (82 / (symmax lg + 9)).

(** A symbol as the table shows it: name column, blank, the value as
    four small hex digits, and a star if the symbol is never used. *)
Definition sym_text (lg : lglobals) (np : sym) : list Z :=
  name_field lg (sym_name np) ++ [32]
  ++ map to_lower (btoh (BYTE (Z.shiftr (sym_val np) 8))
                   ++ btoh (BYTE (Z.land (sym_val np) 255)))
  ++ [if 0 <? sym_refcnt np then 32 else 42].

(** The symbols of a run of entries, one after the other from a
    column counter and a listing. *)
Definition lst_entries (g : globals) (lg : lglobals) (syms : list sym)
    (jl : Z * listing) : Z * listing :=
  fold_left (fun jl np => lst_sym_entry g lg np jl) syms jl.


(** What [lst_header] prints, given [header_done], the page number
    and the time of day it finds. *)
Definition header_text (g : globals) (lg : lglobals) (title : string)
    (done : bool) (pg : Z) (now : string) : list Z :=
  (if done && negb (ppl lg =? 0) then [12] else [])
  ++ (if negb done || negb (ppl lg =? 0)
      then chars "Z80-Macro-Assembler  Release " ++ chars (REL lg) ++ [9]
           ++ take 24 (chars now)
      else [])
  ++ (if negb (ppl lg =? 0)
      then [9] ++ chars "Page " ++ dec (pg + 1) ++ [10]
           ++ chars "Source file: " ++ chars (srcfn g) ++ [10]
           ++ chars "Title:       " ++ chars title
      else [])
  ++ [10].

(** What [lst_attl] prints, given [attl_done]. *)
Definition attl_text (lg : lglobals) (done : bool) : list Z :=
  if negb done || negb (ppl lg =? 0)
  then [10] ++ chars "LOC   OBJECT CODE   LINE   STMT SOURCE CODE" ++ [10]
  else [].


(** ** The binary emitter in five values *)

(** What a binary format reads and writes of the state: the latch,
    the logical address, the file position, the file and the error
    count. *)
Definition view (s : state) : bool * Z * Z * list Z * Z :=
  (nseq_flag s, curr_addr s, bin_addr s, objfp s, errors s).

(** The load-address gate at file position [b]. *)
Definition gate_at (g : globals) (b : Z) : bool :=
  load_flag g && (b <? load_addr g).

(** The calls of a binary format in closed form, on the five values;
    [view_step] below shows that [step] does this. *)
Definition bin_step (g : globals) (o : op)
    (v : bool * Z * Z * list Z * Z) : bool * Z * Z * list Z * Z :=
  let '(n, c, b, f, e) := v in
  let put (k : Z) (bytes : list Z) :=
    if k =? 0 then v
    else if n then (n, c, b, f, e + 1)
    else if gate_at g b then (n, WORD (c + k), b, f, e + 1)
    else (n, WORD (c + k), WORD (Z.max b c + k),
          f ++ replicate (Z.to_nat (c - b)) 255 ++ bytes, e) in
  match o with
  | Org addr => (addr <? c, addr, if gate_at g b then addr else b, f, e)
  | Write bytes => put (Z.of_nat (length bytes)) bytes
  | Skip count =>
      if (count =? 0) || n then v else (n, WORD (c + count), b, f, e)
  | FillValue count value =>
      put count (replicate (Z.to_nat count) (BYTE value))
  | End =>
      if negb (nofill_flag g) && negb (gate_at g b)
      then (n, c, Z.max b c, f ++ replicate (Z.to_nat (c - b)) 255, e)
      else v
  end.

(** A sequence of calls in closed form, as long as the file position
    is not negative and the logical address below 65536 before each
    call. *)
Fixpoint bin_run (g : globals) (os : list op)
    (v : bool * Z * Z * list Z * Z) : option (bool * Z * Z * list Z * Z) :=
  match os with
  | [] => Some v
  | o :: os' =>
      if (0 <=? v.1.1.2) && (v.1.1.1.2 <? 65536)
      then bin_run g os' (bin_step g o v)
      else None
  end.




(** * Properties *)

(** ** [fill_bin] in closed form *)

Lemma fill_bin_loop_closed (n : nat) :
  forall s, 0 <= bin_addr s -> curr_addr s < 65536 ->
    Z.of_nat n <= curr_addr s - bin_addr s ->
    fill_bin_loop n s =
      set_bin_addr (bin_addr s + Z.of_nat n)
        (set_objfp (objfp s ++ replicate n 255) s).
Proof.
  induction n as [|n IH]; intros s Hb Hc Hn.
  - destruct s; cbn. rewrite Z.add_0_r, app_nil_r. reflexivity.
  - cbn [fill_bin_loop].
    destruct (Z.ltb_spec (bin_addr s) (curr_addr s)) as [Hlt|Hge]; [|lia].
    assert (Hw : WORD (bin_addr s + 1) = bin_addr s + 1)
      by (apply Z.mod_small; lia).
    rewrite IH; unfold set_bin_addr, set_objfp, putc; cbn; rewrite ?Hw;
      try lia.
    rewrite <- app_assoc. cbn. f_equal. lia.
Qed.

Lemma fill_bin_closed (s : state) :
  0 <= bin_addr s -> curr_addr s < 65536 ->
  fill_bin s =
    set_bin_addr (Z.max (bin_addr s) (curr_addr s))
      (set_objfp
         (objfp s ++ replicate (Z.to_nat (curr_addr s - bin_addr s)) 255) s).
Proof.
  intros Hb Hc. unfold fill_bin.
  destruct (Z.le_gt_cases (curr_addr s) (bin_addr s)) as [Hle|Hgt].
  - replace (Z.to_nat (curr_addr s - bin_addr s)) with O by lia.
    rewrite Z.max_l by lia. destruct s; cbn. by rewrite app_nil_r.
  - rewrite fill_bin_loop_closed by lia. f_equal. lia.
Qed.

(** The loop of [fill_bin] ends with its guard false: the fuel given
    to it is enough. *)
Lemma fill_bin_caught_up (s : state) :
  0 <= bin_addr s -> curr_addr s < 65536 ->
  curr_addr (fill_bin s) <= bin_addr (fill_bin s).
Proof.
  intros Hb Hc. rewrite fill_bin_closed by assumption.
  destruct s; cbn in *. lia.
Qed.

(** ** Checksum *)

Lemma fold_byte_sum (l : list Z) :
  forall a, (fold_left (fun acc b => BYTE (acc + b)) l a) mod 256
            = (a + sumZ l) mod 256.
Proof.
  induction l as [|x l IH]; intros a; cbn [fold_left].
  - unfold sumZ; cbn. by rewrite Z.add_0_r.
  - rewrite IH. unfold BYTE. rewrite Zplus_mod_idemp_l.
    change (sumZ (x :: l)) with (x + sumZ l). f_equal. lia.
Qed.

Lemma sumZ_app (l1 l2 : list Z) : sumZ (l1 ++ l2) = sumZ l1 + sumZ l2.
Proof.
  induction l1 as [|x l1 IH]; [reflexivity|].
  change (x + sumZ (l1 ++ l2) = x + sumZ l1 + sumZ l2). rewrite IH. lia.
Qed.

Lemma chksum_negates (rec_type : Z) (s : state) :
  chksum rec_type s = (- sumZ (record_head rec_type s)) mod 256.
Proof.
  unfold chksum, record_head.
  set (pl := buf_upto _ _).
  rewrite sumZ_app.
  change (sumZ [BYTE (hex_cnt s); BYTE (Z.shiftr (hex_addr s) 8);
                BYTE (Z.land (hex_addr s) 255); rec_type])
    with (BYTE (hex_cnt s) + (BYTE (Z.shiftr (hex_addr s) 8)
          + (BYTE (Z.land (hex_addr s) 255) + (rec_type + 0)))).
  pose proof (fold_byte_sum pl
    (BYTE (BYTE (BYTE (BYTE (hex_cnt s) + Z.shiftr (hex_addr s) 8)
                 + Z.land (hex_addr s) 255) + rec_type))) as HF.
  set (F := fold_left _ _ _) in *.
  generalize dependent (sumZ pl). intros P HF.
  generalize dependent (Z.shiftr (hex_addr s) 8).
  generalize dependent (Z.land (hex_addr s) 255).
  generalize dependent (hex_cnt s). clear.
  intros c F lo hi. unfold BYTE. intros HF.
  Z.div_mod_to_equations. lia.
Qed.

(** C2: every record [hex_record] writes, of whatever type, is the
    rendering of its fields count, address high, address low, type,
    payload and checksum; the checksum is the two's complement modulo
    256 of the sum of the fields before it, and the sum of all fields
    including the checksum is 0 modulo 256. *)
Theorem C2_record_checksum (rec_type : Z) (s : state) :
  objfp (hex_record rec_type s)
    = objfp s ++ [58] ++ flat_map btoh (record_fields rec_type s) ++ [10]
  /\ chksum rec_type s = (- sumZ (record_head rec_type s)) mod 256
  /\ sumZ (record_fields rec_type s) mod 256 = 0.
Proof.
  split; [|split].
  - unfold hex_record, hex_out, record_fields, record_head. cbn.
    rewrite !flat_map_app. cbn. rewrite <- !app_assoc. reflexivity.
  - apply chksum_negates.
  - unfold record_fields. rewrite sumZ_app, chksum_negates.
    change (sumZ [?x]) with (x + 0).
    generalize (sumZ (record_head rec_type s)). intros h.
    Z.div_mod_to_equations. lia.
Qed.

(** The two records the module emits are instances: the data record
    of [flush_hex] and the end-of-file record of [eof_hex]. *)
Lemma flush_hex_objfp (s : state) :
  objfp (flush_hex s)
    = objfp s ++ (if hex_cnt s =? 0 then [] else hex_out HEX_DATA s).
Proof.
  unfold flush_hex. destruct (hex_cnt s =? 0); cbn.
  - by rewrite app_nil_r.
  - reflexivity.
Qed.

Lemma eof_hex_objfp (addr : Z) (s : state) :
  objfp (eof_hex addr s)
    = objfp s ++ hex_out HEX_EOF (set_hex_addr addr (set_hex_cnt 0 s)).
Proof. reflexivity. Qed.

(** ** Finalising a binary file *)

Lemma obj_end_binary (g : globals) (s : state) :
  binary_format g = true ->
  0 <= bin_addr s -> curr_addr s < 65536 ->
  obj_end g s =
    if negb (nofill_flag g) && negb (gate_closed g s)
    then set_bin_addr (Z.max (bin_addr s) (curr_addr s))
           (set_objfp
              (objfp s
               ++ replicate (Z.to_nat (curr_addr s - bin_addr s)) 255) s)
    else s.
Proof.
  intros Hf Hb Hc. unfold obj_end, binary_format, gate_closed in *.
  destruct (obj_fmt g); try discriminate;
    destruct (negb (nofill_flag g) && _); try reflexivity;
    by apply fill_bin_closed.
Qed.

(** C7: in the binary formats [obj_end] appends the 0xFF fill from the
    file position up to the logical address, and moves the file
    position there, exactly when filling is enabled, the load-address
    gate is not closed and the file position has not already caught
    up with the logical address; in every other case it appends
    nothing and leaves the state as it is. *)
Theorem C7_obj_end_fill (g : globals) (s : state) :
  binary_format g = true ->
  0 <= bin_addr s -> curr_addr s < 65536 ->
  obj_end g s =
    if negb (nofill_flag g) && negb (gate_closed g s)
       && (bin_addr s <? curr_addr s)
    then set_bin_addr (curr_addr s)
           (set_objfp
              (objfp s
               ++ replicate (Z.to_nat (curr_addr s - bin_addr s)) 255) s)
    else s.
Proof.
  intros Hf Hb Hc. rewrite obj_end_binary by assumption.
  destruct (negb (nofill_flag g) && negb (gate_closed g s));
    [|reflexivity].
  cbn [andb]. destruct (Z.ltb_spec (bin_addr s) (curr_addr s)).
  - by rewrite Z.max_r by lia.
  - replace (Z.to_nat (curr_addr s - bin_addr s)) with 0%nat by lia.
    rewrite Z.max_l by lia. destruct s; cbn. by rewrite app_nil_r.
Qed.

Lemma C7_obj_end_fill_witness :
  let s := State false 5 2 0 0 [] [1; 2] EmptyString 0 0 in
  (binary_format raw_binary = true /\ 0 <= bin_addr s
   /\ curr_addr s < 65536)
  /\ obj_end raw_binary s
     = State false 5 5 0 0 [] [1; 2; 255; 255; 255] EmptyString 0 0.
Proof.
  cbv zeta. split; [cbn; repeat split; lia|].
  rewrite C7_obj_end_fill; [reflexivity | reflexivity | cbn; lia | cbn; lia].
Defined.

(** ** The two error conditions *)

Lemma asmerr_reported (g : globals) (i : Z) (s : state) :
  reported g i s (asmerr g i s) /\ same_emission s (asmerr g i s).
Proof.
  unfold reported, same_emission, asmerr, error_text.
  destruct (pass g =? 1); cbn; repeat split; try reflexivity.
Qed.

Lemma errmsg_E_NSQWRT :
  nth (Z.to_nat E_NSQWRT) errmsg EmptyString
    = "non-sequential object code"%string.
Proof. reflexivity. Qed.

Lemma errmsg_E_BFRORG :
  nth (Z.to_nat E_BFRORG) errmsg EmptyString
    = "object code before ORG"%string.
Proof. reflexivity. Qed.

(** C5 as stated fails for an empty call: [obj_writeb] with no bytes
    and [obj_fill_value] with count 0 return at once, latched or not,
    and report nothing. *)
Lemma C5_counterexample :
  let g := raw_binary in
  let s := run g [Org 10; Write [1]; Org 5] (begin g) in
  nseq_flag s = true
  /\ obj_writeb g [] 0 s = s
  /\ obj_fill_value g 0 255 s = s
  /\ errors (obj_writeb g [] 0 s) = errors s
  /\ errors (obj_fill_value g 0 255 s) = errors s.
Proof. vm_compute. repeat split. Qed.

(** C5 (amended): in the binary formats, a write of at least one byte
    or a fill of at least one byte made while [nseq_flag] is set is
    the error report E_NSQWRT and nothing else: one report, and the
    flag, both addresses, the hex state and the object file are as
    before. *)
Theorem C5_nonsequential_write (g : globals) (s : state) (ops : list Z)
    (op_cnt count value : Z) :
  binary_format g = true -> nseq_flag s = true ->
  op_cnt <> 0 -> count <> 0 ->
  let s1 := obj_writeb g ops op_cnt s in
  let s2 := obj_fill_value g count value s in
  (s1 = asmerr g E_NSQWRT s
   /\ reported g E_NSQWRT s s1 /\ same_emission s s1)
  /\ (s2 = asmerr g E_NSQWRT s
      /\ reported g E_NSQWRT s s2 /\ same_emission s s2).
Proof.
  intros Hf Hn Ho Hc s1 s2.
  assert (E1 : s1 = asmerr g E_NSQWRT s).
  { subst s1. unfold obj_writeb, binary_format in *.
    destruct (Z.eqb_spec op_cnt 0); [contradiction|].
    destruct (obj_fmt g); try discriminate; by rewrite Hn. }
  assert (E2 : s2 = asmerr g E_NSQWRT s).
  { subst s2. unfold obj_fill_value, binary_format in *.
    destruct (Z.eqb_spec count 0); [contradiction|].
    destruct (obj_fmt g); try discriminate; by rewrite Hn. }
  rewrite E1, E2. pose proof (asmerr_reported g E_NSQWRT s) as [? ?].
  split; (split; [reflexivity | split; assumption]).
Qed.

Lemma C5_nonsequential_write_witness :
  let g := raw_binary in
  let s := run g [Org 10; Write [1]; Org 5] (begin g) in
  (binary_format g = true /\ nseq_flag s = true /\ 1 <> 0 /\ 3 <> 0)
  /\ (obj_writeb g [7] 1 s = asmerr g E_NSQWRT s
      /\ reported g E_NSQWRT s (obj_writeb g [7] 1 s)
      /\ same_emission s (obj_writeb g [7] 1 s))
  /\ (obj_fill_value g 3 0 s = asmerr g E_NSQWRT s
      /\ reported g E_NSQWRT s (obj_fill_value g 3 0 s)
      /\ same_emission s (obj_fill_value g 3 0 s)).
Proof.
  cbv zeta. split; [repeat split; lia|].
  apply (C5_nonsequential_write raw_binary _ [7] 1 3 0);
    [reflexivity | reflexivity | lia | lia].
Defined.

(** C6: in the binary formats with a load address set, a write or a
    fill of at least one byte made while [nseq_flag] is clear and the
    file position is below the load address reports E_BFRORG once,
    leaves the object file and the file position as they are, and
    still advances the logical address by the byte count (as a
    [WORD], so modulo 65536). *)
Theorem C6_write_before_origin (g : globals) (s : state) (ops : list Z)
    (op_cnt count value : Z) :
  binary_format g = true -> load_flag g = true ->
  nseq_flag s = false -> bin_addr s < load_addr g ->
  op_cnt <> 0 -> count <> 0 ->
  let s1 := obj_writeb g ops op_cnt s in
  let s2 := obj_fill_value g count value s in
  (reported g E_BFRORG s s1
   /\ objfp s1 = objfp s /\ bin_addr s1 = bin_addr s
   /\ curr_addr s1 = (curr_addr s + op_cnt) mod 65536
   /\ s1 = set_curr_addr (WORD (curr_addr s + op_cnt))
             (asmerr g E_BFRORG s))
  /\ (reported g E_BFRORG s s2
      /\ objfp s2 = objfp s /\ bin_addr s2 = bin_addr s
      /\ curr_addr s2 = (curr_addr s + count) mod 65536
      /\ s2 = set_curr_addr (WORD (curr_addr s + count))
                (asmerr g E_BFRORG s)).
Proof.
  intros Hf Hl Hn Hb Ho Hc s1 s2.
  assert (Hg : load_flag g && (bin_addr s <? load_addr g) = true).
  { rewrite Hl. cbn. by apply Z.ltb_lt. }
  assert (E1 : s1 = set_curr_addr (WORD (curr_addr s + op_cnt))
                      (asmerr g E_BFRORG s)).
  { subst s1. unfold obj_writeb, binary_format in *.
    destruct (Z.eqb_spec op_cnt 0); [contradiction|].
    destruct (obj_fmt g); try discriminate; rewrite Hn, Hg;
      destruct (pass g =? 1) eqn:E; unfold asmerr; rewrite E; reflexivity. }
  assert (E2 : s2 = set_curr_addr (WORD (curr_addr s + count))
                      (asmerr g E_BFRORG s)).
  { subst s2. unfold obj_fill_value, binary_format in *.
    destruct (Z.eqb_spec count 0); [contradiction|].
    destruct (obj_fmt g); try discriminate; rewrite Hn, Hg;
      destruct (pass g =? 1) eqn:E; unfold asmerr; rewrite E; reflexivity. }
  pose proof (asmerr_reported g E_BFRORG s) as [[He Hr] Hs].
  destruct Hs as (_ & _ & Hbin & _ & _ & _ & Hobj).
  rewrite E1, E2. unfold reported. cbn.
  destruct (pass g =? 1); cbn in *; repeat split; tauto.
Qed.

Lemma C6_write_before_origin_witness :
  let g := loader_binary in
  let s := begin g in
  (binary_format g = true /\ load_flag g = true /\ nseq_flag s = false
   /\ bin_addr s < load_addr g /\ 1 <> 0 /\ 4 <> 0)
  /\ curr_addr (obj_writeb g [170] 1 s) = (curr_addr s + 1) mod 65536
  /\ objfp (obj_fill_value g 4 0 s) = objfp s.
Proof.
  cbv zeta. split; [cbn; repeat split; lia|].
  pose proof (C6_write_before_origin loader_binary (begin loader_binary)
                [170] 1 4 0) as H.
  cbv zeta in H.
  destruct H as [(_ & _ & _ & H1 & _) (_ & H2 & _)];
    [reflexivity | reflexivity | reflexivity | cbn; lia | lia | lia | ].
  split; assumption.
Defined.

(** ** Loops of the binary fill *)

Lemma fill_bin_value_loop_closed (n : nat) (value : Z) :
  forall s, fill_bin_value_loop n value s
            = set_objfp (objfp s ++ replicate n (BYTE value)) s.
Proof.
  induction n as [|n IH]; intros s; cbn [fill_bin_value_loop replicate].
  - rewrite app_nil_r. destruct s; reflexivity.
  - rewrite IH. unfold putc, set_objfp. cbn. by rewrite <- app_assoc.
Qed.

(** ** Origin changes and the non-sequential latch *)

Lemma run_app (g : globals) (os1 os2 : list op) (s : state) :
  run g (os1 ++ os2) s = run g os2 (run g os1 s).
Proof. apply fold_left_app. Qed.

Lemma run_cons (g : globals) (o : op) (os : list op) (s : state) :
  run g (o :: os) s = run g os (step g o s).
Proof. reflexivity. Qed.

(** A latched emitter stays as it is, errors apart, under writes,
    skips and fills. *)
Lemma latched_step (g : globals) (o : op) (s : state) :
  binary_format g = true -> nseq_flag s = true -> is_emit o = true ->
  same_emission s (step g o s).
Proof.
  intros Hf Hn Ho. unfold binary_format in Hf.
  assert (Hrefl : same_emission s s) by (repeat split).
  assert (Herr : forall i, same_emission s (asmerr g i s))
    by (intros i; apply asmerr_reported).
  destruct o as [addr|bytes|count|count value|]; try discriminate; cbn.
  - unfold obj_writeb. destruct (_ =? 0); [exact Hrefl|].
    destruct (obj_fmt g); try discriminate; rewrite Hn; apply Herr.
  - unfold obj_fill. destruct (_ =? 0); [exact Hrefl|].
    destruct (obj_fmt g); try discriminate; rewrite Hn; exact Hrefl.
  - unfold obj_fill_value. destruct (_ =? 0); [exact Hrefl|].
    destruct (obj_fmt g); try discriminate; rewrite Hn; apply Herr.
Qed.

Lemma same_emission_trans (s1 s2 s3 : state) :
  same_emission s1 s2 -> same_emission s2 s3 -> same_emission s1 s3.
Proof.
  unfold same_emission. intros H1 H2.
  destruct H1 as (?&?&?&?&?&?&?), H2 as (?&?&?&?&?&?&?).
  repeat split; congruence.
Qed.

Lemma latched_run (g : globals) (os : list op) :
  forall s, binary_format g = true -> nseq_flag s = true ->
    forallb is_emit os = true -> same_emission s (run g os s).
Proof.
  induction os as [|o os IH]; intros s Hf Hn Ho.
  - repeat split.
  - cbn in Ho. apply andb_prop in Ho as [Ho Hos]. rewrite run_cons.
    pose proof (latched_step g o s Hf Hn Ho) as Hstep.
    eapply same_emission_trans; [exact Hstep|].
    apply IH; try assumption.
    destruct Hstep as (-> & _). exact Hn.
Qed.

Lemma obj_org_binary (g : globals) (addr : Z) (s : state) :
  binary_format g = true ->
  nseq_flag (obj_org g addr s) = (addr <? curr_addr s)
  /\ curr_addr (obj_org g addr s) = addr
  /\ bin_addr (obj_org g addr s)
     = (if gate_closed g s then addr else bin_addr s)
  /\ objfp (obj_org g addr s) = objfp s.
Proof.
  unfold binary_format, obj_org, gate_closed.
  destruct (obj_fmt g); try discriminate; intros _; cbn;
    destruct (load_flag g && _); repeat split.
Qed.

(** C3 as stated fails: after origin 10, one byte, origin 5 the
    logical address is 5, not the 11 it was when the regression was
    seen, and an origin of 7, below 11, already clears the latch; the
    next byte then goes to file position 11 though its address is 7. *)
Lemma C3_counterexample :
  let g := raw_binary in
  let s := run g [Org 10; Write [1]; Org 5] (begin g) in
  curr_addr (run g [Org 10; Write [1]] (begin g)) = 11
  /\ nseq_flag s = true /\ curr_addr s = 5
  /\ nseq_flag (obj_org g 7 s) = false
  /\ objfp (run g [Org 7; Write [9]] s) !! 11%nat = Some 9
  /\ errors (run g [Org 7; Write [9]] s) = 0.
Proof. vm_compute. repeat split. Qed.

(** ** The binary write path in closed form *)

Lemma obj_writeb_binary_ok (g : globals) (ops : list Z) (op_cnt : Z)
    (s : state) :
  binary_format g = true -> nseq_flag s = false ->
  gate_closed g s = false -> op_cnt <> 0 ->
  0 <= bin_addr s -> curr_addr s < 65536 ->
  obj_writeb g ops op_cnt s =
    set_curr_addr (WORD (curr_addr s + op_cnt))
      (set_bin_addr (WORD (Z.max (bin_addr s) (curr_addr s) + op_cnt))
         (set_objfp
            (objfp s
             ++ replicate (Z.to_nat (curr_addr s - bin_addr s)) 255
             ++ take (Z.to_nat op_cnt) ops) s)).
Proof.
  intros Hf Hn Hg Ho Hb Hc. unfold obj_writeb, binary_format, gate_closed in *.
  destruct (Z.eqb_spec op_cnt 0); [contradiction|].
  destruct (obj_fmt g); try discriminate; rewrite Hn, Hg;
    rewrite fill_bin_closed by assumption;
    unfold fwrite, set_curr_addr, set_bin_addr, set_objfp; cbn;
    by rewrite <- app_assoc.
Qed.

Lemma obj_fill_value_binary_ok (g : globals) (count value : Z) (s : state) :
  binary_format g = true -> nseq_flag s = false ->
  gate_closed g s = false -> count <> 0 ->
  0 <= bin_addr s -> curr_addr s < 65536 ->
  obj_fill_value g count value s =
    set_curr_addr (WORD (curr_addr s + count))
      (set_bin_addr (WORD (Z.max (bin_addr s) (curr_addr s) + count))
         (set_objfp
            (objfp s
             ++ replicate (Z.to_nat (curr_addr s - bin_addr s)) 255
             ++ replicate (Z.to_nat count) (BYTE value)) s)).
Proof.
  intros Hf Hn Hg Ho Hb Hc.
  unfold obj_fill_value, binary_format, gate_closed in *.
  destruct (Z.eqb_spec count 0); [contradiction|].
  destruct (obj_fmt g); try discriminate; rewrite Hn, Hg;
    rewrite fill_bin_value_loop_closed, fill_bin_closed by assumption;
    unfold set_curr_addr, set_bin_addr, set_objfp; cbn;
    by rewrite <- app_assoc.
Qed.

(** ** The binary calls in closed form *)

Lemma asmerr_view (g : globals) (i : Z) (s : state) :
  view (asmerr g i s)
  = (nseq_flag s, curr_addr s, bin_addr s, objfp s, errors s + 1).
Proof. unfold view, asmerr. by destruct (pass g =? 1). Qed.

Lemma view_step (g : globals) (o : op) (s : state) :
  binary_format g = true -> 0 <= bin_addr s -> curr_addr s < 65536 ->
  view (step g o s) = bin_step g o (view s).
Proof.
  intros Hf Hb Hc.
  assert (Hfmt : obj_fmt g = OBJ_BIN \/ obj_fmt g = OBJ_MOS).
  { unfold binary_format in Hf. destruct (obj_fmt g); auto; discriminate. }
  destruct o as [addr|bytes|count|count value|]; cbn [step].
  - unfold obj_org, view, bin_step, gate_at.
    destruct Hfmt as [-> | ->]; cbn;
      by destruct (load_flag g && (bin_addr s <? load_addr g)).
  - unfold bin_step, view at 2, gate_at.
    destruct (Z.eqb_spec (Z.of_nat (length bytes)) 0) as [Hz|Hnz].
    { unfold obj_writeb. by rewrite Hz. }
    destruct (nseq_flag s) eqn:Hn.
    { unfold obj_writeb. rewrite (proj2 (Z.eqb_neq _ _) Hnz), Hn.
      destruct Hfmt as [-> | ->]; by rewrite asmerr_view, Hn. }
    destruct (load_flag g && (bin_addr s <? load_addr g)) eqn:Hg.
    + unfold obj_writeb. rewrite (proj2 (Z.eqb_neq _ _) Hnz), Hn, Hg.
      destruct (asmerr_reported g E_BFRORG s)
        as [(H5 & _) (H1 & H2 & H3 & _ & _ & _ & H4)].
      destruct Hfmt as [-> | ->]; unfold view, set_curr_addr;
        cbn [nseq_flag curr_addr bin_addr objfp errors];
        by rewrite H1, H2, H3, H4, H5, Hn.
    + rewrite obj_writeb_binary_ok by (assumption || lia).
      unfold view. cbn. by rewrite Nat2Z.id, firstn_all, Hn.
  - unfold obj_fill, bin_step, view.
    destruct (count =? 0); [reflexivity|]. cbn [orb].
    destruct Hfmt as [-> | ->]; destruct (nseq_flag s) eqn:E; cbn;
      by rewrite ?E.
  - unfold bin_step, view at 2, gate_at.
    destruct (Z.eqb_spec count 0) as [Hz|Hnz].
    { unfold obj_fill_value. by rewrite Hz. }
    destruct (nseq_flag s) eqn:Hn.
    { unfold obj_fill_value. rewrite (proj2 (Z.eqb_neq _ _) Hnz), Hn.
      destruct Hfmt as [-> | ->]; by rewrite asmerr_view, Hn. }
    destruct (load_flag g && (bin_addr s <? load_addr g)) eqn:Hg.
    + unfold obj_fill_value. rewrite (proj2 (Z.eqb_neq _ _) Hnz), Hn, Hg.
      destruct (asmerr_reported g E_BFRORG s)
        as [(H5 & _) (H1 & H2 & H3 & _ & _ & _ & H4)].
      destruct Hfmt as [-> | ->]; unfold view, set_curr_addr;
        cbn [nseq_flag curr_addr bin_addr objfp errors];
        by rewrite H1, H2, H3, H4, H5, Hn.
    + rewrite obj_fill_value_binary_ok by (assumption || lia).
      unfold view. cbn. by rewrite Hn.
  - rewrite obj_end_binary by assumption.
    unfold bin_step, view, gate_at, gate_closed.
    by destruct (negb (nofill_flag g) && _).
Qed.

Lemma view_run (g : globals) (os : list op) :
  forall s v, binary_format g = true ->
    bin_run g os (view s) = Some v -> view (run g os s) = v.
Proof.
  induction os as [|o os IH]; intros s v Hf H.
  - cbn in H. by injection H.
  - rewrite run_cons. cbn [bin_run] in H.
    destruct ((0 <=? (view s).1.1.2) && _) eqn:E; [|discriminate].
    apply andb_prop in E as [E1%Z.leb_le E2%Z.ltb_lt].
    unfold view in E1, E2. cbn in E1, E2.
    apply IH; [assumption|]. by rewrite view_step.
Qed.

Lemma view_begin (g : globals) :
  view (begin g) = (false, 0, 0, objfp (begin g), 0).
Proof. unfold view, begin, obj_header. by destruct (obj_fmt g). Qed.

(** ** The worked examples, for every load address *)

(** C8 as stated fails when a load address is set: RAW_BINARY has the
    load-address gate too.  With load address 5 the write at address
    0 is turned down as object code before ORG, and the file is the
    one byte 03. *)
Lemma C8_counterexample :
  let g := Globals OBJ_BIN true 5 false 32 0 2 "prog.asm" 1 32 in
  let t := run g [Write [1; 2]; Org 5; Write [3]; End] (begin g) in
  objfp t = [3] /\ errors t = 1 /\ errnum t = E_BFRORG
  /\ objfp (step g (Write [1; 2]) (begin g)) = []
  /\ errors (step g (Write [1; 2]) (begin g)) = 1.
Proof. vm_compute. by split_and!. Qed.

Lemma bin_run_cons (g : globals) (o : op) (os : list op) (n : bool)
    (c b : Z) (f : list Z) (e : Z) :
  bin_run g (o :: os) (n, c, b, f, e)
  = if (0 <=? b) && (c <? 65536)
    then bin_run g os (bin_step g o (n, c, b, f, e)) else None.
Proof. reflexivity. Qed.

(** Evaluating a closed-form run whose load address is known only by
    its range, one call at a time: the gate tests are decided from
    the hypotheses, everything else is computed. *)
Ltac decide_gate H :=
  repeat (cbv -[gate_at bin_run app] in H;
          match type of H with
          | context [gate_at ?g ?x] =>
              first [ replace (gate_at g x) with true in H
                        by (symmetry; unfold gate_at;
                            cbn [load_flag load_addr andb];
                            apply Z.ltb_lt; lia)
                    | replace (gate_at g x) with false in H
                        by (symmetry; unfold gate_at;
                            cbn [load_flag load_addr andb];
                            (reflexivity || (apply Z.ltb_ge; lia))) ]
          end);
  cbv -[gate_at bin_run app] in H.

Ltac eval_run H :=
  repeat (rewrite bin_run_cons in H; decide_gate H);
  cbv [bin_run] in H.

(** The gate tests of a statement, decided from the hypotheses. *)
Ltac decide_gate_goal :=
  unfold gate_at; cbn [load_flag load_addr andb];
  repeat match goal with
         | |- context [?a <? ?b] =>
             first [ replace (a <? b) with true
                       by (symmetry; apply Z.ltb_lt; lia)
                   | replace (a <? b) with false
                       by (symmetry; apply Z.ltb_ge; lia) ]
         end.

(** The worked example of the latch, in every binary configuration. *)
Lemma latch_example (g : globals) (b1 b2 b3 : Z) :
  binary_format g = true ->
  let u := run g [Org 10; Write [b1]; Org 5] (begin g) in
  let t := run g [Org 10; Write [b1]; Org 5; Write [b2]; Org 12; Write [b3]]
             (begin g) in
  (nseq_flag u = true /\ curr_addr u = 5)
  /\ (nseq_flag t = false /\ curr_addr t = 13)
  /\ objfp t
     = objfp (begin g)
       ++ (if gate_at g 12 then []
           else if gate_at g 10 then [b3]
           else if gate_at g 0 then [b1; 255; b3]
           else replicate 10 255 ++ [b1; 255; b3])
  /\ errors t = (if gate_at g 12 then 3 else if gate_at g 10 then 2 else 1)
  /\ bin_addr t = (if gate_at g 12 then 12 else 13).
Proof.
  intros Hf. cbv zeta.
  pose proof (view_run g [Org 10; Write [b1]; Org 5] (begin g)) as U.
  pose proof (view_run g [Org 10; Write [b1]; Org 5; Write [b2]; Org 12;
                          Write [b3]] (begin g)) as T.
  rewrite view_begin in U, T. unfold view in U, T.
  set (u := run g [Org 10; Write [b1]; Org 5] (begin g)) in *.
  set (t := run g [Org 10; Write [b1]; Org 5; Write [b2]; Org 12;
                   Write [b3]] (begin g)) in *.
  set (f0 := objfp (begin g)) in *.
  clearbody u t f0.
  specialize (fun v => U v Hf). specialize (fun v => T v Hf).
  destruct g as [fmt lf la nf hl sa pa fn cl mh].
  assert (Hcases :
    lf = false \/ (lf = true /\ la <= 0) \/ (lf = true /\ 0 < la <= 10)
    \/ (lf = true /\ 10 < la <= 12) \/ (lf = true /\ 12 < la))
    by (destruct lf; [right; lia | by left]).
  destruct (bin_run _ _ (false, 0, 0, f0, 0)) as [ru|] eqn:RU in U.
  2:{ exfalso. revert RU.
      destruct Hcases as [-> | [[-> ?] | [[-> ?] | [[-> ?] | [-> ?]]]]];
        intros RU; eval_run RU; discriminate. }
  destruct (bin_run _ _ (false, 0, 0, f0, 0)) as [rt|] eqn:RT in T.
  2:{ exfalso. revert RT.
      destruct Hcases as [-> | [[-> ?] | [[-> ?] | [[-> ?] | [-> ?]]]]];
        intros RT; eval_run RT; discriminate. }
  specialize (U _ eq_refl). specialize (T _ eq_refl).
  revert RU RT.
  destruct Hcases as [-> | [[-> ?] | [[-> ?] | [[-> ?] | [-> ?]]]]];
    intros RU RT; eval_run RU; eval_run RT;
    injection RU as <-; injection RT as <-;
    injection U as -> -> _ _ _; injection T as -> -> -> -> ->;
    decide_gate_goal; rewrite <- ?app_assoc; cbn [app];
    rewrite ?app_nil_r; by split_and!.
Qed.

(** C3 (amended): in the binary formats an origin [a] below the
    logical address sets the latch and makes [a] the logical address;
    while latched, writes, skips and fills leave both addresses and
    the file unchanged; and a later origin [addr] clears the latch
    exactly when [addr >= a].  For origin 10, one byte, origin 5, one
    byte, origin 12, one byte from the start, in either binary format
    and with any load address: the second byte is turned down as
    non-sequential, and at the end the latch is clear and the logical
    address 13.  The third byte is written, as the last byte of the
    file, unless a load address above 12 is set; then it is turned
    down and the file is the header alone, with three errors.  With
    no load address above 0 the file is the header, ten 0xFF, the
    first byte, one 0xFF and the third byte, which sits 12 bytes
    after the header; with a load address of 1 to 10 the ten 0xFF are
    missing; with a load address of 11 or 12 the first byte is turned
    down as well and the file is the header and the third byte. *)
Theorem C3_latch_and_release (g : globals) (s : state) (a addr : Z)
    (os : list op) (b1 b2 b3 : Z) :
  binary_format g = true -> a < curr_addr s ->
  forallb is_emit os = true ->
  let s0 := obj_org g a s in
  let s1 := run g os s0 in
  (nseq_flag s0 = true /\ curr_addr s0 = a)
  /\ (nseq_flag s1 = true /\ curr_addr s1 = a
      /\ bin_addr s1 = bin_addr s0 /\ objfp s1 = objfp s0)
  /\ (nseq_flag (obj_org g addr s1) = false <-> a <= addr)
  /\ (let u := run g [Org 10; Write [b1]; Org 5] (begin g) in
      let t := run g [Org 10; Write [b1]; Org 5; Write [b2]; Org 12;
                      Write [b3]] (begin g) in
      (nseq_flag u = true /\ curr_addr u = 5
       /\ step g (Write [b2]) u = asmerr g E_NSQWRT u)
      /\ (nseq_flag t = false /\ curr_addr t = 13)
      /\ objfp t
         = objfp (begin g)
           ++ (if gate_at g 12 then []
               else if gate_at g 10 then [b3]
               else if gate_at g 0 then [b1; 255; b3]
               else replicate 10 255 ++ [b1; 255; b3])
      /\ errors t
         = (if gate_at g 12 then 3 else if gate_at g 10 then 2 else 1)
      /\ bin_addr t = (if gate_at g 12 then 12 else 13)
      /\ (gate_at g 0 = false ->
          objfp t !! (length (objfp (begin g)) + 12)%nat = Some b3)).
Proof.
  intros Hf Ha Hos s0 s1.
  destruct (obj_org_binary g a s Hf) as (Hn0 & Hc0 & _).
  fold s0 in Hn0, Hc0.
  assert (Hlt : (a <? curr_addr s) = true) by (by apply Z.ltb_lt).
  rewrite Hlt in Hn0.
  pose proof (latched_run g os s0 Hf Hn0 Hos) as (Hn & Hc & Hb & _ & _ & _ & Ho).
  fold s1 in Hn, Hc, Hb, Ho.
  split; [by split|]. split; [repeat split; congruence|].
  split.
  { destruct (obj_org_binary g addr s1 Hf) as (-> & _).
    rewrite Hc, Hc0.
    destruct (Z.ltb_spec addr a); split; intros; try lia; congruence. }
  destruct (latch_example g b1 b2 b3 Hf) as ((Hu1 & Hu2) & Ht1 & Ht2 & Ht3 & Ht4).
  cbv zeta. split_and!; try tauto.
  - unfold step, obj_writeb. cbn [length Z.of_nat].
    change (Z.of_nat 1 =? 0) with false. cbv iota. rewrite Hu1.
    unfold binary_format in Hf. by destruct (obj_fmt g).
  - intros Hg. rewrite Ht2.
    assert (gate_at g 12 = false /\ gate_at g 10 = false) as [-> ->].
    { unfold gate_at in *. destruct (load_flag g); [|done]. cbn in *.
      apply Z.ltb_ge in Hg. split; apply Z.ltb_ge; lia. }
    rewrite Hg. rewrite lookup_app_r by lia.
    by replace (length (objfp (begin g)) + 12 - length (objfp (begin g)))%nat
      with 12%nat by lia.
Qed.

Lemma C3_latch_and_release_witness :
  let g := raw_binary in
  let s := run g [Org 10; Write [1]] (begin g) in
  (binary_format g = true /\ 5 < curr_addr s
   /\ forallb is_emit [Write [2]; Skip 3] = true)
  /\ (nseq_flag (obj_org g 12 (run g [Write [2]; Skip 3] (obj_org g 5 s)))
      = false <-> 5 <= 12).
Proof.
  cbv zeta.
  assert (H1 : binary_format raw_binary = true) by reflexivity.
  assert (H2 : 5 < curr_addr (run raw_binary [Org 10; Write [1]]
                                (begin raw_binary))) by reflexivity.
  assert (H3 : forallb is_emit [Write [2]; Skip 3] = true) by reflexivity.
  split; [by repeat split|].
  exact (proj1 (proj2 (proj2
           (C3_latch_and_release raw_binary _ 5 12 _ 1 2 3 H1 H2 H3)))).
Defined.

(** C8 (amended): in RAW_BINARY mode, writing 01 02 at address 0,
    setting the origin to 5, writing 03 and ending gives the six
    bytes 01 02 FF FF FF 03 and no error exactly when no load address
    above 0 is set, whatever the other settings.  With a load address
    above 0 the first write is turned down; the file is then the one
    byte 03 if the load address is at most 5, and empty, with the
    second write turned down as well, if it is above 5. *)
Theorem C8_raw_binary_gap (lf : bool) (la hl sa pa cl : Z) (nf : bool)
    (fn : string) (mh : nat) :
  let g := Globals OBJ_BIN lf la nf hl sa pa fn cl mh in
  let t := run g [Write [1; 2]; Org 5; Write [3]; End] (begin g) in
  objfp t
  = (if gate_at g 0
     then if la <=? 5 then [3] else []
     else [1; 2; 255; 255; 255; 3])
  /\ errors t = (if gate_at g 0 then if la <=? 5 then 1 else 2 else 0)
  /\ (objfp t = [1; 2; 255; 255; 255; 3] <-> gate_at g 0 = false).
Proof.
  cbv zeta.
  set (g := Globals OBJ_BIN lf la nf hl sa pa fn cl mh).
  set (os := [Write [1; 2]; Org 5; Write [3]; End]).
  destruct (bin_run g os (false, 0, 0, [], 0)) as [r|] eqn:R.
  - pose proof (view_run g os (begin g) r eq_refl R) as V.
    unfold view in V.
    set (t := run g os (begin g)) in *. clearbody t.
    unfold gate_at. change (load_flag g) with lf.
    change (load_addr g) with la.
    subst g os. revert R.
    destruct lf; cbn [andb];
      [destruct (Z.ltb_spec 0 la) as [H0|H0];
       [destruct (Z.leb_spec la 5) as [H5|H5]|]|];
      destruct nf; intros R; eval_run R; cbn [app] in R;
      injection R as <-; injection V as _ _ _ -> ->;
      by split_and!.
  - exfalso. subst g os. revert R.
    destruct lf;
      [destruct (Z.ltb_spec 0 la) as [H0|H0];
       [destruct (Z.leb_spec la 5) as [H5|H5]|]|];
      destruct nf; intros R; eval_run R; discriminate.
Qed.

(** ** The file position against the logical address *)


Lemma forward_step (g : globals) (o : op) (s : state) :
  binary_format g = true ->
  0 <= bin_addr s -> bin_addr s <= curr_addr s -> curr_addr s < 65536 ->
  forward s o = true ->
  bin_addr s <= bin_addr (step g o s)
  /\ bin_addr (step g o s) <= curr_addr (step g o s)
  /\ curr_addr (step g o s) < 65536.
Proof.
  intros Hf Hb Hbc Hc Hfw.
  assert (Herr : forall i, bin_addr (asmerr g i s) = bin_addr s
                           /\ curr_addr (asmerr g i s) = curr_addr s).
  { intros i. destruct (asmerr_reported g i s) as [_ (_&?&?&_)]. by split. }
  destruct o as [addr|bytes|count|count value|]; cbn in Hfw; cbn [step].
  - apply andb_prop in Hfw as [H1 H2].
    apply Z.leb_le in H1. apply Z.ltb_lt in H2.
    destruct (obj_org_binary g addr s Hf) as (_ & -> & -> & _).
    destruct (gate_closed g s); lia.
  - apply Z.ltb_lt in Hfw. set (n := Z.of_nat (length bytes)) in *.
    destruct (Z.eq_dec n 0) as [Hz|Hnz].
    { unfold obj_writeb. rewrite Hz. cbn. lia. }
    destruct (nseq_flag s) eqn:Hn.
    { unfold obj_writeb, binary_format in *.
      destruct (Z.eqb_spec n 0); [contradiction|].
      destruct (obj_fmt g); try discriminate; rewrite Hn;
        destruct (Herr E_NSQWRT) as [-> ->]; lia. }
    destruct (gate_closed g s) eqn:Hg.
    + unfold obj_writeb, binary_format, gate_closed in *.
      destruct (Z.eqb_spec n 0); [contradiction|].
      destruct (obj_fmt g); try discriminate; rewrite Hn, Hg;
        unfold set_curr_addr; cbn [bin_addr curr_addr];
        destruct (Herr E_BFRORG) as [-> ->]; unfold WORD;
        rewrite Z.mod_small; lia.
    + rewrite obj_writeb_binary_ok by (assumption || lia). cbn.
      unfold WORD. rewrite !Z.mod_small; lia.
  - apply andb_prop in Hfw as [H1 H2].
    apply Z.leb_le in H1. apply Z.ltb_lt in H2.
    unfold obj_fill, binary_format in *.
    destruct (count =? 0); [lia|].
    destruct (obj_fmt g); try discriminate; destruct (nseq_flag s);
      cbn; unfold WORD; rewrite ?Z.mod_small; lia.
  - apply andb_prop in Hfw as [H1 H2].
    apply Z.leb_le in H1. apply Z.ltb_lt in H2.
    destruct (Z.eq_dec count 0) as [Hz|Hnz].
    { unfold obj_fill_value. rewrite Hz. cbn. lia. }
    destruct (nseq_flag s) eqn:Hn.
    { unfold obj_fill_value, binary_format in *.
      destruct (Z.eqb_spec count 0); [contradiction|].
      destruct (obj_fmt g); try discriminate; rewrite Hn;
        destruct (Herr E_NSQWRT) as [-> ->]; lia. }
    destruct (gate_closed g s) eqn:Hg.
    + unfold obj_fill_value, binary_format, gate_closed in *.
      destruct (Z.eqb_spec count 0); [contradiction|].
      destruct (obj_fmt g); try discriminate; rewrite Hn, Hg;
        unfold set_curr_addr; cbn [bin_addr curr_addr];
        destruct (Herr E_BFRORG) as [-> ->]; unfold WORD;
        rewrite Z.mod_small; lia.
    + rewrite obj_fill_value_binary_ok by (assumption || lia). cbn.
      unfold WORD. rewrite !Z.mod_small; lia.
  - rewrite obj_end_binary by (assumption || lia).
    destruct (negb (nofill_flag g) && _); cbn; lia.
Qed.






(** ** Hex digits read back *)

Lemma htoc_digit (c : Z) :
  0 <= c < 16 -> htoc (c + (if c <? 10 then 48 else 55)) = Some c.
Proof.
  intros Hc. unfold htoc. destruct (Z.ltb_spec c 10).
  - destruct (Z.leb_spec 48 (c + 48)), (Z.leb_spec (c + 48) 57); cbn;
      try lia. f_equal. lia.
  - destruct (Z.leb_spec 48 (c + 55)), (Z.leb_spec (c + 55) 57),
      (Z.leb_spec 65 (c + 55)), (Z.leb_spec (c + 55) 70); cbn; try lia;
      f_equal; lia.
Qed.

Lemma is_byte_range (b : Z) : is_byte b = true <-> 0 <= b < 256.
Proof.
  unfold is_byte. rewrite andb_true_iff, Z.leb_le, Z.ltb_lt. reflexivity.
Qed.

Lemma read_bytes_btoh (b : Z) (n : nat) (rest : list Z) :
  0 <= b < 256 ->
  read_bytes (S n) (btoh b ++ rest) =
    match read_bytes n rest with
    | Some (bs, r) => Some (b :: bs, r)
    | None => None
    end.
Proof.
  intros Hb. unfold btoh. cbn [app read_bytes].
  rewrite Z.shiftr_div_pow2 by lia.
  change 15 with (Z.ones 4). rewrite Z.land_ones by lia.
  change (2 ^ 4) with 16.
  pose proof (Z.div_mod b 16) as Hdm.
  pose proof (Z.mod_pos_bound b 16) as Hm.
  assert (Hq : 0 <= b / 16 < 16) by lia.
  rewrite (htoc_digit (b / 16)) by assumption.
  rewrite (htoc_digit (b mod 16)) by lia.
  destruct (read_bytes n rest) as [[bs r]|]; [|reflexivity].
  replace (16 * (b / 16) + b mod 16) with b by lia. reflexivity.
Qed.

Lemma read_bytes_render (bs : list Z) (rest : list Z) :
  Forall (fun b => 0 <= b < 256) bs ->
  read_bytes (length bs) (flat_map btoh bs ++ rest) = Some (bs, rest).
Proof.
  induction 1 as [|b bs Hb Hbs IH]; [reflexivity|].
  cbn [length flat_map]. rewrite <- app_assoc.
  rewrite read_bytes_btoh by assumption. by rewrite IH.
Qed.

Lemma parse_record_fields (cnt hi lo ty ck : Z) (data rest : list Z) :
  Forall (fun b => 0 <= b < 256) ([cnt; hi; lo; ty] ++ data ++ [ck]) ->
  Z.to_nat cnt = length data ->
  sumZ ([cnt; hi; lo; ty] ++ data ++ [ck]) mod 256 = 0 ->
  parse_record
    (58 :: flat_map btoh ([cnt; hi; lo; ty] ++ data ++ [ck]) ++ 10 :: rest)
    = Some (HexRec (256 * hi + lo) ty data, rest).
Proof.
  intros Hall Hcnt Hsum.
  apply Forall_app in Hall as [Hhead Hall].
  apply Forall_app in Hall as [Hdata Hck].
  rewrite !flat_map_app, <- !app_assoc.
  unfold parse_record.
  change 4%nat with (length [cnt; hi; lo; ty]).
  rewrite (read_bytes_render [cnt; hi; lo; ty]) by assumption.
  change (58 =? 58) with true. cbv beta iota.
  rewrite Hcnt, (read_bytes_render data) by assumption.
  change 1%nat with (length [ck]).
  rewrite (read_bytes_render [ck]) by assumption.
  change (10 =? 10) with true. cbv beta iota. cbn [andb].
  rewrite Hsum. reflexivity.
Qed.

Lemma parse_record_render (r : hexrec) (rest : list Z) :
  okrec r -> parse_record (render r ++ rest) = Some (r, rest).
Proof.
  destruct r as [addr ty data]. intros (Ha & Ht & Hl & Hd).
  cbn in Ha, Ht, Hl, Hd. unfold render. cbv zeta. cbn [rec_addr rec_type rec_data].
  set (cnt := Z.of_nat (length data)).
  set (hi := Z.shiftr addr 8). set (lo := Z.land addr 255).
  assert (Hhi : 0 <= hi < 256).
  { subst hi. rewrite Z.shiftr_div_pow2 by lia. change (2 ^ 8) with 256.
    split; [apply Z.div_pos | apply Z.div_lt_upper_bound]; lia. }
  assert (Hlo : 0 <= lo < 256 /\ 256 * hi + lo = addr).
  { subst hi lo. rewrite Z.shiftr_div_pow2 by lia.
    change 255 with (Z.ones 8). rewrite Z.land_ones by lia.
    change (2 ^ 8) with 256. pose proof (Z.div_mod addr 256).
    pose proof (Z.mod_pos_bound addr 256). lia. }
  destruct Hlo as [Hlo Haddr].
  set (h := sumZ _).
  change ([58] ++ ?x) with (58 :: x).
  cbn [app]. rewrite <- (app_assoc (flat_map _ _)).
  change ([10] ++ rest) with (10 :: rest).
  transitivity (Some (HexRec (256 * hi + lo) ty data, rest));
    [apply parse_record_fields; [ | lia | ] | by rewrite Haddr].
  - repeat (apply Forall_cons; split; [lia|]).
    apply Forall_app; split; [assumption|].
    apply Forall_cons; split; [|constructor].
    apply Z.mod_pos_bound; lia.
  - rewrite app_assoc, sumZ_app. fold h. change (sumZ [?x]) with (x + 0).
    Z.div_mod_to_equations. lia.
Qed.

Lemma render_cons (r : hexrec) : exists l, render r = 58 :: l.
Proof. unfold render. eexists. reflexivity. Qed.

Lemma parse_records_render (recs : list hexrec) :
  forall fuel, Forall okrec recs -> (length recs <= fuel)%nat ->
    parse_records fuel (flat_map render recs) = Some recs.
Proof.
  induction recs as [|r recs IH]; intros fuel Hok Hfuel.
  - destruct fuel; reflexivity.
  - apply Forall_cons in Hok as [Hr Hrecs].
    destruct fuel as [|fuel]; [cbn in Hfuel; lia|].
    cbn [flat_map]. destruct (render_cons r) as [l Hl].
    assert (Hp : parse_record (render r ++ flat_map render recs)
                 = Some (r, flat_map render recs))
      by (by apply parse_record_render).
    rewrite Hl in *. cbn [app parse_records] in *. rewrite Hp.
    rewrite IH by (assumption || (cbn in Hfuel; lia)). reflexivity.
Qed.

Lemma render_all_length (recs : list hexrec) :
  (length recs <= length (flat_map render recs))%nat.
Proof.
  induction recs as [|r recs IH]; [reflexivity|].
  cbn [flat_map]. rewrite length_app.
  destruct (render_cons r) as [l ->]. cbn. lia.
Qed.

Lemma parse_hex_file_render (recs : list hexrec) :
  Forall okrec recs -> parse_hex_file (flat_map render recs) = Some recs.
Proof.
  intros Hok. apply parse_records_render; [assumption|].
  apply render_all_length.
Qed.

(** ** Tagged bytes *)

Lemma tag_app (a : Z) (bs1 bs2 : list Z) :
  tag a (bs1 ++ bs2) = tag a bs1 ++ tag (a + Z.of_nat (length bs1)) bs2.
Proof.
  revert a. induction bs1 as [|b bs1 IH]; intros a.
  - cbn. by rewrite Z.add_0_r.
  - cbn [app tag length]. rewrite IH. do 3 f_equal. lia.
Qed.

Lemma elem_of_tag (a x b : Z) (bs : list Z) :
  (x, b) ∈ tag a bs <-> exists i : nat, x = a + Z.of_nat i /\ bs !! i = Some b.
Proof.
  revert a. induction bs as [|c bs IH]; intros a; cbn [tag].
  - split; [intros H; inversion H | intros (i & _ & H); discriminate].
  - rewrite elem_of_cons, IH. split.
    + intros [[= -> ->]|(i & -> & Hi)].
      * exists 0%nat. split; [lia | reflexivity].
      * exists (S i). split; [lia | exact Hi].
    + intros ([|i] & -> & Hi).
      * left. cbn in Hi. injection Hi as ->. f_equal. lia.
      * right. exists i. split; [lia | exact Hi].
Qed.

Lemma payload_app (r1 r2 : list hexrec) :
  payload (r1 ++ r2) = payload r1 ++ payload r2.
Proof. apply flat_map_app. Qed.

(** ** The hex buffer *)

Lemma buf_upto_take (buf : list Z) (n : nat) :
  (n <= length buf)%nat -> buf_upto buf n = take n buf.
Proof.
  induction n as [|n IH]; intros Hn; [reflexivity|].
  cbn [buf_upto]. rewrite IH by lia.
  destruct (lookup_lt_is_Some_2 buf n) as [x Hx]; [lia|].
  rewrite (take_S_r _ _ _ Hx), nth_lookup, Hx. reflexivity.
Qed.

Lemma hex_out_fields (ty : Z) (s : state) :
  hex_out ty s = [58] ++ flat_map btoh (record_fields ty s) ++ [10].
Proof.
  unfold hex_out, record_fields, record_head.
  rewrite !flat_map_app. cbn. rewrite <- !app_assoc. reflexivity.
Qed.

Lemma word_hi_lo (a : Z) :
  0 <= a < 65536 ->
  BYTE (Z.shiftr a 8) = Z.shiftr a 8 /\ BYTE (Z.land a 255) = Z.land a 255.
Proof.
  intros Ha. unfold BYTE. rewrite Z.shiftr_div_pow2 by lia.
  change 255 with (Z.ones 8). rewrite Z.land_ones by lia.
  change (2 ^ 8) with 256. rewrite Z.mod_mod by lia.
  split; [|reflexivity]. apply Z.mod_small.
  split; [apply Z.div_pos | apply Z.div_lt_upper_bound]; lia.
Qed.

Lemma pending_length (s : state) :
  0 <= hex_cnt s <= Z.of_nat (length (hex_buf s)) ->
  Z.of_nat (length (pending s)) = hex_cnt s.
Proof. intros H. unfold pending. rewrite length_take. lia. Qed.

(** Under the invariant the line written is the rendering of the
    record with the buffer's address and contents. *)
Lemma hex_out_render (ty : Z) (s : state) :
  0 <= hex_cnt s <= Z.of_nat (length (hex_buf s)) ->
  hex_cnt s < 256 -> 0 <= hex_addr s < 65536 ->
  hex_out ty s = render (HexRec (hex_addr s) ty (pending s)).
Proof.
  intros Hc Hc' Ha. rewrite hex_out_fields.
  unfold record_fields, render. cbv zeta. cbn [rec_addr rec_type rec_data].
  rewrite chksum_negates. unfold record_head.
  destruct (word_hi_lo _ Ha) as [-> ->].
  rewrite buf_upto_take by lia. fold (pending s).
  rewrite pending_length by assumption.
  unfold BYTE. rewrite (Z.mod_small (hex_cnt s)) by lia. reflexivity.
Qed.

(** ** Flushing *)

(** C9: [flush_hex] is idempotent.  It always leaves the buffer empty
    and the record address at the logical address, and touches
    nothing else but the file.  With an empty buffer it writes
    nothing.  With a non-empty one it writes one line, which reads
    back as the one data record that carries the buffered bytes at
    the record address the buffer had.  A second call in a row
    writes nothing and leaves the state of the first. *)
Theorem C9_flush_hex_idempotent (s : state) :
  let s1 := flush_hex s in
  let s2 := flush_hex s1 in
  (s2 = s1 /\ objfp s2 = objfp s1)
  /\ (hex_addr s1 = curr_addr s /\ hex_cnt s1 = 0)
  /\ (curr_addr s1 = curr_addr s /\ hex_buf s1 = hex_buf s
      /\ bin_addr s1 = bin_addr s /\ nseq_flag s1 = nseq_flag s
      /\ errors s1 = errors s /\ errnum s1 = errnum s
      /\ errfp s1 = errfp s)
  /\ (hex_cnt s = 0 -> objfp s1 = objfp s)
  /\ (hex_cnt s <> 0 ->
      0 <= hex_cnt s <= Z.of_nat (length (hex_buf s)) -> hex_cnt s < 256 ->
      0 <= hex_addr s < 65536 ->
      Forall (fun b => 0 <= b < 256) (hex_buf s) ->
      exists line,
        objfp s1 = objfp s ++ line
        /\ parse_record line
           = Some (HexRec (hex_addr s) HEX_DATA (pending s), [])
        /\ parse_hex_file line
           = Some [HexRec (hex_addr s) HEX_DATA (pending s)]
        /\ Z.of_nat (length (pending s)) = hex_cnt s).
Proof.
  cbv zeta.
  assert (Hidem : flush_hex (flush_hex s) = flush_hex s).
  { unfold flush_hex. destruct (hex_cnt s =? 0) eqn:E; cbn; rewrite ?E;
      reflexivity. }
  split; [split; [exact Hidem | by rewrite Hidem]|].
  split; [unfold flush_hex; destruct (Z.eqb_spec (hex_cnt s) 0); cbn;
          by split|].
  split; [unfold flush_hex; destruct (hex_cnt s =? 0); by split_and!|].
  split.
  { intros Hz. rewrite flush_hex_objfp, Hz. cbn. by rewrite app_nil_r. }
  intros Hnz Hc Hc' Ha Hb.
  assert (Hok : okrec (HexRec (hex_addr s) HEX_DATA (pending s))).
  { unfold okrec. cbn. rewrite pending_length by assumption.
    split; [lia|]. split; [unfold HEX_DATA; lia|]. split; [lia|].
    by apply Forall_take. }
  exists (hex_out HEX_DATA s).
  split.
  { rewrite flush_hex_objfp.
    by destruct (Z.eqb_spec (hex_cnt s) 0); [contradiction|]. }
  rewrite hex_out_render by assumption.
  split; [|split; [|by apply pending_length]].
  - rewrite <- (app_nil_r (render _)). by apply parse_record_render.
  - rewrite <- (app_nil_r (render _)).
    apply (parse_hex_file_render [HexRec (hex_addr s) HEX_DATA (pending s)]).
    by apply Forall_singleton.
Qed.

Lemma C9_flush_hex_idempotent_witness :
  let s := run hex_limit_4 [Org 16; Write [1; 2; 3]] (begin hex_limit_4) in
  (hex_cnt s <> 0 /\ 0 <= hex_cnt s <= Z.of_nat (length (hex_buf s))
   /\ hex_cnt s < 256 /\ 0 <= hex_addr s < 65536
   /\ Forall (fun b => 0 <= b < 256) (hex_buf s))
  /\ exists line,
       objfp (flush_hex s) = objfp s ++ line
       /\ parse_record line = Some (HexRec 16 HEX_DATA [1; 2; 3], [])
       /\ parse_hex_file line = Some [HexRec 16 HEX_DATA [1; 2; 3]]
       /\ Z.of_nat (length (pending s)) = hex_cnt s.
Proof.
  cbv zeta.
  assert (H1 : hex_cnt (run hex_limit_4 [Org 16; Write [1; 2; 3]]
                         (begin hex_limit_4)) <> 0) by (by vm_compute).
  assert (H2 : 0 <= hex_cnt (run hex_limit_4 [Org 16; Write [1; 2; 3]]
                              (begin hex_limit_4))
               <= Z.of_nat (length (hex_buf
                    (run hex_limit_4 [Org 16; Write [1; 2; 3]]
                       (begin hex_limit_4))))) by (by vm_compute).
  assert (H3 : hex_cnt (run hex_limit_4 [Org 16; Write [1; 2; 3]]
                         (begin hex_limit_4)) < 256) by (by vm_compute).
  assert (H4 : 0 <= hex_addr (run hex_limit_4 [Org 16; Write [1; 2; 3]]
                                (begin hex_limit_4)) < 65536)
    by (by vm_compute).
  assert (H5 : Forall (fun b => 0 <= b < 256)
                 (hex_buf (run hex_limit_4 [Org 16; Write [1; 2; 3]]
                             (begin hex_limit_4)))).
  { set (l := hex_buf _). vm_compute in l. subst l.
    repeat (constructor; [lia|]). constructor. }
  split; [by split_and!|].
  exact (proj2 (proj2 (proj2 (proj2
           (C9_flush_hex_idempotent
              (run hex_limit_4 [Org 16; Write [1; 2; 3]]
                 (begin hex_limit_4)))))) H1 H2 H3 H4 H5).
Defined.

Lemma pending_hex_put (b : Z) (s : state) :
  0 <= hex_cnt s < Z.of_nat (length (hex_buf s)) -> hex_cnt s < 65535 ->
  pending (hex_put b s) = pending s ++ [BYTE b]
  /\ hex_cnt (hex_put b s) = hex_cnt s + 1.
Proof.
  intros Hc Hw. unfold pending, hex_put. cbn.
  assert (HW : WORD (hex_cnt s + 1) = hex_cnt s + 1)
    by (apply Z.mod_small; lia).
  rewrite HW. split; [|reflexivity].
  replace (Z.to_nat (hex_cnt s + 1)) with (S (Z.to_nat (hex_cnt s))) by lia.
  erewrite take_S_r
    by (apply list_lookup_insert_eq; lia).
  rewrite take_insert_ge by lia. reflexivity.
Qed.

(** ** A fill is a write of the truncated value *)

Lemma hex_put_BYTE (b : Z) (s : state) : hex_put (BYTE b) s = hex_put b s.
Proof.
  unfold hex_put, BYTE. by rewrite Z.mod_mod by lia.
Qed.

Lemma fill_hex_as_write (g : globals) (value : Z) (m n : nat) :
  forall (i : nat) (s : state),
    (i + n <= m)%nat ->
    writeb_hex_loop g (replicate m (BYTE value)) n i s
      = fill_hex_value_loop g n value s.
Proof.
  induction n as [|n IH]; intros i s Hi; [reflexivity|].
  cbn [writeb_hex_loop fill_hex_value_loop].
  rewrite nth_lookup, lookup_replicate_2 by lia.
  change (default 0 (Some ?x)) with x. rewrite hex_put_BYTE.
  apply IH. lia.
Qed.

Lemma fill_value_as_write (g : globals) (count value : Z) (s : state) :
  0 <= count ->
  obj_fill_value g count value s
    = obj_writeb g (replicate (Z.to_nat count) (value mod 256)) count s.
Proof.
  intros Hc. unfold obj_fill_value, obj_writeb.
  destruct (count =? 0); [reflexivity|].
  destruct (obj_fmt g).
  1, 2: destruct (nseq_flag s); [reflexivity|];
        destruct (load_flag g && _); [reflexivity|];
        rewrite fill_bin_value_loop_closed; unfold fwrite;
        rewrite take_ge by (rewrite length_replicate; lia);
        reflexivity.
  symmetry. apply (fill_hex_as_write g value). lia.
Qed.

(** ** Well-formed calls *)

Lemma wf_op_advance (o : op) : wf_op o = true -> 0 <= advance o.
Proof.
  destruct o; cbn; try discriminate; intros H; try lia;
    apply andb_prop in H as [H _]; by apply Z.leb_le.
Qed.

Lemma span_ge (os : list op) :
  forall a, forallb wf_op os = true -> a <= span a os.
Proof.
  induction os as [|o os IH]; intros a Hwf; cbn; [lia|].
  cbn in Hwf. apply andb_prop in Hwf as [Ho Hos].
  pose proof (wf_op_advance o Ho). specialize (IH (a + advance o) Hos). lia.
Qed.

(** Apart from a skip, a well-formed call is a write of the bytes it
    hands over. *)
Lemma step_as_write (g : globals) (o : op) (s : state) :
  wf_op o = true ->
  (exists count, o = Skip count /\ 0 <= count)
  \/ (step g o s
        = obj_writeb g (emitted o) (Z.of_nat (length (emitted o))) s
      /\ advance o = Z.of_nat (length (emitted o))
      /\ Forall (fun b => 0 <= b < 256) (emitted o)).
Proof.
  destruct o as [addr|bytes|count|count value|]; cbn [wf_op];
    try discriminate; intros Hwf.
  - right. split_and!; [reflexivity | reflexivity |].
    apply Forall_forall. intros b Hb. apply is_byte_range.
    rewrite forallb_forall in Hwf. apply Hwf. by apply list_elem_of_In.
  - left. exists count. split; [reflexivity|].
    apply andb_prop in Hwf as [H _]. by apply Z.leb_le.
  - right. apply andb_prop in Hwf as [H _]. apply Z.leb_le in H.
    cbn [step emitted advance]. rewrite length_replicate, Z2Nat.id by lia.
    split_and!; [by apply fill_value_as_write | reflexivity |].
    apply Forall_replicate. apply Z.mod_pos_bound. lia.
Qed.

Lemma obj_writeb_empty (g : globals) (s : state) :
  obj_writeb g [] (Z.of_nat (length (@nil Z))) s = s.
Proof. reflexivity. Qed.

(** ** What the hex encoder writes *)

Section HexEncoder.

Variable g : globals.
Hypothesis Hcfg : hex_config g.
Hypothesis Hfmt : obj_fmt g = OBJ_HEX.

(** Take the invariant of the target state out of [hex_emits]. *)
Local Ltac emits_inv He H :=
  assert (H := He); destruct H as (? & _ & _ & _ & H & _).

Lemma hex_emits_refl (s : state) : hinv g s -> hex_emits g s s [].
Proof.
  intros H. exists []. cbn. rewrite !app_nil_r.
  repeat split; try constructor; apply H.
Qed.

Lemma hex_emits_trans (s1 s2 s3 : state) (e1 e2 : list (Z * Z)) :
  hex_emits g s1 s2 e1 -> hex_emits g s2 s3 e2 ->
  hex_emits g s1 s3 (e1 ++ e2).
Proof.
  intros (r1 & Ho1 & Hk1 & Ht1 & _ & Hp1)
         (r2 & Ho2 & Hk2 & Ht2 & Hi2 & Hp2).
  exists (r1 ++ r2). rewrite flat_map_app, payload_app.
  split; [by rewrite Ho2, Ho1, <- app_assoc|].
  split; [by apply Forall_app|]. split; [by apply Forall_app|].
  split; [assumption|].
  by rewrite <- app_assoc, Hp2, !app_assoc, Hp1.
Qed.

Lemma set_curr_addr_emits (v : Z) (s : state) :
  hinv g s -> hex_emits g s (set_curr_addr (WORD v) s) [].
Proof.
  intros (Hc & Hl & Hb & Ha & Hcu). exists [].
  unfold hinv. cbn. rewrite !app_nil_r.
  split_and!; try assumption; try reflexivity; try lia;
    try apply Forall_nil_2; apply Z.mod_pos_bound; lia.
Qed.

Lemma flush_hex_emits (s : state) :
  hinv g s ->
  hex_emits g s (flush_hex s) []
  /\ hex_cnt (flush_hex s) = 0
  /\ hex_addr (flush_hex s) = curr_addr s
  /\ curr_addr (flush_hex s) = curr_addr s.
Proof.
  intros (Hc & Hl & Hb & Ha & Hcu). destruct Hcfg as (_ & _ & Hmax).
  unfold flush_hex.
  destruct (Z.eqb_spec (hex_cnt s) 0) as [Hz|Hnz].
  - split; [|by repeat split].
    exists []. unfold pending, hinv. cbn. rewrite Hz, app_nil_r. cbn.
    repeat split; try constructor; try assumption; lia.
  - split; [|by repeat split].
    exists [HexRec (hex_addr s) HEX_DATA (pending s)].
    unfold hinv, payload. cbn. rewrite !app_nil_r.
    split; [f_equal; apply hex_out_render; lia|].
    split.
    { apply Forall_singleton. unfold okrec. cbn.
      rewrite pending_length by lia.
      split; [lia|]. split; [unfold HEX_DATA; lia|]. split; [lia|].
      by apply Forall_take. }
    split_and!; try assumption; try reflexivity; try lia.
    by apply Forall_singleton.
Qed.

(** One turn of a hex loop stores its byte at the logical address. *)
Lemma hex_turn_emits (b : Z) (s : state) :
  hinv g s -> 0 <= b < 256 ->
  hex_addr s + hex_cnt s = curr_addr s ->
  let s' := hex_turn g b s in
  hex_emits g s s' [(curr_addr s, b)]
  /\ curr_addr s' = WORD (curr_addr s + 1)
  /\ hex_addr s' + hex_cnt s' = curr_addr s + 1.
Proof.
  intros Hinv Hb Hal s'. destruct Hcfg as (Hlen & Hmax1 & Hmax).
  set (s1 := if hexlen g <=? hex_cnt s then flush_hex s else s).
  assert (H1 : hex_emits g s s1 [] /\ hex_cnt s1 < Z.of_nat (MAXHEX g)
                /\ hex_addr s1 + hex_cnt s1 = curr_addr s
                /\ curr_addr s1 = curr_addr s).
  { subst s1. destruct (Z.leb_spec (hexlen g) (hex_cnt s)).
    - destruct (flush_hex_emits s Hinv) as (He & -> & -> & ->).
      repeat split; [assumption | lia | lia].
    - repeat split; [by apply hex_emits_refl | lia | lia]. }
  destruct H1 as (He1 & Hc1 & Hal1 & Hcu1).
  emits_inv He1 Hinv1.
  destruct Hinv1 as (Hc & Hl & Hbuf & Ha & Hcu).
  destruct (pending_hex_put b s1) as [Hp Hcnt]; [lia | lia |].
  assert (E : s' = set_curr_addr (WORD (curr_addr s + 1)) (hex_put b s1)).
  { subst s'. unfold hex_turn. fold s1. f_equal.
    unfold hex_put. cbn. by rewrite Hcu1. }
  rewrite E. split; [|split; [reflexivity|]].
  - change [(curr_addr s, b)] with ([] ++ [(curr_addr s, b)]).
    eapply hex_emits_trans; [exact He1|].
    exists []. cbn [flat_map payload app]. rewrite app_nil_r.
    split; [reflexivity|]. split; [constructor|]. split; [constructor|].
    split.
    + unfold hinv. cbn. rewrite length_insert.
      assert (HW : WORD (hex_cnt s1 + 1) = hex_cnt s1 + 1)
        by (apply Z.mod_small; lia).
      rewrite HW.
      repeat split; try lia; try (apply Z.mod_pos_bound; lia).
      apply Forall_insert; [assumption|]. apply Z.mod_pos_bound; lia.
    + change (pending (set_curr_addr ?v ?x)) with (pending x).
      change (hex_addr (set_curr_addr ?v (hex_put b s1)))
        with (hex_addr s1).
      rewrite Hp, tag_app, pending_length by lia.
      unfold BYTE. rewrite (Z.mod_small b) by lia.
      cbn [tag]. rewrite Hal1. reflexivity.
  - change (hex_addr (set_curr_addr ?v (hex_put b s1)))
      with (hex_addr s1).
    change (hex_cnt (set_curr_addr ?v ?x)) with (hex_cnt x).
    rewrite Hcnt. lia.
Qed.

Lemma writeb_hex_loop_emits (ops : list Z) (n : nat) :
  forall (i : nat) (s : state),
    hinv g s -> Forall (fun b => 0 <= b < 256) ops ->
    (i + n <= length ops)%nat ->
    curr_addr s + Z.of_nat n <= 65536 ->
    (n <> 0%nat -> hex_addr s + hex_cnt s = curr_addr s) ->
    let s' := writeb_hex_loop g ops n i s in
    hex_emits g s s' (tag (curr_addr s) (take n (drop i ops)))
    /\ curr_addr s' = WORD (curr_addr s + Z.of_nat n).
Proof.
  induction n as [|n IH]; intros i s Hinv Hops Hi Hfit Hal.
  - cbn. split; [by apply hex_emits_refl|].
    unfold WORD. rewrite Z.add_0_r, Z.mod_small; [reflexivity | apply Hinv].
  - cbn [writeb_hex_loop]. fold (hex_turn g (nth i ops 0) s).
    destruct (lookup_lt_is_Some_2 ops i) as [b Hb]; [lia|].
    replace (nth i ops 0) with b by (by rewrite nth_lookup, Hb).
    assert (Hbyte : 0 <= b < 256).
    { eapply Forall_lookup_1 in Hops; [exact Hops | exact Hb]. }
    destruct (hex_turn_emits b s Hinv Hbyte (Hal ltac:(lia)))
      as (He & Hcu & Hal').
    set (s1 := hex_turn g b s) in *.
    emits_inv He Hinv1.
    assert (Hc1 : n <> 0%nat -> curr_addr s1 = curr_addr s + 1).
    { intros Hn. rewrite Hcu. apply Z.mod_small.
      destruct Hinv as (_ & _ & _ & _ & ?). lia. }
    destruct n as [|n'].
    + cbn [writeb_hex_loop]. split.
      * rewrite (drop_S _ _ _ Hb). cbn [take tag]. exact He.
      * rewrite Hcu. f_equal.
    + specialize (Hc1 ltac:(lia)).
      destruct (IH (S i) s1 Hinv1 Hops) as [He2 Hcu2];
        [lia | lia | lia |].
      split.
      * rewrite (drop_S _ _ _ Hb).
        change (take (S (S n')) (b :: ?l)) with (b :: take (S n') l).
        cbn [tag]. rewrite <- Hc1.
        change ((?x, b) :: ?l) with ([(x, b)] ++ l).
        eapply hex_emits_trans; [exact He | exact He2].
      * rewrite Hcu2, Hc1. f_equal. lia.
Qed.

Lemma obj_writeb_hex_emits (bs : list Z) (s : state) :
  hinv g s -> Forall (fun b => 0 <= b < 256) bs ->
  curr_addr s + Z.of_nat (length bs) <= 65536 ->
  let s' := obj_writeb g bs (Z.of_nat (length bs)) s in
  hex_emits g s s' (tag (curr_addr s) bs)
  /\ curr_addr s' = WORD (curr_addr s + Z.of_nat (length bs)).
Proof.
  intros Hinv Hbs Hfit s'. subst s'. unfold obj_writeb.
  destruct (Z.eqb_spec (Z.of_nat (length bs)) 0) as [Hz|Hnz].
  - destruct bs; [|cbn in Hz; lia]. cbn.
    split; [by apply hex_emits_refl|].
    unfold WORD. rewrite Z.add_0_r, Z.mod_small; [reflexivity | apply Hinv].
  - rewrite Hfmt, Nat2Z.id.
    set (s1 := if hex_addr s + hex_cnt s =? curr_addr s then s
               else flush_hex s).
    assert (H1 : hex_emits g s s1 []
                 /\ hex_addr s1 + hex_cnt s1 = curr_addr s
                 /\ curr_addr s1 = curr_addr s).
    { subst s1.
      destruct (Z.eqb_spec (hex_addr s + hex_cnt s) (curr_addr s)).
      - split_and!; [by apply hex_emits_refl | assumption | reflexivity].
      - destruct (flush_hex_emits s Hinv) as (He & -> & -> & ->).
        split_and!; [assumption | lia | reflexivity]. }
    destruct H1 as (He1 & Hal1 & Hcu1).
    emits_inv He1 Hinv1.
    destruct (writeb_hex_loop_emits bs (length bs) 0 s1 Hinv1 Hbs)
      as [He2 Hcu2]; [lia | lia | lia |].
    rewrite drop_0, firstn_all, Hcu1 in He2. rewrite Hcu1 in Hcu2.
    split; [|exact Hcu2].
    change (tag (curr_addr s) bs) with ([] ++ tag (curr_addr s) bs).
    eapply hex_emits_trans; [exact He1 | exact He2].
Qed.

Lemma step_hex_emits (o : op) (s : state) (a : Z) :
  hinv g s -> wf_op o = true ->
  0 <= a -> curr_addr s = WORD a -> a + advance o <= 65536 ->
  hex_emits g s (step g o s) (tag a (emitted o))
  /\ curr_addr (step g o s) = WORD (a + advance o).
Proof.
  intros Hinv Hwf Ha Hcu Hfit.
  destruct (step_as_write g o s Hwf) as [(n & -> & Hn)|(-> & Hadv & Hbs)].
  - cbn [step emitted advance tag] in *. unfold obj_fill.
    destruct (Z.eqb_spec n 0) as [->|Hnz].
    + split; [by apply hex_emits_refl | by rewrite Z.add_0_r].
    + assert (Hsmall : WORD a = a) by (apply Z.mod_small; lia).
      rewrite Hfmt, Hcu, Hsmall.
      split; [by apply set_curr_addr_emits | reflexivity].
  - rewrite Hadv in *.
    destruct (emitted o) as [|b bs] eqn:E.
    + rewrite obj_writeb_empty. cbn [length tag].
      change (Z.of_nat 0) with 0.
      split; [by apply hex_emits_refl | by rewrite Z.add_0_r].
    + assert (Hsmall : WORD a = a).
      { apply Z.mod_small. cbn [length] in Hfit. lia. }
      rewrite Hsmall in Hcu. rewrite <- Hcu.
      apply obj_writeb_hex_emits; try assumption. lia.
Qed.

Lemma run_hex_emits (os : list op) :
  forall (s : state) (a : Z),
    hinv g s -> forallb wf_op os = true ->
    0 <= a -> curr_addr s = WORD a -> span a os <= 65536 ->
    hex_emits g s (run g os s) (supplied a os)
    /\ curr_addr (run g os s) = WORD (span a os).
Proof.
  induction os as [|o os IH]; intros s a Hinv Hwf Ha Hcu Hfit.
  - cbn. split; [by apply hex_emits_refl | assumption].
  - cbn in Hwf. apply andb_prop in Hwf as [Ho Hos].
    cbn [span supplied] in *. rewrite run_cons.
    pose proof (wf_op_advance o Ho) as Hadv.
    pose proof (span_ge os (a + advance o) Hos) as Hge.
    destruct (step_hex_emits o s a Hinv Ho Ha Hcu) as [He Hcu']; [lia|].
    emits_inv He Hinv'.
    destruct (IH (step g o s) (a + advance o) Hinv' Hos)
      as [He2 Hcu2]; [lia | assumption | assumption |].
    split; [|exact Hcu2].
    eapply hex_emits_trans; [exact He | exact He2].
Qed.

End HexEncoder.

(** ** The binary image of a run *)

Section BinaryRun.

Variable g : globals.
Hypothesis Hbin : binary_format g = true.
Hypothesis Hok : config_ok g = true.

(** With no load address above 0 the gate is never closed. *)
Lemma gate_open (s : state) : 0 <= bin_addr s -> gate_closed g s = false.
Proof.
  intros Hb. pose proof Hbin as Hf. pose proof Hok as Hc.
  unfold binary_format, config_ok, gate_closed in *.
  destruct (obj_fmt g); try discriminate;
    destruct (load_flag g); try reflexivity; cbn in *;
    apply Z.leb_le in Hc; apply Z.ltb_ge; lia.
Qed.

Lemma obj_fill_binary (n : Z) (s : state) (a : Z) :
  nseq_flag s = false -> 0 <= n -> curr_addr s = WORD a ->
  (n <> 0 -> WORD a = a) ->
  nseq_flag (obj_fill g n s) = false
  /\ curr_addr (obj_fill g n s) = WORD (a + n)
  /\ bin_addr (obj_fill g n s) = bin_addr s
  /\ objfp (obj_fill g n s) = objfp s.
Proof.
  intros Hn Hn0 Hcu Hsmall. pose proof Hbin as Hb.
  unfold obj_fill, binary_format in *.
  destruct (Z.eqb_spec n 0) as [Hz|Hne].
  - rewrite Hz, Z.add_0_r. by split_and!.
  - rewrite Hcu, (Hsmall Hne).
    destruct (obj_fmt g); try discriminate; rewrite Hn; by split_and!.
Qed.

Lemma run_bin_image (os : list op) :
  forall (s : state) (a p : Z),
    forallb wf_op os = true -> nseq_flag s = false ->
    0 <= p <= a -> curr_addr s = WORD a -> bin_addr s = WORD p ->
    span a os <= 65536 ->
    let s' := run g os s in
    let p' := p + Z.of_nat (length (bin_image p a os)) in
    objfp s' = objfp s ++ bin_image p a os
    /\ nseq_flag s' = false
    /\ curr_addr s' = WORD (span a os)
    /\ bin_addr s' = WORD p'
    /\ p' <= span a os.
Proof.
  induction os as [|o os IH]; intros s a p Hwf Hn Hpa Hcu Hbi Hfit.
  - cbn. rewrite app_nil_r, Z.add_0_r. split_and!; try done; lia.
  - cbn in Hwf. apply andb_prop in Hwf as [Ho Hos].
    cbn [span supplied bin_image] in *. rewrite run_cons.
    pose proof (wf_op_advance o Ho) as Hadv.
    pose proof (span_ge os (a + advance o) Hos) as Hge.
    assert (Hnz : advance o <> 0 -> WORD a = a /\ WORD p = p).
    { intros ?. split; apply Z.mod_small; lia. }
    destruct (step_as_write g o s Ho) as [(n & -> & Hn0)|(Hst & Hlen & Hbs)].
    + cbn [emitted advance step] in *.
      destruct (obj_fill_binary n s a Hn Hn0 Hcu)
        as (Hn' & Hcu' & Hbi' & Hob'); [intros ?; by apply Hnz|].
      destruct (IH (obj_fill g n s) (a + n) p Hos Hn')
        as (H1 & H2 & H3 & H4 & H5); try assumption; try lia; try congruence.
      rewrite Hob' in H1. by split_and!.
    + rewrite Hst. rewrite Hlen in *.
      destruct (emitted o) as [|b bs] eqn:E.
      * rewrite obj_writeb_empty. cbn [length] in *.
        change (Z.of_nat 0) with 0 in *. rewrite Z.add_0_r in *.
        by apply IH.
      * set (l := b :: bs) in *. set (n := Z.of_nat (length l)) in *.
        assert (Hn1 : 0 < n) by (subst n l; cbn [length]; lia).
        destruct (Hnz ltac:(lia)) as [Ha' Hp'].
        rewrite Ha' in Hcu. rewrite Hp' in Hbi.
        assert (Hg : gate_closed g s = false) by (apply gate_open; lia).
        rewrite obj_writeb_binary_ok by (assumption || lia).
        rewrite Hcu, Hbi, Z.max_r by lia.
        subst n. rewrite Nat2Z.id, firstn_all. set (n := Z.of_nat (length l)).
        match goal with |- context [run g os ?x] => set (s1 := x) end.
        destruct (IH s1 (a + n) (a + n) Hos)
          as (H1 & H2 & H3 & H4 & H5); try reflexivity; try lia; try done.
        rewrite H1. subst s1. cbn [objfp set_curr_addr set_bin_addr set_objfp].
        rewrite <- !app_assoc. split_and!; try done.
        -- rewrite H4. f_equal. rewrite !length_app, length_replicate.
           fold n. lia.
        -- rewrite !length_app, length_replicate. fold n. lia.
Qed.

End BinaryRun.

Lemma supplied_ge (os : list op) :
  forall a x b, forallb wf_op os = true ->
    (x, b) ∈ supplied a os -> a <= x.
Proof.
  induction os as [|o os IH]; intros a x b Hwf Hin; cbn in *.
  - inversion Hin.
  - apply andb_prop in Hwf as [Ho Hos].
    pose proof (wf_op_advance o Ho).
    apply elem_of_app in Hin as [Hin|Hin].
    + apply elem_of_tag in Hin as (i & -> & _). lia.
    + specialize (IH _ _ _ Hos Hin). lia.
Qed.

Lemma emitted_advance (o : op) :
  wf_op o = true -> emitted o <> [] ->
  advance o = Z.of_nat (length (emitted o)).
Proof.
  destruct o as [addr|bytes|count|count value|]; cbn; try done.
  intros H _. apply andb_prop in H as [H _]. apply Z.leb_le in H.
  rewrite length_replicate. lia.
Qed.

Lemma bin_image_supplied (os : list op) :
  forall p a x b, 0 <= p <= a -> forallb wf_op os = true ->
    (x, b) ∈ supplied a os ->
    bin_image p a os !! Z.to_nat (x - p) = Some b.
Proof.
  induction os as [|o os IH]; intros p a x b Hpa Hwf Hin;
    cbn [supplied bin_image] in *.
  - inversion Hin.
  - cbn in Hwf. apply andb_prop in Hwf as [Ho Hos].
    pose proof (wf_op_advance o Ho) as Hadv.
    destruct (emitted o) as [|c l] eqn:E.
    + cbn [tag app] in Hin. apply IH; [lia | assumption | assumption].
    + rewrite <- E in *.
      rewrite (emitted_advance o Ho) in * by (rewrite E; discriminate).
      set (n := Z.of_nat (length (emitted o))) in *.
      apply elem_of_app in Hin as [Hin|Hin].
      * apply elem_of_tag in Hin as (i & -> & Hi).
        rewrite lookup_app_r by (rewrite length_replicate; lia).
        rewrite length_replicate.
        rewrite lookup_app_l by (apply lookup_lt_Some in Hi; lia).
        rewrite <- Hi. f_equal. lia.
      * pose proof (supplied_ge _ _ _ _ Hos Hin) as Hge.
        rewrite lookup_app_r by (rewrite length_replicate; lia).
        rewrite length_replicate.
        rewrite lookup_app_r by lia.
        specialize (IH (a + n) (a + n) x b ltac:(lia) Hos Hin).
        rewrite <- IH. f_equal. lia.
Qed.

Lemma bin_image_fill (os : list op) :
  forall p a (i : nat) c, 0 <= p <= a -> forallb wf_op os = true ->
    bin_image p a os !! i = Some c ->
    (forall b, (p + Z.of_nat i, b) ∉ supplied a os) ->
    c = 255.
Proof.
  induction os as [|o os IH]; intros p a i c Hpa Hwf Hi Hnot;
    cbn [supplied bin_image] in *.
  - discriminate.
  - cbn in Hwf. apply andb_prop in Hwf as [Ho Hos].
    pose proof (wf_op_advance o Ho) as Hadv.
    destruct (emitted o) as [|c0 l] eqn:E.
    + cbn [tag app] in Hnot. eapply IH; [| exact Hos | exact Hi | exact Hnot].
      lia.
    + rewrite <- E in *.
      rewrite (emitted_advance o Ho) in * by (rewrite E; discriminate).
      set (n := Z.of_nat (length (emitted o))) in *.
      destruct (decide (i < Z.to_nat (a - p))%nat) as [Hlt|Hge].
      { rewrite lookup_app_l in Hi by (rewrite length_replicate; lia).
        apply lookup_replicate in Hi as [-> _]. reflexivity. }
      rewrite lookup_app_r, length_replicate in Hi
        by (rewrite length_replicate; lia).
      destruct (decide (i - Z.to_nat (a - p) < length (emitted o))%nat)
        as [Hlt|Hge'].
      { rewrite lookup_app_l in Hi by lia. exfalso.
        apply (Hnot c). apply elem_of_app. left.
        apply elem_of_tag. exists (i - Z.to_nat (a - p))%nat.
        split; [lia | exact Hi]. }
      rewrite lookup_app_r in Hi by lia.
      eapply (IH (a + n) (a + n)); [lia | exact Hos | exact Hi |].
      intros b Hb. apply (Hnot b). apply elem_of_app. right.
      replace (p + Z.of_nat i)
        with (a + n + Z.of_nat (i - Z.to_nat (a - p) - length (emitted o)))
        by lia.
      exact Hb.
Qed.

(** ** The supplied bytes are in address order *)

Lemma tag_range (a x b : Z) (bs : list Z) :
  (x, b) ∈ tag a bs -> a <= x < a + Z.of_nat (length bs).
Proof.
  intros (i & -> & Hi)%elem_of_tag. apply lookup_lt_Some in Hi. lia.
Qed.

Lemma tag_sorted (bs : list Z) :
  forall a, StronglySorted addr_lt (tag a bs).
Proof.
  induction bs as [|b bs IH]; intros a; cbn [tag]; [constructor|].
  apply StronglySorted_cons. split; [|apply IH].
  apply Forall_forall. intros [x c] Hin%tag_range. unfold addr_lt. cbn. lia.
Qed.

Lemma emitted_le_advance (o : op) :
  wf_op o = true -> Z.of_nat (length (emitted o)) <= advance o.
Proof.
  intros Hwf. destruct (emitted o) as [|b bs] eqn:E.
  - cbn. by apply wf_op_advance.
  - rewrite <- E, emitted_advance; [lia | assumption | by rewrite E].
Qed.

Lemma supplied_sorted (os : list op) :
  forall a, forallb wf_op os = true ->
    StronglySorted addr_lt (supplied a os).
Proof.
  induction os as [|o os IH]; intros a Hwf; cbn [supplied]; [constructor|].
  cbn in Hwf. apply andb_prop in Hwf as [Ho Hos].
  apply StronglySorted_app. split_and!; [|apply tag_sorted|by apply IH].
  intros [x1 b1] [x2 b2] H1%tag_range H2%supplied_ge; [|assumption].
  pose proof (emitted_le_advance o Ho). unfold addr_lt. cbn. lia.
Qed.

(** ** From [begin] to [obj_end] *)

Lemma begin_state (g : globals) :
  nseq_flag (begin g) = false /\ curr_addr (begin g) = 0
  /\ bin_addr (begin g) = 0 /\ hex_addr (begin g) = 0
  /\ hex_cnt (begin g) = 0
  /\ hex_buf (begin g) = replicate (MAXHEX g) 0.
Proof. unfold begin, obj_header. destruct (obj_fmt g); by split_and!. Qed.

Lemma hinv_begin (g : globals) : hinv g (begin g).
Proof.
  destruct (begin_state g) as (_ & Hc & _ & Ha & Hn & Hb).
  unfold hinv. rewrite Hc, Ha, Hn, Hb, length_replicate.
  split_and!; try lia; try reflexivity. by apply Forall_replicate.
Qed.

Lemma run_binary_file (g : globals) (os : list op) :
  binary_format g = true -> config_ok g = true ->
  forallb wf_op os = true -> span 0 os <= 65536 ->
  exists k : nat,
    objfp (obj_end g (run g os (begin g)))
      = objfp (begin g) ++ bin_image 0 0 os ++ replicate k 255
    /\ Z.of_nat (length (bin_image 0 0 os)) + Z.of_nat k <= span 0 os.
Proof.
  intros Hf Hcfg Hwf Hfit.
  destruct (begin_state g) as (Hn & Hc & Hb & _).
  destruct (run_bin_image g Hf Hcfg os (begin g) 0 0 Hwf Hn)
    as (Ho & _ & Hcu & Hbi & Hle); try done.
  cbv zeta in *. rewrite Z.add_0_l in *.
  set (s := run g os (begin g)) in *.
  set (len := Z.of_nat (length (bin_image 0 0 os))) in *.
  assert (Hs : 0 <= span 0 os) by (by apply span_ge).
  pose proof (Z.mod_pos_bound (span 0 os) 65536 ltac:(lia)) as Hw1.
  pose proof (Z.mod_pos_bound len 65536 ltac:(lia)) as Hw2.
  fold (WORD (span 0 os)) in Hw1. fold (WORD len) in Hw2.
  rewrite obj_end_binary by (assumption || lia).
  destruct (negb (nofill_flag g) && _).
  - exists (Z.to_nat (curr_addr s - bin_addr s)).
    cbn [objfp set_bin_addr set_objfp]. rewrite Ho, <- app_assoc.
    split; [reflexivity|]. rewrite Hcu, Hbi.
    destruct (Z.eq_dec (span 0 os) 65536) as [->|Hne].
    + change (WORD 65536) with 0. lia.
    + unfold WORD in *. rewrite !Z.mod_small by lia. lia.
  - exists 0%nat. cbn [replicate]. rewrite app_nil_r.
    split; [exact Ho | lia].
Qed.

Lemma run_hex_file (g : globals) (os : list op) :
  obj_fmt g = OBJ_HEX -> config_ok g = true ->
  forallb wf_op os = true -> span 0 os <= 65536 ->
  exists recs,
    objfp (obj_end g (run g os (begin g)))
      = flat_map render (recs ++ [HexRec (start_addr g) HEX_EOF []])
    /\ Forall okrec (recs ++ [HexRec (start_addr g) HEX_EOF []])
    /\ Forall (fun r => rec_type r = HEX_DATA) recs
    /\ payload recs = supplied 0 os.
Proof.
  intros Hf Hcfg Hwf Hfit.
  assert (Hhex : hex_config g /\ 0 <= start_addr g < 65536).
  { unfold config_ok, hex_config in *. rewrite Hf in Hcfg.
    repeat (apply andb_prop in Hcfg as [Hcfg ?]).
    repeat match goal with
           | H : (_ <=? _) = true |- _ => apply Z.leb_le in H
           | H : (_ <? _) = true |- _ => apply Z.ltb_lt in H
           end. lia. }
  destruct Hhex as [Hh Hsa]. pose proof Hh as (_ & _ & Hmax).
  destruct (begin_state g) as (_ & Hc & _ & Ha & Hn & _).
  destruct (run_hex_emits g Hh Hf os (begin g) 0 (hinv_begin g) Hwf)
    as [He _]; try done.
  set (s := run g os (begin g)) in *.
  assert (Hinv : hinv g s)
    by (destruct He as (? & _ & _ & _ & H & _); exact H).
  destruct (flush_hex_emits g Hh s Hinv) as (He2 & Hc2 & _).
  pose proof (hex_emits_trans _ _ _ _ _ _ He He2)
    as (recs & Ho & Hok & Hty & Hinv2 & Hpay).
  exists recs.
  assert (Hbegin : objfp (begin g) = []).
  { unfold begin, obj_header. by rewrite Hf. }
  unfold pending in Hpay. rewrite Hc2, Hn in Hpay. cbn [Z.to_nat take tag] in Hpay.
  rewrite !app_nil_r in Hpay. cbn [app] in Hpay.
  split_and!; try assumption.
  - unfold obj_end. rewrite Hf, eof_hex_objfp, Ho, Hbegin.
    rewrite flat_map_app. cbn [app flat_map]. rewrite app_nil_r.
    f_equal. rewrite hex_out_render; cbn; try lia. reflexivity.
  - apply Forall_app. split; [assumption|]. apply Forall_singleton.
    unfold okrec, HEX_EOF. cbn. split_and!; try lia. constructor.
Qed.

(** C1 as stated fails in the binary formats when a load address
    above 0 is set: with load address 0x100 a byte written at address
    0 is reported as E_BFRORG and discarded, and the file ends up as
    the three header bytes alone. *)
Lemma C1_counterexample :
  let g := loader_binary in
  let os := [Write [170]] in
  supplied 0 os = [(0, 170)]
  /\ objfp (obj_end g (run g os (begin g))) = objfp (begin g)
  /\ objfp (begin g) = [255; 0; 1]
  /\ errors (run g os (begin g)) = 1
  /\ errnum (run g os (begin g)) = E_BFRORG.
Proof. vm_compute. repeat split. Qed.

(** C1 (amended): under [config_ok] (binary formats: no load address
    above 0; hex: record length within the buffer), for well-formed
    writes, skips and fills from the state after [begin] whose total
    advance stays within the 65536 addresses, the supplied bytes are
    in strictly increasing address order and the file after [obj_end]
    holds exactly them.  Hex: the file reads back as data records
    whose address/byte pairs are the supplied ones in order, followed
    by the end-of-file record with the start address.  Binary: after
    the header, each supplied byte is at the file offset equal to its
    address, every other byte is the 0xFF fill, and the body is no
    longer than the final address. *)
Theorem C1_payload_preserved (g : globals) (os : list op) :
  config_ok g = true -> forallb wf_op os = true -> span 0 os <= 65536 ->
  let file := objfp (obj_end g (run g os (begin g))) in
  StronglySorted addr_lt (supplied 0 os)
  /\ match obj_fmt g with
     | OBJ_HEX =>
         exists recs,
           parse_hex_file file
             = Some (recs ++ [HexRec (start_addr g) HEX_EOF []])
           /\ Forall (fun r => rec_type r = HEX_DATA) recs
           /\ payload recs = supplied 0 os
     | OBJ_BIN | OBJ_MOS =>
         exists body,
           file = objfp (begin g) ++ body
           /\ (forall x b, (x, b) ∈ supplied 0 os ->
                 body !! Z.to_nat x = Some b)
           /\ (forall (i : nat) c, body !! i = Some c ->
                 (forall b, (Z.of_nat i, b) ∉ supplied 0 os) -> c = 255)
           /\ Z.of_nat (length body) <= span 0 os
     end.
Proof.
  intros Hcfg Hwf Hfit file. split; [by apply supplied_sorted|].
  assert (Hbin : binary_format g = true ->
    exists body,
      file = objfp (begin g) ++ body
      /\ (forall x b, (x, b) ∈ supplied 0 os -> body !! Z.to_nat x = Some b)
      /\ (forall (i : nat) c, body !! i = Some c ->
            (forall b, (Z.of_nat i, b) ∉ supplied 0 os) -> c = 255)
      /\ Z.of_nat (length body) <= span 0 os).
  { intros Hf.
    destruct (run_binary_file g os Hf Hcfg Hwf Hfit) as (k & Hfile & Hlen).
    exists (bin_image 0 0 os ++ replicate k 255).
    split; [exact Hfile|]. split; [|split].
    - intros x b Hin. apply lookup_app_l_Some.
      rewrite <- (Z.sub_0_r x). by apply bin_image_supplied.
    - intros i c Hi Hnot.
      apply lookup_app_Some in Hi as [Hi|[_ Hi]].
      + by apply (bin_image_fill os 0 0 i c).
      + by apply lookup_replicate in Hi as [-> _].
    - rewrite length_app, length_replicate. lia. }
  destruct (obj_fmt g) eqn:Hf;
    try (apply Hbin; unfold binary_format; by rewrite Hf).
  destruct (run_hex_file g os Hf Hcfg Hwf Hfit)
    as (recs & Hfile & Hok & Hty & Hpay).
  exists recs. subst file. rewrite Hfile.
  split; [by apply parse_hex_file_render|]. by split.
Qed.

Lemma C1_payload_preserved_witness :
  let g := hex_limit_4 in
  let os := [Write [1; 2; 3; 4; 5; 6]; Skip 10; FillValue 3 511] in
  (config_ok g = true /\ forallb wf_op os = true /\ span 0 os <= 65536)
  /\ StronglySorted addr_lt (supplied 0 os)
  /\ exists recs,
       parse_hex_file (objfp (obj_end g (run g os (begin g))))
         = Some (recs ++ [HexRec (start_addr g) HEX_EOF []])
       /\ Forall (fun r => rec_type r = HEX_DATA) recs
       /\ payload recs = supplied 0 os.
Proof.
  cbv zeta. split; [split_and!; [reflexivity | reflexivity | by cbn]|].
  apply (C1_payload_preserved hex_limit_4
           [Write [1; 2; 3; 4; 5; 6]; Skip 10; FillValue 3 511]);
    [reflexivity | reflexivity | by cbn].
Defined.

(** ** Fill values *)

(** C10: [obj_fill_value] takes a 16-bit value and uses only its low
    eight bits.  For a count above 0 the call is the same as a write
    of [count] bytes each equal to [value mod 256], and the same as
    the fill with [value mod 256]; in the binary formats the bytes it
    puts into the file, after the gap fill, are [count] times
    [value mod 256]; in the hex format the address/byte pairs it
    adds to the records and the buffer are [count] times
    [value mod 256] from the logical address on. *)
Theorem C10_fill_value_truncates (g : globals) (s : state)
    (count value : Z) :
  0 < count ->
  obj_fill_value g count value s
    = obj_writeb g (replicate (Z.to_nat count) (value mod 256)) count s
  /\ obj_fill_value g count value s
     = obj_fill_value g count (value mod 256) s
  /\ (binary_format g = true -> nseq_flag s = false ->
      gate_closed g s = false -> 0 <= bin_addr s -> curr_addr s < 65536 ->
      objfp (obj_fill_value g count value s)
        = objfp s ++ replicate (Z.to_nat (curr_addr s - bin_addr s)) 255
          ++ replicate (Z.to_nat count) (value mod 256))
  /\ (obj_fmt g = OBJ_HEX -> hinv g s -> hex_config g ->
      curr_addr s + count <= 65536 ->
      hex_emits g s (obj_fill_value g count value s)
        (tag (curr_addr s) (replicate (Z.to_nat count) (value mod 256)))).
Proof.
  intros Hc. split_and!.
  - apply fill_value_as_write. lia.
  - rewrite !fill_value_as_write by lia. by rewrite Z.mod_mod by lia.
  - intros Hf Hn Hg Hb Hcu.
    rewrite obj_fill_value_binary_ok by (assumption || lia). reflexivity.
  - intros Hf Hinv Hcfg Hfit. rewrite fill_value_as_write by lia.
    set (bs := replicate (Z.to_nat count) (value mod 256)).
    assert (Hlen : count = Z.of_nat (length bs))
      by (subst bs; rewrite length_replicate; lia).
    rewrite Hlen at 1.
    apply obj_writeb_hex_emits; try assumption; [|lia].
    apply Forall_replicate. apply Z.mod_pos_bound. lia.
Qed.

Lemma C10_fill_value_truncates_witness :
  0 < 3
  /\ obj_fill_value raw_binary 3 511 (begin raw_binary)
     = obj_writeb raw_binary (replicate (Z.to_nat 3) (511 mod 256)) 3
         (begin raw_binary).
Proof.
  split; [lia|].
  exact (proj1 (C10_fill_value_truncates raw_binary (begin raw_binary)
                  3 511 ltac:(lia))).
Defined.

(** * Further properties of the object-file code *)

(** ** The header *)

(** X1: [obj_header] writes nothing for the raw binary and the hex
    format; for the loader format it writes the three bytes 0xFF,
    low and high byte of the load address, from which a 16-bit load
    address is read back as [lo + 256 * hi]; nothing else changes. *)
Theorem X1_obj_header_roundtrip (g : globals) (s : state) :
  0 <= load_addr g < 65536 ->
  match obj_fmt g with
  | OBJ_MOS =>
      exists lo hi,
        obj_header g s = set_objfp (objfp s ++ [255; lo; hi]) s
        /\ 0 <= lo < 256 /\ 0 <= hi < 256
        /\ lo + 256 * hi = load_addr g
  | OBJ_BIN | OBJ_HEX => obj_header g s = s
  end.
Proof.
  intros Hl. unfold obj_header. destruct (obj_fmt g); try reflexivity.
  destruct (word_hi_lo _ Hl) as [Hhi Hlo].
  exists (Z.land (load_addr g) 255), (Z.shiftr (load_addr g) 8).
  unfold putc, set_objfp. cbn. rewrite Hhi, Hlo, <- !app_assoc. cbn.
  split; [reflexivity|].
  rewrite Z.shiftr_div_pow2 by lia. change 255 with (Z.ones 8).
  rewrite Z.land_ones by lia. change (2 ^ 8) with 256.
  pose proof (Z.div_mod (load_addr g) 256).
  pose proof (Z.mod_pos_bound (load_addr g) 256).
  assert (0 <= load_addr g / 256 < 256)
    by (split; [apply Z.div_pos | apply Z.div_lt_upper_bound]; lia).
  lia.
Qed.

Lemma X1_obj_header_roundtrip_witness :
  0 <= load_addr loader_binary < 65536
  /\ exists lo hi,
       obj_header loader_binary (init_state loader_binary)
         = set_objfp (objfp (init_state loader_binary) ++ [255; lo; hi])
             (init_state loader_binary)
       /\ 0 <= lo < 256 /\ 0 <= hi < 256
       /\ lo + 256 * hi = load_addr loader_binary.
Proof.
  split; [cbn; lia|].
  apply (X1_obj_header_roundtrip loader_binary (init_state loader_binary)).
  cbn; lia.
Defined.

(** ** Gap filling *)

Lemma fill_bin_idem (s : state) :
  0 <= bin_addr s -> curr_addr s < 65536 ->
  fill_bin (fill_bin s) = fill_bin s.
Proof.
  intros Hb Hc. rewrite (fill_bin_closed s) by assumption.
  set (s1 := set_bin_addr _ _).
  rewrite (fill_bin_closed s1) by (subst s1; cbn; lia).
  subst s1. unfold set_bin_addr, set_objfp. cbn.
  replace (Z.to_nat (curr_addr s - Z.max (bin_addr s) (curr_addr s)))
    with 0%nat by lia.
  cbn. rewrite app_nil_r. f_equal. lia.
Qed.

(** X2: [fill_bin] appends exactly [curr_addr - bin_addr] bytes 0xFF
    (none when the file position is not below the logical address),
    leaves the file position at the larger of the two, so its loop
    always ends with the position caught up, changes nothing else,
    and a second [fill_bin] in a row does nothing. *)
Theorem X2_fill_bin_catches_up (s : state) :
  0 <= bin_addr s -> curr_addr s < 65536 ->
  objfp (fill_bin s)
    = objfp s ++ replicate (Z.to_nat (curr_addr s - bin_addr s)) 255
  /\ bin_addr (fill_bin s) = Z.max (bin_addr s) (curr_addr s)
  /\ curr_addr (fill_bin s) <= bin_addr (fill_bin s)
  /\ fill_bin s = set_bin_addr (bin_addr (fill_bin s))
                    (set_objfp (objfp (fill_bin s)) s)
  /\ fill_bin (fill_bin s) = fill_bin s.
Proof.
  intros Hb Hc. split_and!.
  - by rewrite fill_bin_closed.
  - by rewrite fill_bin_closed.
  - by apply fill_bin_caught_up.
  - by rewrite fill_bin_closed.
  - by apply fill_bin_idem.
Qed.

Lemma X2_fill_bin_catches_up_witness :
  let s := State false 5 2 0 0 [] [1; 2] EmptyString 0 0 in
  (0 <= bin_addr s /\ curr_addr s < 65536)
  /\ objfp (fill_bin s)
     = objfp s ++ replicate (Z.to_nat (curr_addr s - bin_addr s)) 255
  /\ bin_addr (fill_bin s) = Z.max (bin_addr s) (curr_addr s).
Proof.
  cbv zeta. split; [cbn; lia|].
  pose proof (X2_fill_bin_catches_up
                (State false 5 2 0 0 [] [1; 2] EmptyString 0 0)) as H.
  destruct H as (H1 & H2 & _); [cbn; lia | cbn; lia |].
  split; assumption.
Defined.

(** ** Skips *)

Lemma set_curr_addr_same (s : state) : set_curr_addr (curr_addr s) s = s.
Proof. by destruct s. Qed.

Lemma obj_fill_closed (g : globals) (n : Z) (s : state) :
  obj_fill g n s =
    set_curr_addr
      (if (n =? 0) || (binary_format g && nseq_flag s) then curr_addr s
       else WORD (curr_addr s + n)) s.
Proof.
  unfold obj_fill, binary_format.
  destruct (n =? 0); cbn [orb]; [by rewrite set_curr_addr_same|].
  destruct (obj_fmt g), (nseq_flag s); cbn;
    by rewrite ?set_curr_addr_same.
Qed.

(** X3: skips add up.  With the logical address a [WORD], a skip of
    [a] followed by a skip of [b] is the skip of [(a + b) mod 65536],
    in every format and whether or not the latch is set; a skip never
    touches the file, the file position, the hex buffer or the error
    state. *)
Theorem X3_skips_compose (g : globals) (s : state) (a b : Z) :
  0 <= curr_addr s < 65536 ->
  obj_fill g b (obj_fill g a s) = obj_fill g (WORD (a + b)) s
  /\ same_errors s (obj_fill g a s)
  /\ objfp (obj_fill g a s) = objfp s
  /\ bin_addr (obj_fill g a s) = bin_addr s
  /\ nseq_flag (obj_fill g a s) = nseq_flag s
  /\ pending (obj_fill g a s) = pending s.
Proof.
  intros Hc. rewrite !obj_fill_closed. split; [|by split_and!].
  cbn [nseq_flag curr_addr set_curr_addr].
  unfold set_curr_addr; cbn. f_equal.
  destruct (binary_format g && nseq_flag s).
  { by rewrite !orb_true_r. }
  rewrite !orb_false_r.
  assert (Hw : forall n, (if n =? 0 then curr_addr s
                          else WORD (curr_addr s + n))
                         = WORD (curr_addr s + n)).
  { intros n. destruct (Z.eqb_spec n 0) as [->|]; [|reflexivity].
    unfold WORD. rewrite Z.add_0_r, Z.mod_small; [reflexivity | lia]. }
  rewrite !Hw.
  assert (Hw2 : forall c n, 0 <= c < 65536 ->
                  (if n =? 0 then c else WORD (c + n)) = WORD (c + n)).
  { intros c n Hcn. destruct (Z.eqb_spec n 0) as [->|]; [|reflexivity].
    unfold WORD. rewrite Z.add_0_r, Z.mod_small; [reflexivity | lia]. }
  rewrite Hw2 by (apply Z.mod_pos_bound; lia).
  unfold WORD. rewrite Zplus_mod_idemp_l, Zplus_mod_idemp_r. f_equal. lia.
Qed.

Lemma X3_skips_compose_witness :
  0 <= curr_addr (begin raw_binary) < 65536
  /\ obj_fill raw_binary 65530 (obj_fill raw_binary 10 (begin raw_binary))
     = obj_fill raw_binary (WORD (10 + 65530)) (begin raw_binary).
Proof.
  split; [cbn; lia|].
  exact (proj1 (X3_skips_compose raw_binary (begin raw_binary) 10 65530
                  ltac:(cbn; lia))).
Defined.

(** ** Who reports errors, and when *)

Lemma same_errors_refl (s : state) : same_errors s s.
Proof. by split_and!. Qed.

Lemma same_errors_trans (s1 s2 s3 : state) :
  same_errors s1 s2 -> same_errors s2 s3 -> same_errors s1 s3.
Proof.
  intros (?&?&?) (?&?&?). unfold same_errors. split_and!; congruence.
Qed.

Lemma hex_frame_refl (s : state) : hex_frame s s.
Proof. by split_and!. Qed.

Lemma hex_frame_trans (s1 s2 s3 : state) :
  hex_frame s1 s2 -> hex_frame s2 s3 -> hex_frame s1 s3.
Proof.
  intros (He1 & ? & ?) (He2 & ? & ?).
  split; [by eapply same_errors_trans|]. split; congruence.
Qed.

Lemma flush_hex_frame (s : state) : hex_frame s (flush_hex s).
Proof. unfold flush_hex. destruct (hex_cnt s =? 0); by split_and!. Qed.

Lemma hex_turn_frame (g : globals) (b : Z) (s : state) :
  hex_frame s (hex_turn g b s).
Proof.
  unfold hex_turn. destruct (hexlen g <=? hex_cnt s).
  - eapply hex_frame_trans; [apply flush_hex_frame|]. by split_and!.
  - by split_and!.
Qed.

Lemma writeb_hex_loop_frame (g : globals) (ops : list Z) (n : nat) :
  forall i s, hex_frame s (writeb_hex_loop g ops n i s).
Proof.
  induction n as [|n IH]; intros i s; [apply hex_frame_refl|].
  cbn [writeb_hex_loop]. fold (hex_turn g (nth i ops 0) s).
  eapply hex_frame_trans; [apply hex_turn_frame | apply IH].
Qed.

Lemma fill_hex_value_loop_frame (g : globals) (value : Z) (n : nat) :
  forall s, hex_frame s (fill_hex_value_loop g n value s).
Proof.
  induction n as [|n IH]; intros s; [apply hex_frame_refl|].
  cbn [fill_hex_value_loop]. fold (hex_turn g value s).
  eapply hex_frame_trans; [apply hex_turn_frame | apply IH].
Qed.

Lemma step_hex_frame (g : globals) (o : op) (s : state) :
  obj_fmt g = OBJ_HEX -> hex_frame s (step g o s).
Proof.
  intros Hf.
  assert (Hal : hex_frame s (if hex_addr s + hex_cnt s =? curr_addr s
                             then s else flush_hex s)).
  { destruct (_ =? _); [apply hex_frame_refl | apply flush_hex_frame]. }
  destruct o as [addr|bytes|count|count value|]; cbn [step].
  - unfold obj_org. rewrite Hf. by split_and!.
  - unfold obj_writeb. destruct (_ =? 0); [apply hex_frame_refl|].
    rewrite Hf. eapply hex_frame_trans; [exact Hal|].
    apply writeb_hex_loop_frame.
  - rewrite obj_fill_closed. by split_and!.
  - unfold obj_fill_value. destruct (_ =? 0); [apply hex_frame_refl|].
    rewrite Hf. eapply hex_frame_trans; [exact Hal|].
    apply fill_hex_value_loop_frame.
  - unfold obj_end. rewrite Hf.
    eapply hex_frame_trans; [apply flush_hex_frame|]. by split_and!.
Qed.

(** X4: the hex format never reports an error and never touches the
    latch or the binary file position: whatever calls are made, with
    whatever arguments, the error counter, the pending error number,
    the error file, [nseq_flag] and [bin_addr] stay as they were. *)
Theorem X4_hex_never_reports (g : globals) (os : list op) :
  forall s, obj_fmt g = OBJ_HEX -> hex_frame s (run g os s).
Proof.
  induction os as [|o os IH]; intros s Hf; [apply hex_frame_refl|].
  rewrite run_cons.
  eapply hex_frame_trans; [by apply step_hex_frame | by apply IH].
Qed.

Lemma X4_hex_never_reports_witness :
  obj_fmt hex_limit_4 = OBJ_HEX
  /\ hex_frame (begin hex_limit_4)
       (run hex_limit_4
          [Org 10; Write [1; 2; 3; 4; 5]; Org 5; FillValue 3 7; End]
          (begin hex_limit_4)).
Proof.
  split; [reflexivity|].
  apply (X4_hex_never_reports hex_limit_4). reflexivity.
Defined.

Lemma fill_bin_loop_same_errors (n : nat) :
  forall s, same_errors s (fill_bin_loop n s).
Proof.
  induction n as [|n IH]; intros s; [apply same_errors_refl|].
  cbn [fill_bin_loop]. destruct (_ <? _); [|apply same_errors_refl].
  eapply same_errors_trans; [|apply IH]. by split_and!.
Qed.

Lemma fill_bin_same_errors (s : state) : same_errors s (fill_bin s).
Proof. apply fill_bin_loop_same_errors. Qed.

Lemma step_errors (g : globals) (o : op) (s : state) :
  if rejects g o s
  then reported g (if nseq_flag s then E_NSQWRT else E_BFRORG) s (step g o s)
       /\ objfp (step g o s) = objfp s
       /\ bin_addr (step g o s) = bin_addr s
  else same_errors s (step g o s).
Proof.
  destruct (binary_format g) eqn:Hb.
  2: { assert (Hf : obj_fmt g = OBJ_HEX)
         by (unfold binary_format in Hb; by destruct (obj_fmt g)).
       unfold rejects. rewrite Hb. cbn. by apply step_hex_frame. }
  assert (Hrej : forall i t, reported g i s (set_curr_addr t (asmerr g i s))
                   /\ objfp (set_curr_addr t (asmerr g i s)) = objfp s
                   /\ bin_addr (set_curr_addr t (asmerr g i s)) = bin_addr s).
  { intros i t. destruct (asmerr_reported g i s) as [Hr (_&_&?&_&_&_&?)].
    by split_and!. }
  assert (Hrej0 : forall i, reported g i s (asmerr g i s)
                   /\ objfp (asmerr g i s) = objfp s
                   /\ bin_addr (asmerr g i s) = bin_addr s).
  { intros i. destruct (asmerr_reported g i s) as [Hr (_&_&?&_&_&_&?)].
    by split_and!. }
  unfold rejects. rewrite Hb. cbn [andb].
  unfold binary_format in Hb.
  destruct o as [addr|bytes|count|count value|]; cbn [step].
  - cbn. unfold obj_org.
    destruct (obj_fmt g); try discriminate;
      destruct (load_flag g && _); by split_and!.
  - unfold obj_writeb, gate_closed.
    destruct (Z.of_nat (length bytes) =? 0); cbn [negb andb];
      [apply same_errors_refl|].
    destruct (obj_fmt g); try discriminate;
      (destruct (nseq_flag s); cbn [orb]; [apply Hrej0|]);
      (destruct (load_flag g && _); [apply Hrej|]);
      (eapply same_errors_trans; [apply fill_bin_same_errors|];
       by split_and!).
  - cbn. rewrite obj_fill_closed. by split_and!.
  - unfold obj_fill_value, gate_closed.
    destruct (count =? 0); cbn [negb andb]; [apply same_errors_refl|].
    destruct (obj_fmt g); try discriminate;
      (destruct (nseq_flag s); cbn [orb]; [apply Hrej0|]);
      (destruct (load_flag g && _); [apply Hrej|]);
      rewrite fill_bin_value_loop_closed;
      (eapply same_errors_trans; [apply fill_bin_same_errors|];
       by split_and!).
  - cbn. unfold obj_end.
    destruct (obj_fmt g); try discriminate;
      (destruct (negb (nofill_flag g) && _);
       [apply fill_bin_same_errors | apply same_errors_refl]).
Qed.

(** X5: one call reports at most one error, and exactly when it is a
    write or fill of at least one byte that a binary format turns
    down (latch set, or load-address gate closed).  Such a call
    reports E_NSQWRT if the latch is set and E_BFRORG otherwise, and
    leaves the file and the file position as they are; every other
    call, in every format, leaves the error counter, the pending
    error number and the error file alone. *)
Theorem X5_errors_exactly_when_rejected (g : globals) (o : op) (s : state) :
  errors (step g o s) = errors s + (if rejects g o s then 1 else 0)
  /\ if rejects g o s
     then reported g (if nseq_flag s then E_NSQWRT else E_BFRORG) s
            (step g o s)
          /\ objfp (step g o s) = objfp s
          /\ bin_addr (step g o s) = bin_addr s
     else same_errors s (step g o s).
Proof.
  pose proof (step_errors g o s) as H.
  destruct (rejects g o s).
  - split; [|exact H]. by destruct H as ((-> & _) & _).
  - split; [|exact H]. destruct H as (-> & _). lia.
Qed.

(** ** Before the load address *)

Lemma gated_step (g : globals) (o : op) (s : state) :
  binary_format g = true -> gate_closed g s = true ->
  below_gate g o = true ->
  objfp (step g o s) = objfp s /\ gate_closed g (step g o s) = true.
Proof.
  intros Hb Hg Ho.
  assert (Hl : load_flag g = true /\ bin_addr s < load_addr g).
  { unfold gate_closed in Hg. apply andb_prop in Hg as [? ?%Z.ltb_lt].
    by split. }
  destruct Hl as [Hl Hlt].
  assert (Hkeep : forall t, bin_addr t = bin_addr s ->
                    gate_closed g t = true).
  { intros t Ht. unfold gate_closed. by rewrite Ht. }
  pose proof (step_errors g o s) as Herr. unfold rejects in Herr.
  rewrite Hb, Hg, orb_true_r, andb_true_r in Herr. cbn [andb] in Herr.
  unfold binary_format in Hb.
  destruct o as [addr|bytes|count|count value|]; cbn [step] in *.
  - cbn in Ho. apply Z.ltb_lt in Ho. unfold obj_org, gate_closed in *.
    destruct (obj_fmt g); try discriminate; cbn; rewrite Hg; cbn;
      rewrite Hl; (split; [reflexivity | by apply Z.ltb_lt]).
  - destruct (Z.of_nat (length bytes) =? 0) eqn:E; cbn [negb] in Herr.
    + unfold obj_writeb. rewrite E. by split.
    + destruct Herr as (_ & ? & ?). split; [assumption | by apply Hkeep].
  - rewrite obj_fill_closed. split; [reflexivity | by apply Hkeep].
  - destruct (count =? 0) eqn:E; cbn [negb] in Herr.
    + unfold obj_fill_value. rewrite E. by split.
    + destruct Herr as (_ & ? & ?). split; [assumption | by apply Hkeep].
  - unfold obj_end. unfold gate_closed in Hg.
    destruct (obj_fmt g); try discriminate; rewrite Hg, andb_false_r;
      by split.
Qed.

(** X6: in the binary formats, while the load-address gate is closed
    and every origin change stays below the load address, nothing is
    ever written to the file, not even by [obj_end], and the gate
    stays closed: what is handed over before the load address is
    reached is lost for good. *)
Theorem X6_nothing_written_below_load_address (g : globals) (os : list op) :
  forall s, binary_format g = true -> gate_closed g s = true ->
    forallb (below_gate g) os = true ->
    objfp (run g os s) = objfp s /\ gate_closed g (run g os s) = true.
Proof.
  induction os as [|o os IH]; intros s Hb Hg Hos; [by split|].
  cbn in Hos. apply andb_prop in Hos as [Ho Hos]. rewrite run_cons.
  destruct (gated_step g o s Hb Hg Ho) as [Hobj Hg'].
  destruct (IH (step g o s) Hb Hg' Hos) as [H1 H2].
  split; [congruence | assumption].
Qed.

Lemma X6_nothing_written_below_load_address_witness :
  let g := loader_binary in
  let os := [Write [1; 2]; Org 80; FillValue 4 0; Skip 200; Write [3];
             Org 40; End] in
  (binary_format g = true /\ gate_closed g (begin g) = true
   /\ forallb (below_gate g) os = true)
  /\ objfp (run g os (begin g)) = objfp (begin g)
  /\ gate_closed g (run g os (begin g)) = true.
Proof.
  cbv zeta. split; [by split_and!|].
  apply (X6_nothing_written_below_load_address loader_binary);
    reflexivity.
Defined.

(** ** Forward runs of a binary format *)

Lemma gate_stays_open (g : globals) (s s' : state) :
  gate_closed g s = false -> bin_addr s <= bin_addr s' ->
  gate_closed g s' = false.
Proof.
  unfold gate_closed. destruct (load_flag g); [|reflexivity]. cbn.
  intros H%Z.ltb_ge Hle. apply Z.ltb_ge. lia.
Qed.

Lemma forward_step_length (g : globals) (o : op) (s : state) :
  binary_format g = true -> gate_closed g s = false ->
  nseq_flag s = false ->
  0 <= bin_addr s -> bin_addr s <= curr_addr s -> curr_addr s < 65536 ->
  forward s o = true ->
  Z.of_nat (length (objfp (step g o s)))
    = Z.of_nat (length (objfp s)) + (bin_addr (step g o s) - bin_addr s)
  /\ nseq_flag (step g o s) = false
  /\ same_errors s (step g o s).
Proof.
  intros Hb Hg Hn H0 Hbc Hc Hfw.
  pose proof (step_errors g o s) as Herr. unfold rejects in Herr.
  rewrite Hn, Hg, !andb_false_r in Herr.
  split_and!; [| | exact Herr].
  - destruct o as [addr|bytes|count|count value|]; cbn in Hfw; cbn [step].
    + destruct (obj_org_binary g addr s Hb) as (_ & _ & -> & ->).
      rewrite Hg. lia.
    + apply Z.ltb_lt in Hfw.
      destruct (Z.eq_dec (Z.of_nat (length bytes)) 0) as [Hz|Hnz].
      { unfold obj_writeb. rewrite Hz. cbn. lia. }
      rewrite obj_writeb_binary_ok by (assumption || lia). cbn.
      rewrite !length_app, length_replicate, Nat2Z.id, firstn_all.
      unfold WORD. rewrite Z.mod_small by lia. lia.
    + rewrite obj_fill_closed. cbn. lia.
    + apply andb_prop in Hfw as [H1%Z.leb_le H2%Z.ltb_lt].
      destruct (Z.eq_dec count 0) as [Hz|Hnz].
      { unfold obj_fill_value. rewrite Hz. cbn. lia. }
      rewrite obj_fill_value_binary_ok by (assumption || lia). cbn.
      rewrite !length_app, !length_replicate.
      unfold WORD. rewrite Z.mod_small by lia. lia.
    + rewrite obj_end_binary by (assumption || lia).
      destruct (negb (nofill_flag g) && _); cbn; [|lia].
      rewrite length_app, length_replicate. lia.
  - destruct o as [addr|bytes|count|count value|]; cbn in Hfw; cbn [step].
    + destruct (obj_org_binary g addr s Hb) as (-> & _).
      apply andb_prop in Hfw as [H1%Z.leb_le _]. apply Z.ltb_ge. lia.
    + destruct (Z.eq_dec (Z.of_nat (length bytes)) 0) as [Hz|Hnz].
      { unfold obj_writeb. by rewrite Hz. }
      by rewrite obj_writeb_binary_ok by (assumption || lia).
    + by rewrite obj_fill_closed.
    + destruct (Z.eq_dec count 0) as [Hz|Hnz].
      { unfold obj_fill_value. by rewrite Hz. }
      by rewrite obj_fill_value_binary_ok by (assumption || lia).
    + rewrite obj_end_binary by (assumption || lia).
      by destruct (negb (nofill_flag g) && _).
Qed.

Lemma forward_run_length (g : globals) (os : list op) :
  forall s, binary_format g = true -> gate_closed g s = false ->
    nseq_flag s = false ->
    0 <= bin_addr s -> bin_addr s <= curr_addr s -> curr_addr s < 65536 ->
    forward_run g os s = true ->
    let s' := run g os s in
    Z.of_nat (length (objfp s'))
      = Z.of_nat (length (objfp s)) + (bin_addr s' - bin_addr s)
    /\ same_errors s s'
    /\ nseq_flag s' = false /\ gate_closed g s' = false
    /\ bin_addr s <= bin_addr s' /\ bin_addr s' <= curr_addr s'
    /\ curr_addr s' < 65536.
Proof.
  induction os as [|o os IH]; intros s Hb Hg Hn H0 Hbc Hc Hfw.
  - cbn. split_and!; try done; lia.
  - cbn in Hfw. apply andb_prop in Hfw as [Ho Hos]. rewrite run_cons.
    destruct (forward_step g o s Hb H0 Hbc Hc Ho) as (H1 & H2 & H3).
    destruct (forward_step_length g o s Hb Hg Hn H0 Hbc Hc Ho)
      as (Hlen & Hn' & He).
    pose proof (gate_stays_open g s (step g o s) Hg H1) as Hg'.
    destruct (IH (step g o s) Hb Hg' Hn') as (I1 & I2 & I3 & I4 & I5 & I6 & I7);
      try assumption; try lia.
    cbv zeta in *. split_and!; try assumption; try lia.
    by eapply same_errors_trans.
Qed.

(** X7: in the binary formats, once the load-address gate is open,
    the latch clear and the file position not above the logical
    address, a run of calls that never moves the logical address
    backwards nor past 65535 reports no error, and the file
    grows by exactly as many bytes as the file position advances;
    ending it with filling enabled brings the file position up to
    the logical address, so the bytes added in all are the final
    logical address minus the file position at the start: from
    [begin] in RAW_BINARY without a load address, the file is as long
    as the final logical address. *)
Theorem X7_forward_run_file_length (g : globals) (os : list op) (s : state) :
  binary_format g = true -> gate_closed g s = false ->
  nseq_flag s = false ->
  0 <= bin_addr s -> bin_addr s <= curr_addr s -> curr_addr s < 65536 ->
  forward_run g os s = true ->
  let s' := run g os s in
  Z.of_nat (length (objfp s'))
    = Z.of_nat (length (objfp s)) + (bin_addr s' - bin_addr s)
  /\ same_errors s s'
  /\ (nofill_flag g = false ->
      Z.of_nat (length (objfp (obj_end g s')))
        = Z.of_nat (length (objfp s)) + (curr_addr s' - bin_addr s)).
Proof.
  intros Hb Hg Hn H0 Hbc Hc Hfw s'.
  destruct (forward_run_length g os s Hb Hg Hn H0 Hbc Hc Hfw)
    as (H1 & H2 & H3 & H4 & H5 & H6 & H7).
  fold s' in H1, H2, H3, H4, H5, H6, H7.
  split_and!; [assumption | assumption |].
  intros Hnf. rewrite obj_end_binary by (assumption || lia).
  rewrite Hnf, H4. cbn. rewrite length_app, length_replicate. lia.
Qed.

Lemma X7_forward_run_file_length_witness :
  let g := raw_binary in
  let os := [Write [1; 2]; Org 5; Write [3]; Skip 4; FillValue 2 7;
             Skip 9] in
  (binary_format g = true /\ gate_closed g (begin g) = false
   /\ nseq_flag (begin g) = false /\ 0 <= bin_addr (begin g)
   /\ bin_addr (begin g) <= curr_addr (begin g)
   /\ curr_addr (begin g) < 65536 /\ forward_run g os (begin g) = true)
  /\ (nofill_flag g = false ->
      Z.of_nat (length (objfp (obj_end g (run g os (begin g)))))
        = Z.of_nat (length (objfp (begin g)))
          + (curr_addr (run g os (begin g)) - bin_addr (begin g))).
Proof.
  cbv zeta. split; [cbn; split_and!; (reflexivity || lia)|].
  apply (X7_forward_run_file_length raw_binary); (reflexivity || (cbn; lia)).
Defined.

(** X8: in a binary format with a load address above 0, the first
    origin, at or above the load address, opens the gate without
    writing anything: the file position jumps to that origin, no
    0xFF is written for the addresses below it, and after any run
    that moves only forward the bytes in the file after the header
    number exactly the file position minus that first origin, with no
    error reported. *)
Theorem X8_first_origin_opens_gate (g : globals) (a : Z) (os : list op) :
  binary_format g = true -> load_flag g = true ->
  0 < load_addr g -> load_addr g <= a -> a < 65536 ->
  forward_run g os (obj_org g a (begin g)) = true ->
  let s0 := obj_org g a (begin g) in
  let s' := run g (Org a :: os) (begin g) in
  (objfp s0 = objfp (begin g) /\ bin_addr s0 = a /\ curr_addr s0 = a
   /\ gate_closed g s0 = false /\ nseq_flag s0 = false)
  /\ Z.of_nat (length (objfp s'))
     = Z.of_nat (length (objfp (begin g))) + (bin_addr s' - a)
  /\ errors s' = 0.
Proof.
  intros Hb Hl Hla Ha Ha' Hfw s0 s'.
  destruct (begin_state g) as (Hn & Hc & Hbi & _).
  assert (Hg0 : gate_closed g (begin g) = true).
  { unfold gate_closed. rewrite Hl, Hbi. cbn. apply Z.ltb_lt. lia. }
  destruct (obj_org_binary g a (begin g) Hb) as (H1 & H2 & H3 & H4).
  fold s0 in H1, H2, H3, H4. rewrite Hg0 in H3. rewrite Hc in H1.
  assert (Hn0 : nseq_flag s0 = false) by (rewrite H1; apply Z.ltb_ge; lia).
  assert (Hgo : gate_closed g s0 = false).
  { unfold gate_closed. rewrite Hl, H3. cbn. apply Z.ltb_ge. lia. }
  split; [by split_and!|].
  destruct (forward_run_length g os s0 Hb Hgo Hn0)
    as (L1 & (L2 & _) & _); try assumption; try lia.
  subst s'. rewrite run_cons. cbn [step]. fold s0.
  cbv zeta in L1. rewrite L1, L2, H4, H3. split; [reflexivity|].
  pose proof (step_errors g (Org a) (begin g)) as He.
  unfold rejects in He. rewrite andb_false_r in He.
  destruct He as (He & _). cbn [step] in He. fold s0 in He. rewrite He.
  unfold begin, obj_header. by destruct (obj_fmt g).
Qed.

Lemma X8_first_origin_opens_gate_witness :
  let g := loader_binary in
  let os := [Write [170]; Skip 3; Write [1; 2]] in
  (binary_format g = true /\ load_flag g = true /\ 0 < load_addr g
   /\ load_addr g <= 256 /\ 256 < 65536
   /\ forward_run g os (obj_org g 256 (begin g)) = true)
  /\ Z.of_nat (length (objfp (run g (Org 256 :: os) (begin g))))
     = Z.of_nat (length (objfp (begin g)))
       + (bin_addr (run g (Org 256 :: os) (begin g)) - 256)
  /\ errors (run g (Org 256 :: os) (begin g)) = 0.
Proof.
  cbv zeta. split; [cbn; split_and!; (reflexivity || lia)|].
  apply (X8_first_origin_opens_gate loader_binary 256);
    (reflexivity || (cbn; lia)).
Defined.

(** ** Hex digits and lines *)

Lemma btoh_digits (b : Z) :
  0 <= b < 256 ->
  exists h d, btoh b = [h; d]
    /\ htoc h = Some (b / 16) /\ htoc d = Some (b mod 16).
Proof.
  intros Hb. unfold btoh.
  rewrite Z.shiftr_div_pow2 by lia.
  change 15 with (Z.ones 4). rewrite Z.land_ones by lia.
  change (2 ^ 4) with 16.
  pose proof (Z.div_mod b 16) as Hdm.
  pose proof (Z.mod_pos_bound b 16) as Hm.
  assert (Hq : 0 <= b / 16 < 16) by lia.
  eexists _, _. split; [reflexivity|].
  split; apply htoc_digit; lia.
Qed.

Lemma htoc_range (c v : Z) :
  htoc c = Some v -> (48 <= c <= 57 \/ 65 <= c <= 70) /\ 0 <= v < 16.
Proof.
  unfold htoc.
  destruct (Z.leb_spec 48 c), (Z.leb_spec c 57), (Z.leb_spec 65 c),
    (Z.leb_spec c 70); cbn; intros [= <-]; lia.
Qed.

(** X9: [btoh] writes a byte as two characters out of ['0'..'9'] and
    ['A'..'F'], high digit first; reading the two digits back gives
    the byte, so different bytes give different digit pairs. *)
Theorem X9_btoh_roundtrip (b : Z) :
  0 <= b < 256 ->
  (exists h d, btoh b = [h; d]
     /\ (48 <= h <= 57 \/ 65 <= h <= 70)
     /\ (48 <= d <= 57 \/ 65 <= d <= 70))
  /\ read_bytes 1 (btoh b) = Some ([b], [])
  /\ (forall b', 0 <= b' < 256 -> btoh b' = btoh b -> b' = b).
Proof.
  intros Hb.
  assert (Hrt : forall x, 0 <= x < 256 -> read_bytes 1 (btoh x) = Some ([x], [])).
  { intros x Hx. rewrite <- (app_nil_r (btoh x)).
    by rewrite read_bytes_btoh. }
  split_and!.
  - destruct (btoh_digits b Hb) as (h & d & E & Hh & Hd).
    exists h, d. split; [exact E|].
    apply htoc_range in Hh as [Hh _]. apply htoc_range in Hd as [Hd _].
    by split.
  - by apply Hrt.
  - intros b' Hb' E. pose proof (Hrt b' Hb') as H1.
    rewrite E, Hrt in H1 by assumption. by injection H1.
Qed.

Lemma X9_btoh_roundtrip_witness :
  0 <= 171 < 256 /\ read_bytes 1 (btoh 171) = Some ([171], []).
Proof.
  split; [lia|].
  exact (proj1 (proj2 (X9_btoh_roundtrip 171 ltac:(lia)))).
Defined.

Lemma buf_upto_length (buf : list Z) (n : nat) : length (buf_upto buf n) = n.
Proof.
  induction n as [|n IH]; [reflexivity|].
  cbn [buf_upto]. rewrite length_app, IH. cbn. lia.
Qed.

Lemma flat_map_btoh_length (l : list Z) :
  length (flat_map btoh l) = (2 * length l)%nat.
Proof.
  induction l as [|x l IH]; [reflexivity|].
  cbn [flat_map]. rewrite length_app, IH. cbn. lia.
Qed.

Lemma btoh_nonzero (b : Z) : 0 <= b < 256 -> Forall (fun c => 48 <= c) (btoh b).
Proof.
  intros Hb. destruct (btoh_digits b Hb) as (h & d & -> & Hh & Hd).
  apply htoc_range in Hh, Hd.
  repeat (apply Forall_cons; split; [lia|]). constructor.
Qed.

Lemma buf_upto_bytes (buf : list Z) (n : nat) :
  Forall (fun b => 0 <= b < 256) buf ->
  Forall (fun b => 0 <= b < 256) (buf_upto buf n).
Proof.
  intros Hb. induction n as [|n IH]; [constructor|].
  cbn [buf_upto]. apply Forall_app. split; [exact IH|].
  apply Forall_singleton. rewrite nth_lookup.
  destruct (buf !! n) as [x|] eqn:E; cbn; [|lia].
  eapply Forall_lookup_1 in Hb; [exact Hb | exact E].
Qed.

(** X10: the line [hex_record] builds is [12 + 2 * hex_cnt]
    characters long, so with [hex_cnt <= MAXHEX] the line and its
    terminating NUL fit the [MAXHEX*2+13] characters of [hex_out];
    and when the buffer holds bytes and the type is a byte no
    character of the line is NUL, so [fputs] writes all of it. *)
Theorem X10_hex_line_fits (g : globals) (rec_type : Z) (s : state) :
  0 <= hex_cnt s <= Z.of_nat (MAXHEX g) ->
  0 <= rec_type < 256 ->
  Forall (fun b => 0 <= b < 256) (hex_buf s) ->
  Z.of_nat (length (hex_out rec_type s)) = 12 + 2 * hex_cnt s
  /\ Z.of_nat (length (hex_out rec_type s)) + 1
     <= Z.of_nat (MAXHEX g) * 2 + 13
  /\ Forall (fun c => c <> 0) (hex_out rec_type s).
Proof.
  intros Hc Ht Hb.
  assert (Hlen : Z.of_nat (length (hex_out rec_type s)) = 12 + 2 * hex_cnt s).
  { unfold hex_out. rewrite !length_app, flat_map_btoh_length, buf_upto_length.
    cbn [length btoh]. lia. }
  split_and!; [exact Hlen | lia |].
  assert (Hbyte : forall z, 0 <= BYTE z < 256)
    by (intros z; apply Z.mod_pos_bound; lia).
  assert (Hnz : forall l, Forall (fun c => 48 <= c) l ->
                  Forall (fun c => c <> 0) l).
  { intros l H. eapply Forall_impl; [exact H|]. cbn. intros; lia. }
  unfold hex_out. repeat (apply Forall_app; split);
    try (apply Hnz, btoh_nonzero; (apply Hbyte || assumption)).
  - apply Forall_singleton. lia.
  - apply Hnz. apply Forall_flat_map.
    eapply Forall_impl; [apply (buf_upto_bytes _ _ Hb)|].
    intros x Hx. by apply btoh_nonzero.
  - apply Forall_singleton. lia.
Qed.

Lemma X10_hex_line_fits_witness :
  let s := State false 4 0 0 4 [1; 2; 3; 4] [] EmptyString 0 0 in
  (0 <= hex_cnt s <= Z.of_nat (MAXHEX hex_limit_4) /\ 0 <= HEX_DATA < 256
   /\ Forall (fun b => 0 <= b < 256) (hex_buf s))
  /\ Z.of_nat (length (hex_out HEX_DATA s)) = 12 + 2 * hex_cnt s.
Proof.
  cbv zeta.
  assert (Hb : Forall (fun b => 0 <= b < 256) [1; 2; 3; 4])
    by (repeat constructor; lia).
  split; [split_and!; (by vm_compute) || exact Hb|].
  refine (proj1 (X10_hex_line_fits hex_limit_4 HEX_DATA
                   (State false 4 0 0 4 [1; 2; 3; 4] [] EmptyString 0 0)
                   _ _ Hb));
    split; by vm_compute.
Defined.

(** ** What the checksum catches *)

Lemma sumZ_insert (l : list Z) :
  forall (i : nat) x y, l !! i = Some x ->
    sumZ (<[i := y]> l) = sumZ l - x + y.
Proof.
  induction l as [|z l IH]; intros [|i] x y Hi; try discriminate.
  - cbn in Hi. injection Hi as ->.
    change (y + sumZ l = x + sumZ l - x + y). lia.
  - cbn in Hi. change (z + sumZ (<[i := y]> l) = z + sumZ l - x + y).
    rewrite (IH i x y Hi). lia.
Qed.

(** X11: the checksum catches every change of one byte: replacing
    any single field of a record [hex_record] writes (count, address
    byte, type, payload byte or the checksum itself) by a different
    byte makes the fields no longer sum to 0 modulo 256. *)
Theorem X11_checksum_catches_one_byte (rec_type : Z) (s : state)
    (i : nat) (x y : Z) :
  record_fields rec_type s !! i = Some x ->
  0 <= x < 256 -> 0 <= y < 256 -> y <> x ->
  sumZ (record_fields rec_type s) mod 256 = 0
  /\ sumZ (<[i := y]> (record_fields rec_type s)) mod 256 <> 0.
Proof.
  intros Hi Hx Hy Hne.
  assert (H0 : sumZ (record_fields rec_type s) mod 256 = 0).
  { unfold record_fields. rewrite sumZ_app, chksum_negates.
    change (sumZ [?z]) with (z + 0).
    generalize (sumZ (record_head rec_type s)). intros h.
    Z.div_mod_to_equations. lia. }
  split; [exact H0|].
  rewrite (sumZ_insert _ i x y Hi).
  revert H0. generalize (sumZ (record_fields rec_type s)). intros t H0.
  Z.div_mod_to_equations. lia.
Qed.

Lemma X11_checksum_catches_one_byte_witness :
  let s := State false 4 0 0 4 [1; 2; 3; 4] [] EmptyString 0 0 in
  (record_fields HEX_DATA s !! 5%nat = Some 2 /\ 0 <= 2 < 256
   /\ 0 <= 3 < 256 /\ 3 <> 2)
  /\ sumZ (record_fields HEX_DATA s) mod 256 = 0
  /\ sumZ (<[5%nat := 3]> (record_fields HEX_DATA s)) mod 256 <> 0.
Proof.
  cbv zeta. split; [split_and!; (reflexivity || lia)|].
  apply (X11_checksum_catches_one_byte HEX_DATA
           (State false 4 0 0 4 [1; 2; 3; 4] [] EmptyString 0 0) 5 2 3);
    (reflexivity || lia).
Defined.

(** ** The end-of-file record *)

(** X12: [eof_hex] appends one line of 12 characters that reads back
    as the record of type 1 with no payload and the address it was
    given, whatever the buffer held: bytes still pending are dropped,
    not written; afterwards the buffer is empty and [hex_addr] is the
    address given. *)
Theorem X12_eof_record (addr : Z) (s : state) :
  0 <= addr < 65536 ->
  exists line,
    objfp (eof_hex addr s) = objfp s ++ line
    /\ length line = 12%nat
    /\ parse_record line = Some (HexRec addr HEX_EOF [], [])
    /\ hex_cnt (eof_hex addr s) = 0
    /\ hex_addr (eof_hex addr s) = addr.
Proof.
  intros Ha. exists (hex_out HEX_EOF (set_hex_addr addr (set_hex_cnt 0 s))).
  split; [reflexivity|]. split.
  { unfold hex_out. rewrite !length_app, flat_map_btoh_length, buf_upto_length.
    reflexivity. }
  split; [|by split].
  rewrite hex_out_render by (cbn; lia). unfold pending. cbn [take Z.to_nat hex_cnt set_hex_addr set_hex_cnt hex_addr].
  rewrite <- (app_nil_r (render _)).
  apply parse_record_render. unfold okrec, HEX_EOF. cbn.
  split_and!; try lia. constructor.
Qed.

Lemma X12_eof_record_witness :
  0 <= 4660 < 65536
  /\ exists line,
       objfp (eof_hex 4660 (begin hex_limit_4))
         = objfp (begin hex_limit_4) ++ line
       /\ length line = 12%nat
       /\ parse_record line = Some (HexRec 4660 HEX_EOF [], [])
       /\ hex_cnt (eof_hex 4660 (begin hex_limit_4)) = 0
       /\ hex_addr (eof_hex 4660 (begin hex_limit_4)) = 4660.
Proof.
  split; [lia|]. apply X12_eof_record. lia.
Defined.

(** ** Hex files of arbitrary call sequences *)

Lemma config_ok_hex (g : globals) :
  obj_fmt g = OBJ_HEX -> config_ok g = true ->
  hex_config g /\ 0 <= start_addr g < 65536.
Proof.
  intros Hf Hcfg. unfold config_ok, hex_config in *. rewrite Hf in Hcfg.
  repeat (apply andb_prop in Hcfg as [Hcfg ?]).
  repeat match goal with
         | H : (_ <=? _) = true |- _ => apply Z.leb_le in H
         | H : (_ <? _) = true |- _ => apply Z.ltb_lt in H
         end. lia.
Qed.

Section HexAnySequence.

Variable g : globals.
Hypothesis Hcfg : hex_config g.
Hypothesis Hfmt : obj_fmt g = OBJ_HEX.

Lemma hex_writes_refl (s : state) : hsize g s -> hex_writes g s s.
Proof.
  intros H. exists []. cbn. rewrite app_nil_r.
  split_and!; (done || constructor).
Qed.

Lemma hex_writes_trans (s1 s2 s3 : state) :
  hex_writes g s1 s2 -> hex_writes g s2 s3 -> hex_writes g s1 s3.
Proof.
  intros (r1 & Ho1 & Hk1 & Hz1 & _) (r2 & Ho2 & Hk2 & Hz2 & Hi2).
  exists (r1 ++ r2). rewrite flat_map_app.
  split; [by rewrite Ho2, Ho1, <- app_assoc|].
  split_and!; (by apply Forall_app) || assumption.
Qed.

Lemma hex_writes_hsize (s s' : state) : hex_writes g s s' -> hsize g s'.
Proof. by intros (? & _ & _ & _ & H). Qed.

Lemma flush_hex_writes (s : state) :
  hsize g s ->
  hex_writes g s (flush_hex s) /\ hex_cnt (flush_hex s) = 0.
Proof.
  intros [(Hc & Hl & Hb & Ha & Hcu) Hsz]. destruct Hcfg as (_ & _ & Hmax).
  unfold flush_hex.
  destruct (Z.eqb_spec (hex_cnt s) 0) as [Hz|Hnz];
    (split; [|cbn; congruence]).
  - exists []. unfold hsize, hinv. cbn. rewrite Hz, app_nil_r.
    split_and!; try assumption; try constructor; lia.
  - exists [HexRec (hex_addr s) HEX_DATA (pending s)].
    unfold hsize, hinv. cbn. rewrite app_nil_r.
    split; [f_equal; apply hex_out_render; lia|].
    split.
    { apply Forall_singleton. unfold okrec. cbn.
      rewrite pending_length by lia.
      split; [lia|]. split; [unfold HEX_DATA; lia|]. split; [lia|].
      by apply Forall_take. }
    split.
    { apply Forall_singleton. unfold sized. cbn.
      rewrite pending_length by lia. split; [reflexivity | lia]. }
    split_and!; try assumption; lia.
Qed.

Lemma hex_turn_writes (b : Z) (s : state) :
  hsize g s -> hex_writes g s (hex_turn g b s).
Proof.
  intros Hs. destruct Hcfg as (Hlen & Hmax1 & Hmax).
  set (s1 := if hexlen g <=? hex_cnt s then flush_hex s else s).
  assert (H1 : hex_writes g s s1 /\ hex_cnt s1 < Z.max 1 (hexlen g)).
  { subst s1. destruct (Z.leb_spec (hexlen g) (hex_cnt s)).
    - destruct (flush_hex_writes s Hs) as [Hw ->]. split; [exact Hw | lia].
    - split; [by apply hex_writes_refl | lia]. }
  destruct H1 as [Hw1 Hlt].
  eapply hex_writes_trans; [exact Hw1|].
  pose proof (hex_writes_hsize _ _ Hw1) as [(Hc & Hl & Hb & Ha & Hcu) Hsz].
  exists []. cbn [flat_map]. rewrite app_nil_r.
  unfold hex_turn. fold s1.
  split; [reflexivity|]. split; [constructor|]. split; [constructor|].
  assert (HW : WORD (hex_cnt s1 + 1) = hex_cnt s1 + 1)
    by (apply Z.mod_small; lia).
  unfold hsize, hinv, hex_put. cbn. rewrite HW, length_insert.
  split_and!; try assumption; try lia; try (apply Z.mod_pos_bound; lia).
  apply Forall_insert; [assumption|]. apply Z.mod_pos_bound. lia.
Qed.

Lemma writeb_hex_loop_writes (ops : list Z) (n : nat) :
  forall i s, hsize g s -> hex_writes g s (writeb_hex_loop g ops n i s).
Proof.
  induction n as [|n IH]; intros i s Hs; [by apply hex_writes_refl|].
  cbn [writeb_hex_loop]. fold (hex_turn g (nth i ops 0) s).
  pose proof (hex_turn_writes (nth i ops 0) s Hs) as Hw.
  eapply hex_writes_trans; [exact Hw|].
  apply IH. by eapply hex_writes_hsize.
Qed.

Lemma fill_hex_value_loop_writes (value : Z) (n : nat) :
  forall s, hsize g s -> hex_writes g s (fill_hex_value_loop g n value s).
Proof.
  induction n as [|n IH]; intros s Hs; [by apply hex_writes_refl|].
  cbn [fill_hex_value_loop]. fold (hex_turn g value s).
  pose proof (hex_turn_writes value s Hs) as Hw.
  eapply hex_writes_trans; [exact Hw|].
  apply IH. by eapply hex_writes_hsize.
Qed.

Lemma set_curr_addr_writes (v : Z) (s : state) :
  hsize g s -> 0 <= v < 65536 -> hex_writes g s (set_curr_addr v s).
Proof.
  intros [(Hc & Hl & Hb & Ha & Hcu) Hsz] Hv. exists [].
  unfold hsize, hinv. cbn. rewrite app_nil_r.
  split_and!; try assumption; try constructor; lia.
Qed.

Lemma step_hex_writes (o : op) (s : state) :
  hsize g s -> lawful o = true -> hex_writes g s (step g o s).
Proof.
  intros Hs Ho.
  assert (Hal : hex_writes g s (if hex_addr s + hex_cnt s =? curr_addr s
                                then s else flush_hex s)).
  { destruct (_ =? _); [by apply hex_writes_refl|].
    by apply flush_hex_writes. }
  destruct o as [addr|bytes|count|count value|]; cbn [step];
    try discriminate.
  - unfold obj_org. rewrite Hfmt. apply set_curr_addr_writes; [assumption|].
    cbn in Ho. apply andb_prop in Ho as [?%Z.leb_le ?%Z.ltb_lt]. lia.
  - unfold obj_writeb. destruct (_ =? 0); [by apply hex_writes_refl|].
    rewrite Hfmt. eapply hex_writes_trans; [exact Hal|].
    apply writeb_hex_loop_writes. by eapply hex_writes_hsize.
  - rewrite obj_fill_closed. apply set_curr_addr_writes; [assumption|].
    destruct Hs as [(_ & _ & _ & _ & Hcu) _].
    destruct (_ || _); [assumption|]. apply Z.mod_pos_bound. lia.
  - unfold obj_fill_value. destruct (_ =? 0); [by apply hex_writes_refl|].
    rewrite Hfmt. eapply hex_writes_trans; [exact Hal|].
    apply fill_hex_value_loop_writes. by eapply hex_writes_hsize.
Qed.

Lemma run_hex_writes (os : list op) :
  forall s, hsize g s -> forallb lawful os = true ->
    hex_writes g s (run g os s).
Proof.
  induction os as [|o os IH]; intros s Hs Hos; [by apply hex_writes_refl|].
  cbn in Hos. apply andb_prop in Hos as [Ho Hos]. rewrite run_cons.
  pose proof (step_hex_writes o s Hs Ho) as Hw.
  eapply hex_writes_trans; [exact Hw|].
  apply IH; [by eapply hex_writes_hsize | assumption].
Qed.

Lemma hsize_begin : hsize g (begin g).
Proof.
  split; [apply hinv_begin|].
  destruct (begin_state g) as (_ & _ & _ & _ & -> & _). lia.
Qed.

End HexAnySequence.

(** X13: in the hex format, with a record length limit within the
    buffer, any sequence of origin changes, writes, skips and fills,
    in any order and with any counts (wrapping past 65535 included),
    followed by [obj_end], gives a file that reads back in full: data
    records with valid checksums, each of at least one byte and at
    most [hexlen] bytes (one if [hexlen] is below 1), then exactly
    one end-of-file record carrying the start address.  Along the way
    the buffer count never exceeds that limit nor the capacity of
    [hex_buf], so no store leaves the array. *)
Theorem X13_hex_file_well_formed (g : globals) (os : list op) :
  obj_fmt g = OBJ_HEX -> config_ok g = true ->
  forallb lawful os = true ->
  let s := run g os (begin g) in
  (exists recs,
     parse_hex_file (objfp (obj_end g s))
       = Some (recs ++ [HexRec (start_addr g) HEX_EOF []])
     /\ Forall (sized g) recs)
  /\ 0 <= hex_cnt s <= Z.min (Z.of_nat (MAXHEX g)) (Z.max 1 (hexlen g))
  /\ length (hex_buf s) = MAXHEX g.
Proof.
  intros Hf Hcfg Hos s.
  destruct (config_ok_hex g Hf Hcfg) as [Hh Hsa].
  pose proof (run_hex_writes g Hh Hf os (begin g) (hsize_begin g) Hos) as Hw.
  fold s in Hw.
  pose proof (hex_writes_hsize g _ _ Hw) as Hs.
  destruct (flush_hex_writes g Hh s Hs) as [Hw2 Hc2].
  pose proof (hex_writes_trans g _ _ _ Hw Hw2)
    as (recs & Ho & Hok & Hsz & _).
  assert (Hbegin : objfp (begin g) = []).
  { unfold begin, obj_header. by rewrite Hf. }
  split; [|destruct Hs as [(? & ? & _) ?]; split; [lia | assumption]].
  exists recs. split; [|assumption].
  assert (Hfile : objfp (obj_end g s)
                  = flat_map render
                      (recs ++ [HexRec (start_addr g) HEX_EOF []])).
  { unfold obj_end. rewrite Hf, eof_hex_objfp, Ho, Hbegin.
    rewrite flat_map_app. cbn [app flat_map]. rewrite app_nil_r.
    f_equal. rewrite hex_out_render; cbn; try lia. reflexivity. }
  rewrite Hfile. apply parse_hex_file_render.
  apply Forall_app. split; [assumption|]. apply Forall_singleton.
  unfold okrec, HEX_EOF. cbn. split_and!; try lia. constructor.
Qed.

Lemma X13_hex_file_well_formed_witness :
  let g := hex_limit_4 in
  let os := [Org 65534; Write [1; 2; 3; 4; 5]; Org 5; FillValue 3 7;
             Skip 65000; Write [9]] in
  (obj_fmt g = OBJ_HEX /\ config_ok g = true /\ forallb lawful os = true)
  /\ exists recs,
       parse_hex_file (objfp (obj_end g (run g os (begin g))))
         = Some (recs ++ [HexRec (start_addr g) HEX_EOF []])
       /\ Forall (sized g) recs.
Proof.
  cbv zeta. split; [by split_and!|].
  refine (proj1 (X13_hex_file_well_formed hex_limit_4 _ _ _ _));
    reflexivity.
Defined.

(** ** The hex format with origin changes *)

Lemma run_hex_placed (g : globals) (os : list op) :
  hex_config g -> obj_fmt g = OBJ_HEX ->
  forall (s : state) (a : Z),
    hinv g s -> placeable a os = true ->
    0 <= a -> curr_addr s = WORD a ->
    hex_emits g s (run g os s) (placed a os).
Proof.
  intros Hcfg Hf.
  induction os as [|o os IH]; intros s a Hinv Hpl Ha Hcu.
  - by apply hex_emits_refl.
  - rewrite run_cons.
    assert (Hstep : forall o', o = o' -> is_emit o' = true ->
              wf_op o' && (a + advance o' <=? 65536)
              && placeable (a + advance o') os = true ->
              hex_emits g s (run g os (step g o' s))
                (tag a (emitted o') ++ placed (a + advance o') os)).
    { intros o' _ _ H.
      apply andb_prop in H as [H Hos]. apply andb_prop in H as [Ho Hfit].
      apply Z.leb_le in Hfit. pose proof (wf_op_advance o' Ho) as Hadv.
      destruct (step_hex_emits g Hcfg Hf o' s a Hinv Ho Ha Hcu Hfit)
        as [He Hcu'].
      assert (Hinv' : hinv g (step g o' s))
        by (destruct He as (? & _ & _ & _ & H & _); exact H).
      eapply hex_emits_trans; [exact He|].
      apply IH; [assumption | assumption | lia | assumption]. }
    destruct o as [addr|bytes|count|count value|];
      try (by apply Hstep).
    + cbn [placeable placed step] in *.
      apply andb_prop in Hpl as [H Hos].
      apply andb_prop in H as [H1%Z.leb_le H2%Z.ltb_lt].
      assert (Hw : WORD addr = addr) by (apply Z.mod_small; lia).
      unfold obj_org. rewrite Hf.
      pose proof (set_curr_addr_emits g addr s Hinv) as He0.
      rewrite Hw in He0.
      change (placed addr os) with ([] ++ placed addr os).
      eapply hex_emits_trans; [exact He0|].
      apply IH; [|assumption | lia | by rewrite Hw].
      by destruct He0 as (? & _ & _ & _ & H & _).
Qed.

(** X14: the hex format loses nothing to origin changes.  With a
    record length limit within the buffer, for any sequence of
    origin changes (backwards ones included), writes, skips and
    fills in which no call runs past address 65535, the file after
    [obj_end] reads back as data records whose address/byte pairs
    are exactly the bytes handed over, each at the address it was
    written to and in the order of the calls, followed by the
    end-of-file record. *)
Theorem X14_hex_keeps_every_origin (g : globals) (os : list op) :
  obj_fmt g = OBJ_HEX -> config_ok g = true -> placeable 0 os = true ->
  exists recs,
    parse_hex_file (objfp (obj_end g (run g os (begin g))))
      = Some (recs ++ [HexRec (start_addr g) HEX_EOF []])
    /\ Forall (fun r => rec_type r = HEX_DATA) recs
    /\ payload recs = placed 0 os.
Proof.
  intros Hf Hcfg Hpl.
  destruct (config_ok_hex g Hf Hcfg) as [Hh Hsa].
  destruct (begin_state g) as (_ & Hc & _ & Ha & Hn & _).
  pose proof (run_hex_placed g os Hh Hf (begin g) 0 (hinv_begin g) Hpl
                ltac:(lia) Hc) as He.
  set (s := run g os (begin g)) in *.
  assert (Hinv : hinv g s)
    by (destruct He as (? & _ & _ & _ & H & _); exact H).
  destruct (flush_hex_emits g Hh s Hinv) as (He2 & Hc2 & _).
  pose proof (hex_emits_trans _ _ _ _ _ _ He He2)
    as (recs & Ho & Hok & Hty & Hinv2 & Hpay).
  exists recs.
  assert (Hbegin : objfp (begin g) = []).
  { unfold begin, obj_header. by rewrite Hf. }
  unfold pending in Hpay. rewrite Hc2, Hn in Hpay.
  cbn [Z.to_nat take tag] in Hpay.
  rewrite !app_nil_r in Hpay. cbn [app] in Hpay.
  split_and!; try assumption.
  assert (Hfile : objfp (obj_end g s)
                  = flat_map render
                      (recs ++ [HexRec (start_addr g) HEX_EOF []])).
  { unfold obj_end. rewrite Hf, eof_hex_objfp, Ho, Hbegin.
    rewrite flat_map_app. cbn [app flat_map]. rewrite app_nil_r.
    f_equal. rewrite hex_out_render; cbn; try lia. reflexivity. }
  rewrite Hfile. apply parse_hex_file_render.
  apply Forall_app. split; [assumption|]. apply Forall_singleton.
  unfold okrec, HEX_EOF. cbn. split_and!; try lia. constructor.
Qed.

Lemma X14_hex_keeps_every_origin_witness :
  let g := hex_limit_4 in
  let os := [Org 10; Write [1; 2; 3; 4; 5]; Org 5; FillValue 3 7;
             Skip 2; Write [9]; Org 0; Write [8]] in
  (obj_fmt g = OBJ_HEX /\ config_ok g = true /\ placeable 0 os = true)
  /\ exists recs,
       parse_hex_file (objfp (obj_end g (run g os (begin g))))
         = Some (recs ++ [HexRec (start_addr g) HEX_EOF []])
       /\ Forall (fun r => rec_type r = HEX_DATA) recs
       /\ payload recs = placed 0 os.
Proof.
  cbv zeta. split; [by split_and!|].
  apply (X14_hex_keeps_every_origin hex_limit_4); reflexivity.
Defined.

(** ** The binary file as a memory image *)

Lemma placed_as_skips (os : list op) :
  forall a, placed a os = supplied a (as_skips a os).
Proof.
  induction os as [|o os IH]; intros a; [reflexivity|].
  destruct o as [addr|bytes|count|count value|];
    cbn [placed as_skips supplied emitted advance tag app];
    rewrite ?IH; try reflexivity.
  by replace (a + (addr - a)) with addr by lia.
Qed.

Lemma as_skips_wf (os : list op) :
  forall a, 0 <= a <= 65536 -> forward_placeable a os = true ->
    forallb wf_op (as_skips a os) = true
    /\ span a (as_skips a os) <= 65536.
Proof.
  induction os as [|o os IH]; intros a Ha Hp; [cbn; split; [done | lia]|].
  assert (Hgen : forall o', o = o' -> as_skips a (o' :: os)
                                      = o' :: as_skips (a + advance o') os ->
            wf_op o' && (a + advance o' <=? 65536)
            && forward_placeable (a + advance o') os = true ->
            forallb wf_op (as_skips a (o' :: os)) = true
            /\ span a (as_skips a (o' :: os)) <= 65536).
  { intros o' _ -> H.
    apply andb_prop in H as [H Hos]. apply andb_prop in H as [Ho Hfit].
    apply Z.leb_le in Hfit. pose proof (wf_op_advance o' Ho).
    destruct (IH (a + advance o') ltac:(lia) Hos) as [H1 H2].
    cbn [forallb span]. rewrite Ho, H1. by split. }
  destruct o as [addr|bytes|count|count value|];
    try (by apply Hgen).
  cbn [forward_placeable as_skips] in *.
  apply andb_prop in Hp as [H Hos].
  apply andb_prop in H as [H1%Z.leb_le H2%Z.ltb_lt].
  destruct (IH addr ltac:(lia) Hos) as [I1 I2].
  cbn [forallb span wf_op advance]. rewrite I1, andb_true_r.
  replace (a + (addr - a)) with addr by lia.
  split; [|assumption].
  apply andb_true_intro. split; [apply Z.leb_le | apply Z.ltb_lt]; lia.
Qed.

Lemma set_nseq_flag_same (s : state) : set_nseq_flag (nseq_flag s) s = s.
Proof. by destruct s. Qed.

(** With the gate open and the latch clear, an origin change that
    does not go back is the skip up to the new origin. *)
Lemma forward_org_is_skip (g : globals) (addr : Z) (s : state) :
  binary_format g = true -> gate_closed g s = false ->
  nseq_flag s = false -> curr_addr s <= addr -> 0 <= addr < 65536 ->
  obj_org g addr s = obj_fill g (addr - curr_addr s) s.
Proof.
  intros Hb Hg Hn Hle Ha. rewrite obj_fill_closed, Hb, Hn. cbn [andb orb].
  rewrite orb_false_r.
  assert (Hl : obj_org g addr s = set_curr_addr addr s).
  { unfold obj_org, binary_format, gate_closed in *.
    assert (E : (addr <? curr_addr s) = false) by (apply Z.ltb_ge; lia).
    rewrite E, <- Hn, set_nseq_flag_same.
    destruct (obj_fmt g); try discriminate; by rewrite Hg. }
  rewrite Hl. f_equal.
  destruct (Z.eqb_spec (addr - curr_addr s) 0); [lia|].
  unfold WORD. replace (curr_addr s + (addr - curr_addr s)) with addr by lia.
  by rewrite Z.mod_small.
Qed.

Lemma run_as_skips (g : globals) (os : list op) :
  binary_format g = true -> config_ok g = true ->
  forall (s : state) (a p : Z),
    forward_placeable a os = true -> nseq_flag s = false ->
    0 <= p <= a -> a <= 65536 ->
    curr_addr s = WORD a -> bin_addr s = WORD p ->
    run g os s = run g (as_skips a os) s.
Proof.
  intros Hb Hok.
  induction os as [|o os IH]; intros s a p Hp Hn Hpa Ha Hcu Hbi;
    [reflexivity|].
  assert (Hgen : forall o', o = o' -> as_skips a (o' :: os)
                                      = o' :: as_skips (a + advance o') os ->
            wf_op o' && (a + advance o' <=? 65536)
            && forward_placeable (a + advance o') os = true ->
            run g (o' :: os) s = run g (as_skips a (o' :: os)) s).
  { intros o' _ -> H.
    apply andb_prop in H as [H Hos]. apply andb_prop in H as [Ho Hfit].
    apply Z.leb_le in Hfit. pose proof (wf_op_advance o' Ho).
    rewrite !run_cons.
    destruct (run_bin_image g Hb Hok [o'] s a p) as (_ & Hn' & Hcu' & Hbi' & Hle);
      [by rewrite forallb_app || (cbn; by rewrite Ho) | assumption | lia
      | assumption | assumption | cbn; lia |].
    cbv zeta in *. cbn [run fold_left span] in *.
    eapply (IH _ _ _ Hos Hn'); [| | exact Hcu' | exact Hbi']; lia. }
  destruct o as [addr|bytes|count|count value|];
    try (by apply Hgen).
  cbn [forward_placeable as_skips] in *.
  apply andb_prop in Hp as [H Hos].
  apply andb_prop in H as [H1%Z.leb_le H2%Z.ltb_lt].
  assert (Hw : WORD a = a) by (apply Z.mod_small; lia).
  rewrite Hw in Hcu.
  assert (Hbin0 : 0 <= bin_addr s)
    by (rewrite Hbi; apply Z.mod_pos_bound; lia).
  rewrite !run_cons. cbn [step].
  rewrite forward_org_is_skip, Hcu
    by (try apply (gate_open g Hb Hok); assumption || lia).
  destruct (obj_fill_binary g Hb (addr - a) s a Hn)
    as (Hn' & Hcu' & Hbi' & _); [lia | by rewrite Hw | done |].
  replace (a + (addr - a)) with addr in Hcu' by lia.
  eapply (IH _ addr p Hos Hn'); [lia | lia | exact Hcu' | congruence].
Qed.

(** X15: the binary file is a memory image.  In a binary format with
    no load address above 0, for any sequence of origin changes that
    do not go back, writes, skips and fills in which no call runs
    past address 65535, the file after [obj_end] consists of the
    header followed by a body in which every byte handed over sits
    at the offset equal to the address it was written to, and every
    other byte is the 0xFF fill. *)
Theorem X15_binary_memory_image (g : globals) (os : list op) :
  binary_format g = true -> config_ok g = true ->
  forward_placeable 0 os = true ->
  exists body,
    objfp (obj_end g (run g os (begin g))) = objfp (begin g) ++ body
    /\ (forall x b, (x, b) ∈ placed 0 os -> body !! Z.to_nat x = Some b)
    /\ (forall (i : nat) c, body !! i = Some c ->
          (forall b, (Z.of_nat i, b) ∉ placed 0 os) -> c = 255).
Proof.
  intros Hb Hok Hp.
  destruct (begin_state g) as (Hn & Hc & Hbi & _).
  destruct (as_skips_wf os 0 ltac:(lia) Hp) as [Hwf Hfit].
  rewrite (run_as_skips g os Hb Hok (begin g) 0 0 Hp Hn) by (done || lia).
  destruct (run_binary_file g (as_skips 0 os) Hb Hok Hwf Hfit)
    as (k & Hfile & _).
  exists (bin_image 0 0 (as_skips 0 os) ++ replicate k 255).
  rewrite placed_as_skips. split; [exact Hfile|]. split.
  - intros x b Hin. apply lookup_app_l_Some.
    rewrite <- (Z.sub_0_r x). by apply bin_image_supplied.
  - intros i c Hi Hnot.
    apply lookup_app_Some in Hi as [Hi|[_ Hi]].
    + by apply (bin_image_fill (as_skips 0 os) 0 0 i c).
    + by apply lookup_replicate in Hi as [-> _].
Qed.

Lemma X15_binary_memory_image_witness :
  let g := raw_binary in
  let os := [Write [1; 2]; Org 5; Write [3]; Skip 2; FillValue 2 7;
             Org 12; Write [4]] in
  (binary_format g = true /\ config_ok g = true
   /\ forward_placeable 0 os = true)
  /\ exists body,
       objfp (obj_end g (run g os (begin g))) = objfp (begin g) ++ body
       /\ (forall x b, (x, b) ∈ placed 0 os -> body !! Z.to_nat x = Some b)
       /\ (forall (i : nat) c, body !! i = Some c ->
             (forall b, (Z.of_nat i, b) ∉ placed 0 os) -> c = 255).
Proof.
  cbv zeta. split; [by split_and!|].
  apply (X15_binary_memory_image raw_binary); reflexivity.
Defined.

(** ** Reports in a row *)

Lemma string_append_assoc (s1 s2 s3 : string) :
  ((s1 ++ s2) ++ s3 = s1 ++ s2 ++ s3)%string.
Proof.
  induction s1 as [|c s1 IH]; [reflexivity|]. cbn. by rewrite IH.
Qed.

Lemma asmerr_fold (g : globals) (errs : list Z) :
  forall s,
    let s' := fold_left (fun s i => asmerr g i s) errs s in
    errors s' = errors s + Z.of_nat (length errs)
    /\ same_emission s s'
    /\ if pass g =? 1
       then errfp s'
            = (errfp s ++ fold_right append EmptyString
                            (map (error_text g) errs))%string
            /\ errnum s' = errnum s
       else errfp s' = errfp s /\ errnum s' = default (errnum s) (last errs).
Proof.
  induction errs as [|i errs IH]; intros s; cbn zeta.
  - cbn. split; [lia|]. split; [by unfold same_emission|].
    destruct (pass g =? 1); split; try reflexivity.
    clear. induction (errfp s) as [|c t IH]; [reflexivity|].
    cbn. by rewrite <- IH.
  - cbn [fold_left length map fold_right].
    destruct (IH (asmerr g i s)) as (H1 & H2 & H3). cbn zeta in H1, H2, H3.
    destruct (asmerr_reported g i s) as [(E1 & E2) E3].
    split; [rewrite H1, E1; lia|].
    split; [by eapply same_emission_trans|].
    destruct (pass g =? 1).
    + destruct H3 as [H3 H4], E2 as [E2 E4].
      split; [|congruence].
      rewrite H3, E2. apply string_append_assoc.
    + destruct H3 as [H3 H4], E2 as [E2 E4].
      split; [congruence|]. rewrite H4, E4, last_cons.
      by destruct (last errs).
Qed.

(** X16: [asmerr] counts every report, but outside pass 1 only the
    last one is remembered.  After any number of reports in a row
    the error counter has gone up by that number and nothing of the
    emission state has changed.  In pass 1 the error file has grown
    by two lines for each report, in the order of the reports:
    [Error in file: <srcfn>  Line: <c_line>] and the message of the
    error, and [errnum] is as it was.  In the other passes nothing is
    printed and [errnum] is the number of the last report, or as it
    was if there was none.  The two errors this module reports itself
    read [non-sequential object code] and [object code before ORG]. *)
Theorem X16_asmerr_sequence (g : globals) (errs : list Z) (s : state) :
  let s' := fold_left (fun s i => asmerr g i s) errs s in
  let report (i : Z) : string :=
    ("Error in file: " ++ srcfn g ++ "  Line: "
     ++ NilZero.string_of_int (Z.to_int (c_line g))
     ++ String "010" EmptyString
     ++ nth (Z.to_nat i) errmsg EmptyString
     ++ String "010" EmptyString)%string in
  errors s' = errors s + Z.of_nat (length errs)
  /\ same_emission s s'
  /\ (if pass g =? 1
      then errfp s'
           = (errfp s ++ fold_right append EmptyString (map report errs))%string
           /\ errnum s' = errnum s
      else errfp s' = errfp s /\ errnum s' = default (errnum s) (last errs))
  /\ nth (Z.to_nat E_NSQWRT) errmsg EmptyString
     = "non-sequential object code"%string
  /\ nth (Z.to_nat E_BFRORG) errmsg EmptyString
     = "object code before ORG"%string.
Proof.
  cbv zeta.
  destruct (asmerr_fold g errs s) as (H1 & H2 & H3). cbv zeta in H1, H2, H3.
  split; [exact H1|]. split; [exact H2|]. split; [|by split].
  exact H3.
Qed.

(** * Properties of the listing code *)

Lemma fputs_lst_twice (a b : list Z) (l : listing) :
  fputs_lst b (fputs_lst a l) = fputs_lst (a ++ b) l.
Proof.
  unfold fputs_lst, set_lstfp. cbn. by rewrite app_assoc.
Qed.

Lemma lst_byte_text (b : Z) (l : listing) :
  exists h d, lst_byte b l = fputs_lst [h; d] l.
Proof.
  unfold lst_byte. rewrite fputs_lst_twice. cbn [app]. by eexists _, _.
Qed.

Lemma btoh_lower (b : Z) :
  0 <= b < 256 ->
  map to_lower (btoh b)
  = [Z.shiftr b 4 + (if Z.shiftr b 4 <? 10 then 48 else 87);
     Z.land b 15 + (if Z.land b 15 <? 10 then 48 else 87)].
Proof.
  intros Hb. unfold btoh. cbn [map].
  assert (Hc : 0 <= Z.shiftr b 4 < 16).
  { rewrite Z.shiftr_div_pow2 by lia. change (2 ^ 4) with 16.
    Z.div_mod_to_equations; lia. }
  assert (Hd : 0 <= Z.land b 15 < 16).
  { change 15 with (Z.ones 4). rewrite Z.land_ones by lia.
    change (2 ^ 4) with 16. Z.div_mod_to_equations; lia. }
  revert Hc Hd.
  generalize (Z.shiftr b 4) as c. generalize (Z.land b 15) as d.
  intros d c Hc Hd. unfold to_lower.
  f_equal; [|f_equal].
  - destruct (Z.ltb_spec c 10);
      [destruct (Z.leb_spec 65 (c + 48)), (Z.leb_spec (c + 48) 90)
      |destruct (Z.leb_spec 65 (c + 55)), (Z.leb_spec (c + 55) 90)];
      cbn; lia.
  - destruct (Z.ltb_spec d 10);
      [destruct (Z.leb_spec 65 (d + 48)), (Z.leb_spec (d + 48) 90)
      |destruct (Z.leb_spec 65 (d + 55)), (Z.leb_spec (d + 55) 90)];
      cbn; lia.
Qed.

Lemma ltoc_digit (v : Z) :
  0 <= v < 16 -> ltoc (v + (if v <? 10 then 48 else 87)) = Some v.
Proof.
  intros Hv. unfold ltoc.
  destruct (Z.ltb_spec v 10).
  - replace ((48 <=? v + 48) && (v + 48 <=? 57)) with true
      by (symmetry; apply andb_true_iff; lia).
    f_equal. lia.
  - replace ((48 <=? v + 87) && (v + 87 <=? 57)) with false
      by (symmetry; apply andb_false_iff; lia).
    replace ((97 <=? v + 87) && (v + 87 <=? 102)) with true
      by (symmetry; apply andb_true_iff; lia).
    f_equal. lia.
Qed.

(** X17: [lst_byte] appends two characters to the list file and
    changes nothing else: the hex digits of the byte, high digit
    first, out of ['0'..'9'] and ['a'..'f'].  They are the digits
    [btoh] puts into a hex record, with the capitals made small, and
    they read back as the byte. *)
Theorem X17_lst_byte_digits (b : Z) (l : listing) :
  0 <= b < 256 ->
  exists h d,
    lst_byte b l = fputs_lst [h; d] l
    /\ [h; d] = map to_lower (btoh b)
    /\ ltoc h = Some (b / 16) /\ ltoc d = Some (b mod 16)
    /\ b = 16 * (b / 16) + b mod 16.
Proof.
  intros Hb.
  pose proof (Z.div_mod b 16) as Hdm.
  pose proof (Z.mod_pos_bound b 16) as Hm.
  assert (Hq : 0 <= b / 16 < 16) by lia.
  eexists _, _. split.
  { unfold lst_byte. rewrite fputs_lst_twice. cbn [app]. reflexivity. }
  split; [by rewrite btoh_lower|].
  rewrite Z.shiftr_div_pow2 by lia.
  change 15 with (Z.ones 4). rewrite Z.land_ones by lia.
  change (2 ^ 4) with 16.
  split_and!; [apply ltoc_digit; lia | apply ltoc_digit; lia | lia].
Qed.

Lemma X17_lst_byte_digits_witness :
  0 <= 171 < 256
  /\ exists h d, lst_byte 171 empty_listing = fputs_lst [h; d] empty_listing
       /\ [h; d] = map to_lower (btoh 171)
       /\ ltoc h = Some (171 / 16) /\ ltoc d = Some (171 mod 16)
       /\ 171 = 16 * (171 / 16) + 171 mod 16.
Proof.
  split; [lia|]. apply (X17_lst_byte_digits 171 empty_listing). lia.
Defined.

(** What a page break leaves behind: some text more in the file, the
    line counter at 6 and the page number one up when pages are
    counted, the line counter at 0 otherwise. *)
Lemma page_break_closed (g : globals) (lg : lglobals) (title : string)
    (l : listing) :
  exists text,
    page_break g lg title l
    = Listing (lstfp l ++ text)
        (if ppl lg =? 0 then 0 else 6)
        (if ppl lg =? 0 then page l else page l + 1)
        (s_line l) true true (a_addr l) (tl (clock l)).
Proof.
  unfold page_break, lst_attl, lst_header.
  destruct l as [f p pg sl hd ad aa ck].
  destruct (ppl lg =? 0), hd, ad; eexists;
    cbv beta iota zeta delta
      [fputs_lst set_lstfp set_p_line set_page set_clock set_header_done
       set_attl_done lstfp p_line page s_line header_done attl_done a_addr
       clock negb andb orb];
    rewrite <- ?app_assoc; reflexivity.
Qed.

Lemma lst_cols_closed (ops mark : list Z) (n : nat) (j op_cnt : Z) (i : nat)
    (l : listing) :
  exists i' text,
    lst_cols ops mark n j op_cnt i l
    = (op_cnt - Z.of_nat n, i', fputs_lst text l).
Proof.
  revert j op_cnt i l. induction n as [|n IH]; intros j c i l.
  - exists i, []. cbn [lst_cols]. f_equal; [f_equal; lia|].
    unfold fputs_lst, set_lstfp. destruct l; cbn. by rewrite app_nil_r.
  - cbn [lst_cols]. destruct (0 <? c).
    + destruct (lst_byte_text (nth i ops 0) l) as (h & d & ->).
      rewrite fputs_lst_twice.
      destruct (IH (j + 1) (c - 1) (S i) (fputs_lst ([h; d] ++ [32]) l))
        as (i' & text & ->).
      rewrite fputs_lst_twice. eexists _, _. f_equal. f_equal. lia.
    + rewrite fputs_lst_twice.
      destruct (IH (j + 1) (c - 1) i
                  (fputs_lst ((if j =? 0 then mark else chars "  ") ++ [32]) l))
        as (i' & text & ->).
      rewrite fputs_lst_twice. eexists _, _. f_equal. f_equal. lia.
Qed.

Lemma ULONG_succ (lg : lglobals) (x : Z) :
  0 < ULONG_MAX lg -> ULONG lg (ULONG lg x + 1) = ULONG lg (x + 1).
Proof.
  intros H. unfold ULONG. rewrite Z.add_mod_idemp_l by lia. reflexivity.
Qed.

(** The continuation lines: one statement number for each four bytes
    left. *)
Lemma lst_more_s_line (g : globals) (lg : lglobals) (title : string)
    (ops : list Z) (expn : bool) (fuel : nat) (addr op_cnt : Z) (i : nat)
    (l : listing) (x : Z) :
  0 < ULONG_MAX lg ->
  op_cnt <= Z.of_nat fuel ->
  s_line l = ULONG lg x ->
  s_line (lst_more g lg title ops expn fuel addr op_cnt i l)
  = ULONG lg (x + Z.max 0 ((op_cnt + 3) / 4)).
Proof.
  intros HU. revert addr op_cnt i l x.
  induction fuel as [|fuel IH]; intros addr c i l x Hf Hs.
  - cbn [lst_more]. rewrite Hs. f_equal.
    assert ((c + 3) / 4 <= 0) by (Z.div_mod_to_equations; lia). lia.
  - cbn [lst_more]. destruct (Z.ltb_spec 0 c) as [Hc|Hc].
    2:{ rewrite Hs. f_equal.
        assert ((c + 3) / 4 <= 0) by (Z.div_mod_to_equations; lia). lia. }
    set (l1 := if negb (ppl lg =? 0) then set_p_line (p_line l + 1) l else l).
    set (l2 := if ppl lg <? p_line l1 then page_break g lg title l1 else l1).
    assert (H2 : s_line l2 = ULONG lg x).
    { subst l2. destruct (ppl lg <? p_line l1).
      - destruct (page_break_closed g lg title l1) as (t & ->). cbn.
        subst l1. by destruct (negb (ppl lg =? 0)).
      - subst l1. by destruct (negb (ppl lg =? 0)). }
    destruct (lst_byte_text (BYTE (Z.shiftr (WORD (addr + 4)) 8))
                (set_s_line (ULONG lg (s_line l2 + 1)) l2))
      as (h1 & d1 & ->).
    destruct (lst_byte_text (BYTE (Z.land (WORD (addr + 4)) 255))
                (fputs_lst [h1; d1] (set_s_line (ULONG lg (s_line l2 + 1)) l2)))
      as (h2 & d2 & ->).
    rewrite !fputs_lst_twice.
    match goal with
    | |- context [lst_cols ?o ?m ?n ?j ?c ?i ?l] =>
        destruct (lst_cols_closed o m n j c i l) as (i' & text & ->)
    end.
    rewrite !fputs_lst_twice.
    erewrite IH; [|lia|cbn; rewrite H2; apply ULONG_succ; exact HU].
    f_equal. change (Z.of_nat 4) with 4.
    assert (0 <= (c - 4 + 3) / 4) by (Z.div_mod_to_equations; lia).
    assert ((c + 3) / 4 = (c - 4 + 3) / 4 + 1)
      by (Z.div_mod_to_equations; lia).
    lia.
Qed.

(** Continuation lines keep the line counter of a counted page within
    the page and never lower the page number. *)
Lemma lst_more_p_line (g : globals) (lg : lglobals) (title : string)
    (ops : list Z) (expn : bool) (fuel : nat) (addr op_cnt : Z) (i : nat)
    (l : listing) :
  0 < ppl lg ->
  0 <= p_line l <= Z.max (ppl lg) 6 + 1 ->
  let l' := lst_more g lg title ops expn fuel addr op_cnt i l in
  0 <= p_line l' <= Z.max (ppl lg) 6 + 1 /\ page l <= page l'.
Proof.
  intros Hp. revert addr op_cnt i l.
  induction fuel as [|fuel IH]; intros addr c i l Hl; cbn zeta.
  - cbn [lst_more]. lia.
  - cbn [lst_more]. destruct (0 <? c); [|lia].
    replace (ppl lg =? 0) with false by (symmetry; apply Z.eqb_neq; lia).
    cbn [negb].
    set (l1 := set_p_line (p_line l + 1) l).
    set (l2 := if ppl lg <? p_line l1 then page_break g lg title l1 else l1).
    assert (H2 : 0 <= p_line l2 <= Z.max (ppl lg) 6 /\ page l <= page l2).
    { subst l2. destruct (Z.ltb_spec (ppl lg) (p_line l1)) as [H|H].
      - destruct (page_break_closed g lg title l1) as (t & ->). cbn.
        replace (ppl lg =? 0) with false by (symmetry; apply Z.eqb_neq; lia).
        lia.
      - subst l1. cbn in *. lia. }
    destruct (lst_byte_text (BYTE (Z.shiftr (WORD (addr + 4)) 8))
                (set_s_line (ULONG lg (s_line l2 + 1)) l2))
      as (h1 & d1 & ->).
    destruct (lst_byte_text (BYTE (Z.land (WORD (addr + 4)) 255))
                (fputs_lst [h1; d1] (set_s_line (ULONG lg (s_line l2 + 1)) l2)))
      as (h2 & d2 & ->).
    rewrite !fputs_lst_twice.
    match goal with
    | |- context [lst_cols ?o ?m ?n ?j ?c ?i ?l] =>
        destruct (lst_cols_closed o m n j c i l) as (i' & text & ->)
    end.
    rewrite !fputs_lst_twice.
    match goal with
    | |- context [lst_more _ _ _ _ _ _ ?a ?c ?i ?l] =>
        pose proof (IH a c i l) as H
    end.
    cbn zeta in H. cbn [p_line page fputs_lst set_lstfp set_s_line] in H.
    specialize (H ltac:(lia)). lia.
Qed.

(** [lst_line] with the listing on, up to the continuation lines: the
    state after the error mark, and the counters the loop starts
    from. *)
Lemma lst_line_closed (g : globals) (lg : lglobals) (title : string)
    (ops : list Z) (src : string) (addr op_cnt : Z) (expn : bool)
    (st : state) (l : listing) :
  list_flag lg = true ->
  a_mode lg <> A_OTHER ->
  let c := match a_mode lg with A_DS => 0 | _ => op_cnt end - 4 in
  let p0 := if ppl lg =? 0 then p_line l else p_line l + 1 in
  let broke := (ppl lg <? p0) || (c_line g =? 1) in
  let p1 := if broke then (if ppl lg =? 0 then 0 else 6) else p0 in
  exists i l3,
    lst_line g lg title ops src addr op_cnt expn st l
    = Some (if errnum st =? E_NOERR then st
            else set_errnum E_NOERR
                   (set_errfp (errfp st ++ error_mark (errnum st))%string st),
            let l4 := lst_more g lg title ops expn (Z.to_nat c) addr c i l3 in
            if p_line l4 <? 0 then set_p_line 1 l4 else l4)
    /\ s_line l3 = ULONG lg (s_line l + 1)
    /\ p_line l3 = (if (errnum st =? E_NOERR) || (ppl lg =? 0)
                    then p1 else p1 + 1)
    /\ page l3 = (if broke && negb (ppl lg =? 0) then page l + 1 else page l).
Proof.
  intros Hl Hm. cbn zeta. unfold lst_line. rewrite Hl. cbn [negb].
  set (l0 := set_s_line (ULONG lg (s_line l + 1)) l).
  set (l1 := if negb (ppl lg =? 0) then set_p_line (p_line l0 + 1) l0 else l0).
  assert (E1 : p_line l1 = (if ppl lg =? 0 then p_line l else p_line l + 1)
               /\ s_line l1 = ULONG lg (s_line l + 1) /\ page l1 = page l).
  { subst l1 l0. by destruct (ppl lg =? 0). }
  destruct E1 as (Ep1 & Es1 & Eg1). rewrite Ep1.
  set (broke := (ppl lg <? (if ppl lg =? 0 then p_line l else p_line l + 1))
                || (c_line g =? 1)).
  set (l2 := if broke then page_break g lg title l1 else l1).
  assert (E2 : p_line l2 = (if broke then (if ppl lg =? 0 then 0 else 6)
                            else if ppl lg =? 0 then p_line l else p_line l + 1)
               /\ s_line l2 = ULONG lg (s_line l + 1)
               /\ page l2 = (if broke && negb (ppl lg =? 0) then page l + 1
                             else page l)).
  { subst l2. destruct broke.
    - destruct (page_break_closed g lg title l1) as (t & ->). cbn.
      rewrite Es1, Eg1. by destruct (ppl lg =? 0).
    - by rewrite Ep1, Es1, Eg1. }
  clearbody l2. clear l1 l0 Ep1 Es1 Eg1.
  destruct E2 as (Ep2 & Es2 & Eg2).
  assert (Hp : forall (b : bool) (x : listing),
            p_line (if b then set_p_line (p_line x + 1) x else x)
            = if b then p_line x + 1 else p_line x) by (by intros []).
  destruct (a_mode lg) eqn:Em; [| | | | |congruence].
  all: cbn [a_addr set_a_addr].
  all: repeat match goal with
         | |- context [lst_byte ?b ?x] =>
             destruct (lst_byte_text b x) as (? & ? & ->)
         end.
  all: rewrite ?fputs_lst_twice.
  all: match goal with
       | |- context [lst_cols ?o ?m ?n ?j ?c ?i ?x] =>
           destruct (lst_cols_closed o m n j c i x) as (i' & t' & ->)
       end.
  all: change (Z.of_nat 4) with 4; rewrite ?fputs_lst_twice.
  all: unfold error_mark.
  all: destruct (errnum st =? E_NOERR) eqn:Ee; cbn [orb].
  all: eexists i', _; (split; [reflexivity|]).
  all: rewrite ?Hp.
  all: cbn [s_line p_line page fputs_lst set_lstfp set_p_line set_a_addr].
  all: rewrite ?Es2, ?Eg2, ?Ep2.
  all: by destruct (ppl lg =? 0).
Qed.

Lemma lst_line_s_line (g : globals) (lg : lglobals) (title : string)
    (ops : list Z) (src : string) (addr op_cnt : Z) (expn : bool)
    (st : state) (l : listing) :
  0 < ULONG_MAX lg ->
  list_flag lg = true ->
  a_mode lg <> A_OTHER ->
  exists st' l',
    lst_line g lg title ops src addr op_cnt expn st l = Some (st', l')
    /\ s_line l'
       = ULONG lg (s_line l + 1 + continuation_lines (a_mode lg) op_cnt).
Proof.
  intros HU Hl Hm.
  destruct (lst_line_closed g lg title ops src addr op_cnt expn st l Hl Hm)
    as (i & l3 & E & Hs & _ & _).
  cbn zeta in E. rewrite E. eexists _, _. split; [reflexivity|].
  set (c := match a_mode lg with A_DS => 0 | _ => op_cnt end - 4).
  set (l4 := lst_more g lg title ops expn (Z.to_nat c) addr c i l3).
  assert (H4 : s_line l4 = ULONG lg (s_line l + 1 + Z.max 0 ((c + 3) / 4))).
  { apply lst_more_s_line; [exact HU | lia | exact Hs]. }
  replace (s_line (if p_line l4 <? 0 then set_p_line 1 l4 else l4))
    with (s_line l4) by (by destruct (p_line l4 <? 0)).
  rewrite H4. f_equal. f_equal. subst c. unfold continuation_lines.
  destruct (a_mode lg); f_equal; f_equal; lia.
Qed.

(** X18: [lst_line] numbers statements whether or not a listing is
    written.  With the listing off it adds one to [s_line] and does
    nothing else, not even looking at [a_mode].  With the listing on
    it ends the program for an [a_mode] it has no case for, and
    otherwise returns with [s_line] advanced by one for the line and
    by one more for each continuation line: none for [A_DS], else one
    for each started group of four opcode bytes past the first four.
    [s_line] is an [unsigned long] and wraps around. *)
Theorem X18_statement_numbers (g : globals) (lg : lglobals) (title : string)
    (ops : list Z) (src : string) (addr op_cnt : Z) (expn : bool)
    (st : state) (l : listing) :
  0 < ULONG_MAX lg ->
  (list_flag lg = false ->
     lst_line g lg title ops src addr op_cnt expn st l
     = Some (st, set_s_line (ULONG lg (s_line l + 1)) l))
  /\ (list_flag lg = true -> a_mode lg = A_OTHER ->
        lst_line g lg title ops src addr op_cnt expn st l = None)
  /\ (list_flag lg = true -> a_mode lg <> A_OTHER ->
        exists st' l',
          lst_line g lg title ops src addr op_cnt expn st l = Some (st', l')
          /\ s_line l'
             = ULONG lg (s_line l + 1
                         + continuation_lines (a_mode lg) op_cnt)).
Proof.
  intros HU. split_and!.
  - intros Hl. unfold lst_line. by rewrite Hl.
  - intros Hl Hm. unfold lst_line. by rewrite Hl, Hm.
  - intros Hl Hm. by apply lst_line_s_line.
Qed.

Lemma X18_statement_numbers_witness :
  0 < ULONG_MAX listing_on
  /\ exists st' l',
       lst_line raw_binary listing_on "Test" [1; 2; 3; 4; 5; 6; 7; 8; 9]
         "src" 4096 9 false (begin raw_binary) empty_listing = Some (st', l')
       /\ s_line l' = ULONG listing_on (s_line empty_listing + 1
                        + continuation_lines (a_mode listing_on) 9).
Proof.
  split; [by vm_compute|].
  refine (proj2 (proj2 (X18_statement_numbers raw_binary listing_on "Test"
            [1; 2; 3; 4; 5; 6; 7; 8; 9] "src" 4096 9 false (begin raw_binary)
            empty_listing _)) _ _);
    [by vm_compute | reflexivity | discriminate].
Defined.

Lemma lst_line_errors (g : globals) (lg : lglobals) (title : string)
    (ops : list Z) (src : string) (addr op_cnt : Z) (expn : bool)
    (st : state) (l : listing) :
  list_flag lg = true ->
  a_mode lg <> A_OTHER ->
  exists st' l',
    lst_line g lg title ops src addr op_cnt expn st l = Some (st', l')
    /\ errfp st' = (errfp st ++ error_mark (errnum st))%string
    /\ errnum st' = E_NOERR
    /\ errors st' = errors st
    /\ same_emission st st'.
Proof.
  intros Hl Hm.
  destruct (lst_line_closed g lg title ops src addr op_cnt expn st l Hl Hm)
    as (i & l3 & E & _).
  cbn zeta in E. rewrite E. eexists _, _. split; [reflexivity|].
  unfold error_mark.
  destruct (Z.eqb_spec (errnum st) E_NOERR) as [H0|H0].
  - split_and!; try done.
    clear. induction (errfp st) as [|c s IH]; [reflexivity|].
    cbn. by rewrite <- IH.
  - cbn. split_and!; done.
Qed.

(** X19: a listed line takes the pending error off [errnum].  With
    the listing on and a known [a_mode], [lst_line] returns; if
    [errnum] held an error, the line [=> message] goes to the error
    file; [errnum] is [E_NOERR] afterwards, the error counter and the
    object file state are as before.  On a counted page, a line
    without continuation lines leaves the line counter at one more
    than it was, or at 6 if it starts a page, because the page is
    full or the line is the first of its file, and in either case at
    one more again if an error was pending. *)
Theorem X19_listed_line_reports_pending_error (g : globals) (lg : lglobals)
    (title : string) (ops : list Z) (src : string) (addr op_cnt : Z)
    (expn : bool) (st : state) (l : listing) :
  list_flag lg = true ->
  a_mode lg <> A_OTHER ->
  exists st' l',
    lst_line g lg title ops src addr op_cnt expn st l = Some (st', l')
    /\ errfp st' = (errfp st ++ error_mark (errnum st))%string
    /\ errnum st' = E_NOERR
    /\ errors st' = errors st
    /\ same_emission st st'
    /\ (continuation_lines (a_mode lg) op_cnt = 0 ->
        0 < ppl lg -> 0 <= p_line l ->
        p_line l'
        = (if (ppl lg <? p_line l + 1) || (c_line g =? 1) then 6
           else p_line l + 1)
          + (if errnum st =? E_NOERR then 0 else 1)).
Proof.
  intros Hl Hm.
  destruct (lst_line_errors g lg title ops src addr op_cnt expn st l Hl Hm)
    as (st' & l' & E & H1 & H2 & H3 & H4).
  exists st', l'. split_and!; try assumption.
  intros Hc Hp Hlt.
  destruct (lst_line_closed g lg title ops src addr op_cnt expn st l Hl Hm)
    as (i & l3 & E' & _ & Hp3 & _).
  cbn zeta in E'. rewrite E' in E. injection E as _ <-.
  set (c := match a_mode lg with A_DS => 0 | _ => op_cnt end - 4) in *.
  assert (Hc0 : c <= 0).
  { subst c. unfold continuation_lines in Hc.
    destruct (a_mode lg); try lia;
      assert ((op_cnt - 1) / 4 <= 0) by lia;
      Z.div_mod_to_equations; lia. }
  replace (Z.to_nat c) with 0%nat by lia. cbn [lst_more].
  revert Hp3.
  replace (ppl lg =? 0) with false by (symmetry; apply Z.eqb_neq; lia).
  rewrite orb_false_r. intros Hp3.
  assert (H0 : 0 <= p_line l3).
  { rewrite Hp3.
    destruct ((ppl lg <? p_line l + 1) || (c_line g =? 1)),
      (errnum st =? E_NOERR); lia. }
  replace (p_line l3 <? 0) with false by (symmetry; apply Z.ltb_ge; lia).
  rewrite Hp3.
  destruct ((ppl lg <? p_line l + 1) || (c_line g =? 1)),
    (errnum st =? E_NOERR); lia.
Qed.

Lemma X19_listed_line_reports_pending_error_witness :
  list_flag listing_on = true /\ a_mode listing_on <> A_OTHER
  /\ exists st' l',
       lst_line raw_binary listing_on "Test" [1; 2] "src" 4096 2 false
         (set_errnum 9 (begin raw_binary)) empty_listing = Some (st', l')
       /\ errfp st' = (errfp (set_errnum 9 (begin raw_binary))
                       ++ error_mark 9)%string
       /\ errnum st' = E_NOERR
       /\ p_line l' = 7.
Proof.
  split; [reflexivity|]. split; [discriminate|].
  destruct (X19_listed_line_reports_pending_error raw_binary listing_on
              "Test" [1; 2] "src" 4096 2 false
              (set_errnum 9 (begin raw_binary)) empty_listing
              eq_refl ltac:(discriminate))
    as (st' & l' & E & H1 & H2 & _ & _ & H3).
  exists st', l'. split_and!; try assumption.
  apply H3; by vm_compute.
Defined.

(** X20: in pass 2 [asmerr] only leaves the error number in [errnum],
    so of two errors raised before a line is listed both are counted
    but only the second is printed: [lst_line] writes [=> message]
    for it and clears [errnum].  With the listing off [lst_line]
    prints nothing to the error file and leaves [errnum] as it is. *)
Theorem X20_last_error_wins (g : globals) (lg : lglobals) (title : string)
    (ops : list Z) (src : string) (addr op_cnt : Z) (expn : bool)
    (i j : Z) (st : state) (l : listing) :
  pass g <> 1 ->
  j <> E_NOERR ->
  (list_flag lg = true -> a_mode lg <> A_OTHER) ->
  exists st' l',
    lst_line g lg title ops src addr op_cnt expn
      (asmerr g j (asmerr g i st)) l = Some (st', l')
    /\ errors st' = errors st + 2
    /\ same_emission st st'
    /\ if list_flag lg
       then errfp st'
            = (errfp st ++ "=> " ++ nth (Z.to_nat j) errmsg EmptyString
               ++ nl)%string
            /\ errnum st' = E_NOERR
       else errfp st' = errfp st /\ errnum st' = j.
Proof.
  intros Hp Hj Hm.
  assert (Ha : asmerr g j (asmerr g i st)
               = set_errors (errors st + 2) (set_errnum j st)).
  { unfold asmerr. replace (pass g =? 1) with false
      by (symmetry; by apply Z.eqb_neq).
    unfold set_errors, set_errnum. cbn. f_equal. lia. }
  rewrite Ha.
  destruct (list_flag lg) eqn:Hl.
  - destruct (lst_line_errors g lg title ops src addr op_cnt expn
                (set_errors (errors st + 2) (set_errnum j st)) l Hl
                (Hm eq_refl))
      as (st' & l' & E & H1 & H2 & H3 & H4).
    exists st', l'. split; [exact E|].
    cbn [errors errfp errnum set_errors set_errnum] in H1, H2, H3.
    unfold error_mark in H1.
    replace (j =? E_NOERR) with false in H1
      by (symmetry; by apply Z.eqb_neq).
    split; [exact H3|]. split; [|by split].
    unfold same_emission in *. cbn in H4. exact H4.
  - unfold lst_line. rewrite Hl. cbn [negb].
    eexists _, _. split; [reflexivity|].
    cbn. unfold same_emission. by split_and!.
Qed.

Lemma X20_last_error_wins_witness :
  pass raw_binary <> 1 /\ 9 <> E_NOERR
  /\ exists st' l',
       lst_line raw_binary listing_on "Test" [1; 2] "src" 4096 2 false
         (asmerr raw_binary 9 (asmerr raw_binary 19 (begin raw_binary)))
         empty_listing = Some (st', l')
       /\ errors st' = errors (begin raw_binary) + 2.
Proof.
  split; [by vm_compute|]. split; [by vm_compute|].
  destruct (X20_last_error_wins raw_binary listing_on "Test" [1; 2] "src"
              4096 2 false 19 9 (begin raw_binary) empty_listing
              ltac:(by vm_compute) ltac:(by vm_compute)
              ltac:(intros _; discriminate))
    as (st' & l' & E & H1 & _).
  exists st', l'. by split.
Defined.

Lemma lst_more_uncounted (g : globals) (lg : lglobals) (title : string)
    (ops : list Z) (expn : bool) (fuel : nat) (addr op_cnt : Z) (i : nat)
    (l : listing) :
  ppl lg = 0 ->
  p_line l = 0 ->
  let l' := lst_more g lg title ops expn fuel addr op_cnt i l in
  p_line l' = 0 /\ page l' = page l.
Proof.
  intros Hp. revert addr op_cnt i l.
  induction fuel as [|fuel IH]; intros addr c i l Hl; cbn zeta.
  - by cbn [lst_more].
  - cbn [lst_more]. destruct (0 <? c); [|done].
    rewrite Hp. cbn [Z.eqb negb]. rewrite Hl. cbn [Z.ltb Z.compare].
    destruct (lst_byte_text (BYTE (Z.shiftr (WORD (addr + 4)) 8))
                (set_s_line (ULONG lg (s_line l + 1)) l))
      as (h1 & d1 & ->).
    destruct (lst_byte_text (BYTE (Z.land (WORD (addr + 4)) 255))
                (fputs_lst [h1; d1] (set_s_line (ULONG lg (s_line l + 1)) l)))
      as (h2 & d2 & ->).
    rewrite !fputs_lst_twice.
    match goal with
    | |- context [lst_cols ?o ?m ?n ?j ?c ?i ?l] =>
        destruct (lst_cols_closed o m n j c i l) as (i' & text & ->)
    end.
    rewrite !fputs_lst_twice.
    match goal with
    | |- context [lst_more _ _ _ _ _ _ ?a ?c ?i ?l] =>
        pose proof (IH a c i l) as H
    end.
    cbn zeta in H. cbn [p_line page fputs_lst set_lstfp set_s_line] in H.
    by specialize (H Hl).
Qed.

(** X21: [lst_line] keeps the line counter within the page.  With
    [ppl] lines to a page, a counter that is within [0] and
    [max ppl 6 + 1] stays there over any listed line, however many
    continuation lines it has, and the page number never goes down;
    a fresh page leaves [lst_line] with at least six lines counted,
    which is why the bound is not [ppl + 1] for pages shorter than
    that.  With [ppl = 0] pages are not counted: the counter is 0
    after the line and the page number as before. *)
Theorem X21_line_counter_stays_on_page (g : globals) (lg : lglobals)
    (title : string) (ops : list Z) (src : string) (addr op_cnt : Z)
    (expn : bool) (st : state) (l : listing) :
  list_flag lg = true ->
  a_mode lg <> A_OTHER ->
  0 <= ppl lg ->
  0 <= p_line l <= page_room lg ->
  exists st' l',
    lst_line g lg title ops src addr op_cnt expn st l = Some (st', l')
    /\ 0 <= p_line l' <= page_room lg
    /\ page l <= page l'
    /\ (ppl lg = 0 -> p_line l' = 0 /\ page l' = page l).
Proof.
  intros Hl Hm Hp Hr. unfold page_room in *.
  destruct (lst_line_closed g lg title ops src addr op_cnt expn st l Hl Hm)
    as (i & l3 & E & _ & Hp3 & Hg3).
  cbn zeta in E. rewrite E. eexists _, _. split; [reflexivity|].
  set (c := match a_mode lg with A_DS => 0 | _ => op_cnt end - 4) in *.
  set (l4 := lst_more g lg title ops expn (Z.to_nat c) addr c i l3).
  destruct (Z.eqb_spec (ppl lg) 0) as [H0|H0].
  - (* pages are not counted *)
    rewrite orb_true_r in Hp3. cbn [negb] in Hg3.
    rewrite andb_false_r in Hg3.
    assert (H3 : p_line l3 = 0).
    { rewrite Hp3, H0.
      destruct (Z.ltb_spec 0 (p_line l)); cbn [orb]; [done|].
      destruct (c_line g =? 1); lia. }
    destruct (lst_more_uncounted g lg title ops expn (Z.to_nat c) addr c i l3
                H0 H3) as [H4 H4'].
    fold l4 in H4, H4'.
    replace (p_line l4 <? 0) with false by (by rewrite H4).
    rewrite H4, H4', Hg3. lia.
  - assert (H3 : 0 <= p_line l3 <= Z.max (ppl lg) 6 + 1 /\ page l <= page l3).
    { rewrite Hp3, Hg3. cbn [negb]. rewrite orb_false_r, andb_true_r.
      destruct (Z.ltb_spec (ppl lg) (p_line l + 1)); cbn [orb];
        [|destruct (c_line g =? 1)];
        destruct (errnum st =? E_NOERR); lia. }
    destruct H3 as [H3 H3'].
    destruct (lst_more_p_line g lg title ops expn (Z.to_nat c) addr c i l3
                ltac:(lia) H3) as [H4 H4'].
    fold l4 in H4, H4'.
    replace (p_line l4 <? 0) with false by (symmetry; apply Z.ltb_ge; lia).
    split; [exact H4|]. split; [lia|]. intros; lia.
Qed.

Lemma X21_line_counter_stays_on_page_witness :
  list_flag listing_on = true /\ a_mode listing_on <> A_OTHER
  /\ 0 <= ppl listing_on
  /\ 0 <= p_line empty_listing <= page_room listing_on
  /\ exists st' l',
       lst_line raw_binary listing_on "Test" [1; 2; 3; 4; 5; 6; 7; 8; 9]
         "src" 4096 9 false (begin raw_binary) empty_listing = Some (st', l')
       /\ 0 <= p_line l' <= page_room listing_on.
Proof.
  split; [reflexivity|]. split; [discriminate|].
  split; [by vm_compute|]. split; [by vm_compute|].
  destruct (X21_line_counter_stays_on_page raw_binary listing_on "Test"
              [1; 2; 3; 4; 5; 6; 7; 8; 9] "src" 4096 9 false
              (begin raw_binary) empty_listing eq_refl ltac:(discriminate)
              ltac:(by vm_compute) ltac:(by vm_compute))
    as (st' & l' & E & H1 & _).
  exists st', l'. by split.
Defined.

(** ** The symbol table *)

Lemma lst_sort_sym_loop_entries (g : globals) (lg : lglobals)
    (symarray : list sym) (n i : nat) (jl : Z * listing) :
  (i + n <= length symarray)%nat ->
  lst_sort_sym_loop g lg symarray n i jl
  = Some (lst_entries g lg (take n (drop i symarray)) jl).
Proof.
  revert i jl. induction n as [|n IH]; intros i jl Hn.
  - reflexivity.
  - cbn [lst_sort_sym_loop].
    destruct (symarray !! i) as [np|] eqn:E.
    2:{ apply lookup_ge_None in E. lia. }
    rewrite IH by lia.
    rewrite (drop_S _ _ _ E). reflexivity.
Qed.

Lemma lst_sort_sym_loop_overrun (g : globals) (lg : lglobals)
    (symarray : list sym) (n i : nat) (jl : Z * listing) :
  (i <= length symarray < i + n)%nat ->
  lst_sort_sym_loop g lg symarray n i jl = None.
Proof.
  revert i jl. induction n as [|n IH]; intros i jl Hn.
  - lia.
  - cbn [lst_sort_sym_loop].
    destruct (symarray !! i) as [np|] eqn:E; [|reflexivity].
    apply lookup_lt_Some in E. apply IH. lia.
Qed.

Lemma lst_chains_entries (g : globals) (lg : lglobals)
    (symtab : list (list sym)) (jl : Z * listing) :
  fold_left
    (fun jl chain => fold_left (fun jl np => lst_sym_entry g lg np jl) chain jl)
    symtab jl
  = lst_entries g lg (concat symtab) jl.
Proof.
  revert jl. induction symtab as [|chain symtab IH]; intros jl.
  - reflexivity.
  - cbn [fold_left concat]. rewrite IH. unfold lst_entries.
    by rewrite fold_left_app.
Qed.

(** X22: the unsorted symbol table is the sorted one without the
    sorting.  [lst_sym] over the hash table gives the title and
    listing [lst_sort_sym] gives for the chains laid end to end in
    bucket order: every symbol of every chain once, empty buckets
    leaving no trace.  [lst_sort_sym] itself lists the first [len]
    entries of [symarray]; asked for more than there are, it runs
    past the end of the array. *)
Theorem X22_lst_sym_is_lst_sort_sym_on_chains (g : globals) (lg : lglobals)
    (symtab : list (list sym)) (symarray : list sym) (len : Z) (l : listing) :
  lst_sort_sym g lg (concat symtab) (Z.of_nat (length (concat symtab))) l
  = Some (lst_sym g lg symtab l)
  /\ (lst_sort_sym g lg symarray len l = None
      <-> Z.of_nat (length symarray) < len).
Proof.
  split.
  - unfold lst_sort_sym, lst_sym. rewrite Nat2Z.id.
    rewrite lst_sort_sym_loop_entries by (cbn; lia).
    rewrite drop_0, firstn_all, lst_chains_entries.
    by destruct (lst_entries g lg (concat symtab) (0, set_p_line 0 l)).
  - unfold lst_sort_sym. split.
    + intros H.
      destruct (Z.lt_ge_cases (Z.of_nat (length symarray)) len) as [|Hle];
        [assumption|].
      rewrite lst_sort_sym_loop_entries in H by (cbn; lia).
      by destruct (lst_entries g lg _ _).
    + intros H. by rewrite lst_sort_sym_loop_overrun by lia.
Qed.

Lemma lst_sym_entry_closed (g : globals) (lg : lglobals) (np : sym) (j : Z)
    (l : listing) :
  exists head l',
    lst_sym_entry g lg np (j, l)
    = (if 80 <=? j + symmax lg + 9 + symmax lg + 6 then 0
       else j + symmax lg + 9, l')
    /\ lstfp l'
       = lstfp l ++ head ++ sym_text lg np
         ++ (if 80 <=? j + symmax lg + 9 + symmax lg + 6 then [10]
             else chars "   ")
    /\ (p_line l <> 0 -> head = []).
Proof.
  unfold lst_sym_entry.
  set (l1 := if p_line l =? 0 then _ else l).
  assert (H1 : exists head, lstfp l1 = lstfp l ++ head
                            /\ (p_line l <> 0 -> head = [])).
  { subst l1. destruct (Z.eqb_spec (p_line l) 0) as [H0|H0].
    - unfold lst_header.
      destruct l as [f p pg sl hd ad aa ck].
      cbv beta iota zeta delta
        [fputs_lst set_lstfp set_p_line set_page set_clock set_header_done
         set_attl_done lstfp p_line page s_line header_done attl_done a_addr
         clock].
      destruct (ppl lg =? 0), hd;
        cbv beta iota zeta delta [negb andb orb];
        rewrite <- ?app_assoc;
        (eexists; split; [reflexivity | intros ?; contradiction]).
    - exists []. by rewrite app_nil_r. }
  destruct H1 as (head & H1 & Hh). clearbody l1.
  assert (Hhex : forall x : listing,
    lstfp (lst_byte (BYTE (Z.land (sym_val np) 255))
             (lst_byte (BYTE (Z.shiftr (sym_val np) 8)) x))
    = lstfp x ++ map to_lower (btoh (BYTE (Z.shiftr (sym_val np) 8))
                               ++ btoh (BYTE (Z.land (sym_val np) 255)))).
  { intros x. rewrite map_app.
    rewrite !btoh_lower by (unfold BYTE; apply Z.mod_pos_bound; lia).
    unfold lst_byte. rewrite !fputs_lst_twice.
    unfold fputs_lst, set_lstfp. cbn [lstfp app]. reflexivity. }
  destruct (80 <=? j + symmax lg + 9 + symmax lg + 6).
  - eexists head, _. split; [reflexivity|]. split; [|exact Hh].
    transitivity
      (lstfp (fputs_lst [10]
         (fputs_lst [if 0 <? sym_refcnt np then 32 else 42]
           (lst_byte (BYTE (Z.land (sym_val np) 255))
             (lst_byte (BYTE (Z.shiftr (sym_val np) 8))
               (fputs_lst (name_field lg (sym_name np) ++ [32]) l1)))))).
    { destruct (negb (ppl lg =? 0)); [|reflexivity].
      match goal with
      | |- context [if ?b then _ else _] => by destruct b
      end. }
    unfold fputs_lst at 1 2. cbn [lstfp set_lstfp].
    rewrite Hhex. unfold fputs_lst. cbn [lstfp set_lstfp].
    rewrite H1. unfold sym_text. by rewrite <- !app_assoc.
  - eexists head, _. split; [reflexivity|]. split; [|exact Hh].
    unfold fputs_lst at 1 2. cbn [lstfp set_lstfp].
    rewrite Hhex. unfold fputs_lst. cbn [lstfp set_lstfp].
    rewrite H1. unfold sym_text. by rewrite <- !app_assoc.
Qed.

(** The column counter after a run of symbols from column 0. *)
Lemma lst_entries_column (g : globals) (lg : lglobals) (syms : list sym)
    (l : listing) :
  0 <= symmax lg ->
  (lst_entries g lg syms (0, l)).1
  = (Z.of_nat (length syms) mod per_line lg) * (symmax lg + 9).
Proof.
  intros Hs. induction syms as [|np syms IH] using rev_ind.
  - reflexivity.
  - unfold lst_entries in *. rewrite fold_left_app. cbn [fold_left].
    destruct (fold_left _ syms (0, l)) as [j l1]. cbn [fst] in IH.
    destruct (lst_sym_entry_closed g lg np j l1) as (head & l' & -> & _).
    cbn [fst]. rewrite length_app. cbn [length].
    rewrite Nat2Z.inj_add. change (Z.of_nat 1) with 1.
    subst j. unfold per_line.
    set (w := symmax lg + 9). set (n := Z.of_nat (length syms)).
    assert (Hw : 0 < w) by (subst w; lia).
    replace (symmax lg) with (w - 9) by (subst w; lia).
    set (k := Z.max 1 (82 / w)).
    assert (Hk : 0 < k) by (subst k; lia).
    pose proof (Z.mod_pos_bound n k Hk) as Hr.
    pose proof (Z.div_mod n k ltac:(lia)) as Hn.
    pose proof (Z.mul_div_le 82 w Hw) as Hq1.
    pose proof (Z.mul_succ_div_gt 82 w Hw) as Hq2.
    assert (Hq0 : 0 <= 82 / w) by (apply Z.div_pos; lia).
    set (r := n mod k) in *. set (q := 82 / w) in *.
    destruct (Z.leb_spec 80 (r * w + (w - 9) + 9 + (w - 9) + 6)) as [Hb|Hb].
    + (* the line is full: r + 1 = k *)
      assert (Hrk : r + 1 = k).
      { assert (q < r + 2) by nia. subst k. lia. }
      symmetry. replace (n + 1) with ((n / k + 1) * k) by lia.
      rewrite Z.mod_mul by lia. lia.
    + assert (Hrk : r + 1 < k).
      { assert (r + 2 <= q) by nia. subst k. lia. }
      replace ((n + 1) mod k) with (r + 1); [lia|].
      apply (Z.mod_unique_pos _ _ (n / k)); lia.
Qed.

(** X23: the symbol table has [per_line] symbols to a line, which is
    [82 / (symmax + 9)] but not less than one.  Listing one symbol
    more adds to the file: a page header if a page starts here and
    else nothing, the name filled up to [symmax] columns, a blank,
    the value as four small hex digits, a blank or, for a symbol
    never referenced, a star, and then a line end if the number of
    symbols listed is now a multiple of [per_line], three blanks if
    not. *)
Theorem X23_symbols_per_line (g : globals) (lg : lglobals)
    (symarray : list sym) (n : nat) (np : sym) (l : listing) :
  0 <= symmax lg ->
  symarray !! n = Some np ->
  exists j l1 j' l' head,
    lst_sort_sym_loop g lg symarray n 0 (0, set_p_line 0 l) = Some (j, l1)
    /\ lst_sort_sym_loop g lg symarray (S n) 0 (0, set_p_line 0 l)
       = Some (j', l')
    /\ lstfp l'
       = lstfp l1 ++ head ++ sym_text lg np
         ++ (if Z.of_nat (S n) mod per_line lg =? 0 then [10]
             else chars "   ")
    /\ (p_line l1 <> 0 -> head = [])
    /\ (j' = 0 <-> Z.of_nat (S n) mod per_line lg = 0).
Proof.
  intros Hs Hn.
  pose proof (lookup_lt_Some _ _ _ Hn) as Hlt.
  rewrite !lst_sort_sym_loop_entries by (cbn; lia).
  rewrite drop_0, (take_S_r _ _ _ Hn).
  pose proof (lst_entries_column g lg (take n symarray) (set_p_line 0 l) Hs)
    as Hj.
  pose proof (lst_entries_column g lg (take n symarray ++ [np])
                (set_p_line 0 l) Hs) as Hj'.
  rewrite length_app, length_take in Hj'. rewrite length_take in Hj.
  cbn [length] in Hj'.
  replace (n `min` length symarray + 1)%nat with (S n) in Hj' by lia.
  replace (n `min` length symarray)%nat with n in Hj by lia.
  unfold lst_entries in *. rewrite fold_left_app in *. cbn [fold_left] in *.
  destruct (fold_left _ (take n symarray) (0, set_p_line 0 l)) as [j l1].
  cbn [fst] in Hj.
  destruct (lst_sym_entry_closed g lg np j l1) as (head & l' & E & Ht & Hh).
  rewrite E in Hj' |- *. cbn [fst] in Hj'.
  assert (Hk : 0 < per_line lg) by (unfold per_line; lia).
  pose proof (Z.mod_pos_bound (Z.of_nat (S n)) (per_line lg) Hk) as Hr.
  assert (Hz : (80 <=? j + symmax lg + 9 + symmax lg + 6)
               = (Z.of_nat (S n) mod per_line lg =? 0)).
  { destruct (Z.leb_spec 80 (j + symmax lg + 9 + symmax lg + 6)).
    - symmetry. apply Z.eqb_eq. nia.
    - symmetry. apply Z.eqb_neq. intros H0. rewrite H0 in Hj'.
      assert (0 <= j).
      { rewrite Hj. apply Z.mul_nonneg_nonneg; [|lia].
        apply Z.mod_pos_bound. exact Hk. }
      lia. }
  eexists _, _, _, _, head. split; [reflexivity|]. split; [reflexivity|].
  split; [by rewrite Ht, Hz|]. split; [exact Hh|].
  rewrite Hj'. split; [nia|]. intros ->. lia.
Qed.

Lemma X23_symbols_per_line_witness :
  0 <= symmax listing_on
  /\ [Sym "START" 256 1; Sym "LOOP" 4660 0] !! 1%nat = Some (Sym "LOOP" 4660 0)
  /\ exists j l1 j' l',
       lst_sort_sym_loop raw_binary listing_on
         [Sym "START" 256 1; Sym "LOOP" 4660 0] 1 0
         (0, set_p_line 0 empty_listing) = Some (j, l1)
       /\ lst_sort_sym_loop raw_binary listing_on
            [Sym "START" 256 1; Sym "LOOP" 4660 0] 2 0
            (0, set_p_line 0 empty_listing) = Some (j', l')
       /\ (j' = 0 <-> Z.of_nat 2 mod per_line listing_on = 0).
Proof.
  split; [by vm_compute|]. split; [reflexivity|].
  destruct (X23_symbols_per_line raw_binary listing_on
              [Sym "START" 256 1; Sym "LOOP" 4660 0] 1 (Sym "LOOP" 4660 0)
              empty_listing ltac:(by vm_compute) eq_refl)
    as (j & l1 & j' & l' & head & E1 & E2 & _ & _ & H).
  exists j, l1, j', l'. by split_and!.
Defined.

Lemma lst_header_closed (g : globals) (lg : lglobals) (title : string)
    (l : listing) :
  lst_header g lg title l
  = Listing
      (lstfp l ++ header_text g lg title (header_done l) (page l)
                    (hd EmptyString (clock l)))
      (if ppl lg =? 0 then 0 else 3)
      (if ppl lg =? 0 then page l else page l + 1)
      (s_line l) true (attl_done l) (a_addr l) (tl (clock l)).
Proof.
  unfold lst_header, header_text.
  destruct l as [f p pg sl hd ad aa ck].
  destruct (ppl lg =? 0), hd;
    cbv beta iota zeta delta
      [fputs_lst set_lstfp set_p_line set_page set_clock set_header_done
       set_attl_done lstfp p_line page s_line header_done attl_done a_addr
       clock negb andb orb];
    rewrite <- ?app_assoc; reflexivity.
Qed.

Lemma lst_attl_closed (lg : lglobals) (l : listing) :
  lst_attl lg l
  = Listing (lstfp l ++ attl_text lg (attl_done l))
      (if ppl lg =? 0 then p_line l else p_line l + 2)
      (page l) (s_line l) (header_done l) true (a_addr l) (clock l).
Proof.
  unfold lst_attl, attl_text.
  destruct l as [f p pg sl hd ad aa ck].
  destruct (ppl lg =? 0), ad;
    cbv beta iota zeta delta
      [fputs_lst set_lstfp set_p_line set_page set_clock set_header_done
       set_attl_done lstfp p_line page s_line header_done attl_done a_addr
       clock negb andb orb];
    rewrite ?app_nil_r; reflexivity.
Qed.

(** X24: the headings of the listing.  The first page header starts
    with the program name, without a form feed.  After a first
    [lst_header] and [lst_attl], with [ppl = 0] the next pair prints
    only an empty line, so a listing that is not cut into pages has
    its headings once, and the page number is not counted; with
    [ppl <> 0] the next header starts with a form feed, each header
    counts a page and the pair leaves the line counter at 5.  Every
    header takes one reading of the clock. *)
Theorem X24_headings (g : globals) (lg : lglobals) (title title' : string)
    (l : listing) :
  let l1 := lst_attl lg (lst_header g lg title l) in
  let l2 := lst_attl lg (lst_header g lg title' l1) in
  (header_done l = false ->
     exists rest,
       lstfp (lst_header g lg title l)
       = lstfp l ++ chars "Z80-Macro-Assembler  Release " ++ rest)
  /\ (if ppl lg =? 0
      then lstfp l2 = lstfp l1 ++ [10] /\ page l2 = page l /\ p_line l2 = 0
      else (exists rest, lstfp l2 = lstfp l1 ++ [12] ++ rest)
           /\ page l2 = page l + 2 /\ p_line l2 = 5)
  /\ clock l2 = tl (tl (clock l)).
Proof.
  cbn zeta. rewrite !lst_attl_closed, !lst_header_closed.
  cbn [lstfp p_line page s_line header_done attl_done a_addr clock].
  unfold header_text, attl_text.
  split; [|split; [|reflexivity]].
  - intros ->. cbn [negb andb orb]. rewrite <- !app_assoc. by eexists.
  - destruct (ppl lg =? 0); cbn [negb andb orb].
    + split; [|by split]. cbn [app]. by rewrite app_nil_r.
    + split; [|split; [lia|reflexivity]].
      eexists. rewrite <- !app_assoc. reflexivity.
Qed.
